(** * wweb-bot: the event synchronisation core, embedded in Rocq

    A shallow embedding of the synchronisation subsystem of the bot:

    - the session state machine of [src/config/whatsapp.js];
    - the Mongoose models: the message log (with the session model in
      [src/models/session.model.js]), the watchlist
      ([src/models/watchlist.model.js]) and the group settings
      ([src/models/settings.model.js]);
    - the formatters of [src/utils/formatters.js] the handlers call;
    - the WhatsApp event handlers ([handleMessage], [handleMessageAck],
      [handleMessageRevoke], [handleMessageReaction], [handleGroupJoin],
      ...) and their registration in [initializeEventHandlers];
    - the part of the watchlist service behind [markAsRead].

    Modelling conventions.

    - A MongoDB collection is the list of its documents in natural
      (insertion) order.  [findOne] returns the first document matching the
      filter, [findOneAndUpdate] and [save] rewrite that document in place,
      [create] validates the document against the schema and appends it.
      The [createdAt] and [updatedAt] stamps Mongoose keeps are left out.
    - [Date] values are integers (milliseconds since the epoch); every
      function that reads the clock ([new Date()]) takes the current time as
      an argument.
    - JavaScript numbers are modelled by [Z]; the counters of the program stay
      far below 2^53, where the two coincide.
    - Handlers run in an error monad over the world: a thrown exception keeps
      the writes already performed and aborts the rest of the handler, and
      the [try]/[catch] of the listener swallows it.  Handlers run one after
      the other; their interleaving at [await] points is not modelled.
    - Reads and writes of the durable store themselves are taken to
      succeed; what can fail is schema validation and the calls to the
      session collaborator.  Logging is left out. *)

From Stdlib Require Import List String Ascii ZArith Bool Lia Arith Permutation Sorted.
Import ListNotations.
Local Open Scope string_scope.
Local Open Scope Z_scope.

Set Implicit Arguments.

(* ------------------------------------------------------------------ *)
(** ** JavaScript primitives used by the program *)

Module JS.

(** Truthiness of a string: only the empty string is falsy. *)
Definition truthy (s : string) : bool :=
  match s with EmptyString => false | String _ _ => true end.

(** [a || b] on strings. *)
Definition or_else (a b : string) : string := if truthy a then a else b.

(** [a || b] on numbers: [0] is falsy. *)
Definition num_or (a b : Z) : Z := if a =? 0 then b else a.

Fixpoint drop (n : nat) (s : string) : string :=
  match n, s with
  | O, _ => s
  | S _, EmptyString => EmptyString
  | S n', String _ s' => drop n' s'
  end.

(** [s.includes(pat)] *)
Fixpoint includes (s pat : string) : bool :=
  if String.prefix pat s then true
  else match s with
       | EmptyString => false
       | String _ s' => includes s' pat
       end.

(** [s.endsWith(suffix)] *)
Fixpoint endsWith (s suffix : string) : bool :=
  if String.eqb s suffix then true
  else match s with
       | EmptyString => false
       | String _ s' => endsWith s' suffix
       end.

(** The text before and after the first occurrence of [pat] in [s]. *)
Fixpoint split_first (s pat : string) : option (string * string) :=
  if String.prefix pat s then Some (EmptyString, drop (String.length pat) s)
  else match s with
       | EmptyString => None
       | String c s' =>
           match split_first s' pat with
           | Some (before, after) => Some (String c before, after)
           | None => None
           end
       end.

(** Expansion of the replacement patterns of [String.prototype.replace]
    when the pattern is a string (there are no capture groups, so [$1] and
    the like stay literal). *)
Fixpoint expand (rep before matched after : string) : string :=
  match rep with
  | EmptyString => EmptyString
  | String "$" (String "$" r) => String "$" (expand r before matched after)
  | String "$" (String "&" r) => matched ++ expand r before matched after
  | String "$" (String "`" r) => before ++ expand r before matched after
  | String "$" (String "'" r) => after ++ expand r before matched after
  | String c r => String c (expand r before matched after)
  end.

(** [s.replace(pat, rep)] with a string pattern: only the first occurrence
    is replaced. *)
Definition replace (s pat rep : string) : string :=
  match split_first s pat with
  | None => s
  | Some (before, after) => before ++ expand rep before pat after ++ after
  end.

Definition newline : string := String (ascii_of_nat 10) EmptyString.

End JS.

(* ------------------------------------------------------------------ *)
(** ** [src/config/constants.js] *)

Module Constants.

Inductive ClientStatus :=
| INITIALIZING | QR_READY | AUTHENTICATED | READY | DISCONNECTED | FAILED.

Definition ClientStatus_eqb (a b : ClientStatus) : bool :=
  match a, b with
  | INITIALIZING, INITIALIZING | QR_READY, QR_READY
  | AUTHENTICATED, AUTHENTICATED | READY, READY
  | DISCONNECTED, DISCONNECTED | FAILED, FAILED => true
  | _, _ => false
  end.

Inductive ChatType := PRIVATE | GROUP | CHANNEL | BROADCAST.

(** [MESSAGE_ACK] *)
Definition ACK_ERROR : Z := -1.
Definition ACK_PENDING : Z := 0.
Definition ACK_SENT : Z := 1.
Definition ACK_RECEIVED : Z := 2.
Definition ACK_READ : Z := 3.
Definition ACK_PLAYED : Z := 4.

Definition MESSAGE_ACK_values : list Z :=
  [ACK_ERROR; ACK_PENDING; ACK_SENT; ACK_RECEIVED; ACK_READ; ACK_PLAYED].

Definition TEXT : string := "chat".

(** [Object.values(MESSAGE_TYPES)] *)
Definition MESSAGE_TYPES_values : list string :=
  [ "chat"; "image"; "video"; "audio"; "ptt"; "document"; "sticker";
    "location"; "vcard"; "multi_vcard"; "revoked"; "order"; "product";
    "payment"; "unknown"; "groups_v4_invite"; "list"; "list_response";
    "buttons_response"; "broadcast_notification"; "call_log"; "ciphertext";
    "debug"; "e2e_notification"; "gp2"; "notification"; "hsm";
    "interactive"; "native_flow"; "notification_template"; "oversized";
    "protocol"; "reaction"; "template_button_reply"; "poll_creation" ].

(** [WS_EVENTS] (the names the handlers use) *)
Inductive WsEvent :=
| CLIENT_READY | CLIENT_QR | CLIENT_DISCONNECTED | CLIENT_STATUS
| MESSAGE_NEW | MESSAGE_ACK | MESSAGE_REVOKED | MESSAGE_EDIT
| MESSAGE_REACTION
| GROUP_JOIN | GROUP_LEAVE | GROUP_UPDATE | GROUP_ADMIN_CHANGED
| GROUP_MEMBERSHIP_REQUEST
| CHAT_ARCHIVED | CONTACT_CHANGED
| WATCHLIST_UPDATE | WATCHLIST_MESSAGE.

Definition WsEvent_eqb (a b : WsEvent) : bool :=
  match a, b with
  | CLIENT_READY, CLIENT_READY | CLIENT_QR, CLIENT_QR
  | CLIENT_DISCONNECTED, CLIENT_DISCONNECTED
  | CLIENT_STATUS, CLIENT_STATUS
  | MESSAGE_NEW, MESSAGE_NEW | MESSAGE_ACK, MESSAGE_ACK
  | MESSAGE_REVOKED, MESSAGE_REVOKED | MESSAGE_EDIT, MESSAGE_EDIT
  | MESSAGE_REACTION, MESSAGE_REACTION
  | GROUP_JOIN, GROUP_JOIN | GROUP_LEAVE, GROUP_LEAVE
  | GROUP_UPDATE, GROUP_UPDATE
  | GROUP_ADMIN_CHANGED, GROUP_ADMIN_CHANGED
  | GROUP_MEMBERSHIP_REQUEST, GROUP_MEMBERSHIP_REQUEST
  | CHAT_ARCHIVED, CHAT_ARCHIVED | CONTACT_CHANGED, CONTACT_CHANGED
  | WATCHLIST_UPDATE, WATCHLIST_UPDATE
  | WATCHLIST_MESSAGE, WATCHLIST_MESSAGE => true
  | _, _ => false
  end.

End Constants.
Import Constants.

(* ------------------------------------------------------------------ *)
(** ** [src/config/whatsapp.js]: the session state machine *)

Module Whatsapp.

(** The module-level variables [client], [clientStatus], [currentQR]. *)
Record State := mkState {
  client : bool;                  (* [client !== null] *)
  clientStatus : ClientStatus;
  currentQR : option string;
}.

Definition initial : State :=
  {| client := false; clientStatus := DISCONNECTED; currentQR := None |}.

(** What is emitted on [clientEvents]. *)
Inductive Emit :=
| EmitStatus (s : ClientStatus)
| EmitQr (qr : string)
| EmitAuthenticated
| EmitReady
| EmitDisconnected (reason : string)
| EmitAuthFailure (msg : string)
| EmitSessionSaved
| EmitLoading
| EmitStateChange.

(** Everything that drives the module: the exported calls and the events
    of the library client the listeners of [attachEventListeners] are
    attached to. *)
Inductive Input :=
| CallInitializeClient            (* [initializeClient()] *)
| InitializeRejected              (* [initializeAsync()] rejects *)
| OnQr (qr : string)
| OnAuthenticated
| OnReady
| OnDisconnected (reason : string)
| OnRemoteSessionSaved
| OnAuthFailure (msg : string)
| OnLoadingScreen
| OnChangeState
| CallDestroyClient (destroyed : bool)   (* does [client.destroy()] resolve *)
| CallLogoutClient (loggedOut : bool).   (* does [client.logout()] resolve *)

(** A listener fires only on a client that was created, and the rejection
    handler only after an initialisation was started. *)
Definition enabled (i : Input) (s : State) : bool :=
  match i with
  | CallInitializeClient | CallDestroyClient _ | CallLogoutClient _ => true
  | _ => client s
  end.

Definition step (i : Input) (s : State) : State * list Emit :=
  match i with
  | CallInitializeClient =>
      if client s && ClientStatus_eqb (clientStatus s) READY then (s, [])
      else
        (* initializeAsync *)
        ({| client := true; clientStatus := INITIALIZING;
            currentQR := currentQR s |},
         [EmitStatus INITIALIZING])
  | InitializeRejected =>
      ({| client := client s; clientStatus := FAILED;
          currentQR := currentQR s |},
       [EmitStatus FAILED])
  | OnQr qr =>
      ({| client := client s; clientStatus := QR_READY;
          currentQR := Some qr |},
       [EmitQr qr; EmitStatus QR_READY])
  | OnAuthenticated =>
      ({| client := client s; clientStatus := AUTHENTICATED;
          currentQR := None |},
       [EmitAuthenticated; EmitStatus AUTHENTICATED])
  | OnReady =>
      ({| client := client s; clientStatus := READY;
          currentQR := currentQR s |},
       [EmitReady; EmitStatus READY])
  | OnDisconnected reason =>
      ({| client := client s; clientStatus := DISCONNECTED;
          currentQR := None |},
       [EmitDisconnected reason; EmitStatus DISCONNECTED])
  | OnRemoteSessionSaved => (s, [EmitSessionSaved])
  | OnAuthFailure msg =>
      ({| client := client s; clientStatus := FAILED;
          currentQR := currentQR s |},
       [EmitAuthFailure msg; EmitStatus FAILED])
  | OnLoadingScreen => (s, [EmitLoading])
  | OnChangeState => (s, [EmitStateChange])
  | CallDestroyClient destroyed =>
      if client s && destroyed then
        ({| client := false; clientStatus := DISCONNECTED;
            currentQR := None |}, [])
      else (s, [])
  | CallLogoutClient loggedOut =>
      if client s && loggedOut then
        ({| client := client s; clientStatus := DISCONNECTED;
            currentQR := None |}, [])
      else (s, [])
  end.

Definition getClientStatus (s : State) : ClientStatus := clientStatus s.
Definition getCurrentQR (s : State) : option string := currentQR s.
Definition isClientReady (s : State) : bool :=
  client s && ClientStatus_eqb (clientStatus s) READY.

(** The states the module can be in. *)
Inductive reachable : State -> Prop :=
| reachable_initial : reachable initial
| reachable_step i s :
    reachable s -> enabled i s = true -> reachable (fst (step i s)).

(** Running a sequence of inputs; an input that is not enabled is
    skipped. *)
Fixpoint run (inputs : list Input) (s : State) : State :=
  match inputs with
  | [] => s
  | i :: rest => run rest (if enabled i s then fst (step i s) else s)
  end.

End Whatsapp.


(* ------------------------------------------------------------------ *)
(** ** Values, errors and collections *)

(** The JSON values the handlers put in broadcast payloads. *)
#[local] Unset Elimination Schemes.
Inductive Json :=
| JUndefined
| JNull
| JBool (b : bool)
| JNum (n : Z)
| JStr (s : string)
| JDate (ms : Z)
| JArr (items : list Json)
| JObj (fields : list (string * Json)).
#[local] Set Elimination Schemes.

Definition JStrs (l : list string) : Json := JArr (map JStr l).

Definition JOptStr (o : option string) : Json :=
  match o with Some s => JStr s | None => JNull end.

(** The value of a property of a payload ([undefined] when absent). *)
Fixpoint property (k : string) (fields : list (string * Json)) : Json :=
  match fields with
  | [] => JUndefined
  | (k', v) :: rest => if String.eqb k k' then v else property k rest
  end.

Definition keys (j : Json) : list string :=
  match j with JObj fields => map fst fields | _ => [] end.

Inductive Error :=
| ValidationError (path : string)     (* Mongoose schema validation *)
| CollaboratorError (what : string).  (* a call to the session rejected *)

Inductive result (A : Type) :=
| Ok (a : A)
| Err (e : Error).
Arguments Ok {A} a.
Arguments Err {A} e.

Section Collection.
Variable Doc : Type.

(** [Model.findOne(filter)] *)
Definition findOne (filter : Doc -> bool) (coll : list Doc) : option Doc :=
  List.find filter coll.

(** The write of [findOneAndUpdate(filter, update)] and of [doc.save()]:
    the first matching document is rewritten in place. *)
Fixpoint updateFirst (filter : Doc -> bool) (update : Doc -> Doc)
         (coll : list Doc) : list Doc :=
  match coll with
  | [] => []
  | d :: rest =>
      if filter d then update d :: rest
      else d :: updateFirst filter update rest
  end.

(** [cursor.limit(n)]; MongoDB reads a limit of 0 as no limit. *)
Definition limit (n : nat) (l : list Doc) : list Doc :=
  match n with
  | O => l
  | _ => firstn n l
  end.

(** How many documents satisfy a filter. *)
Definition countDocuments (filter : Doc -> bool) (coll : list Doc) : nat :=
  List.length (List.filter filter coll).
End Collection.

(** Mongoose's [required] validator on a [String] path rejects the empty
    string. *)
Definition required (path value : string) : result unit :=
  if JS.truthy value then Ok tt else Err (ValidationError path).

Definition mem_string (s : string) (l : list string) : bool :=
  existsb (String.eqb s) l.

Definition mem_Z (z : Z) (l : list Z) : bool := existsb (Z.eqb z) l.

(* ------------------------------------------------------------------ *)
(** ** The objects of the session library the handlers receive *)

Module WA.

Record Link := mkLink { link : string; isSuspicious : bool }.

(** A [Message] of the library; [id] is [message.id._serialized],
    [timestamp] is in seconds, [ack] may be undefined. *)
Record Message := mkMessage {
  id : string;
  from : string;
  to : string;
  author : option string;
  body : string;
  type : string;
  timestamp : Z;
  fromMe : bool;
  ack : option Z;
  hasMedia : bool;
  hasQuotedMsg : bool;
  isForwarded : bool;
  forwardingScore : Z;
  isStarred : bool;
  mentionedIds : list string;
  groupMentions : list string;
  links : list Link;
  vCards : list string;
}.

Record Contact := mkContact {
  contactId : string;        (* [contact.id._serialized] *)
  number : string;           (* [contact.number], empty when absent *)
  user : string;             (* [contact.id.user] *)
}.

Record Reaction := mkReaction {
  reactionId : string;       (* [reaction.id._serialized] *)
  reaction : string;         (* the emoji, empty when the reaction is removed *)
  senderId : string;
  reactionTimestamp : Z;     (* seconds *)
  orphaned : bool;
  msgId : string;            (* [reaction.msgId._serialized] *)
}.

Record GroupNotification := mkGroupNotification {
  notificationId : string;
  notificationType : string;
  chatId : string;
  notificationAuthor : string;
  recipientIds : list string;
  notificationTimestamp : Z; (* seconds *)
}.

(** The session client as the handlers use it: which contacts and chats
    resolve, and whether a send to a chat goes through. *)
Record Client := mkClient {
  getContactById : string -> option Contact;
  getChatById : string -> bool;
  sendMessage : string -> bool;
}.

End WA.

(** [x || null] on an optional string. *)
Definition or_null (o : option string) : option string :=
  match o with
  | Some s => if JS.truthy s then Some s else None
  | None => None
  end.

(** [message.timestamp ? new Date(message.timestamp * 1000) : new Date()] *)
Definition dateOf (seconds now : Z) : Z :=
  if seconds =? 0 then now else seconds * 1000.

(* ------------------------------------------------------------------ *)
(** ** [src/models]: the message log *)

Module MessageModel.

Record Reaction := mkReaction {
  emoji : string;
  senderId : string;
  reactedAt : Z;      (* the [timestamp] of the reaction entry *)
}.

(** A document of the [Message] collection.  The paths that no operation
    of the model writes ([media], [location], [quotedMessageId]) keep their
    schema defaults and are left out. *)
Record Doc := mkDoc {
  messageId : string;
  chatId : string;
  from : string;
  to : string;
  author : option string;
  body : string;
  type : string;
  timestamp : Z;
  fromMe : bool;
  ack : Z;
  hasMedia : bool;
  hasQuotedMsg : bool;
  isForwarded : bool;
  forwardingScore : Z;
  isStarred : bool;
  isEdited : bool;
  isDeleted : bool;
  mentionedIds : list string;
  groupMentions : list string;
  links : list WA.Link;
  reactions : list Reaction;
  vCards : list string;
}.

Definition set_ack (a : Z) (d : Doc) : Doc :=
  mkDoc (messageId d) (chatId d) (from d) (to d) (author d) (body d)
        (type d) (timestamp d) (fromMe d) a (hasMedia d)
        (hasQuotedMsg d) (isForwarded d) (forwardingScore d) (isStarred d)
        (isEdited d) (isDeleted d) (mentionedIds d) (groupMentions d)
        (links d) (reactions d) (vCards d).

Definition set_body (b : string) (d : Doc) : Doc :=
  mkDoc (messageId d) (chatId d) (from d) (to d) (author d) b
        (type d) (timestamp d) (fromMe d) (ack d) (hasMedia d)
        (hasQuotedMsg d) (isForwarded d) (forwardingScore d) (isStarred d)
        (isEdited d) (isDeleted d) (mentionedIds d) (groupMentions d)
        (links d) (reactions d) (vCards d).

Definition set_isEdited (e : bool) (d : Doc) : Doc :=
  mkDoc (messageId d) (chatId d) (from d) (to d) (author d) (body d)
        (type d) (timestamp d) (fromMe d) (ack d) (hasMedia d)
        (hasQuotedMsg d) (isForwarded d) (forwardingScore d) (isStarred d)
        e (isDeleted d) (mentionedIds d) (groupMentions d)
        (links d) (reactions d) (vCards d).

Definition set_isDeleted (x : bool) (d : Doc) : Doc :=
  mkDoc (messageId d) (chatId d) (from d) (to d) (author d) (body d)
        (type d) (timestamp d) (fromMe d) (ack d) (hasMedia d)
        (hasQuotedMsg d) (isForwarded d) (forwardingScore d) (isStarred d)
        (isEdited d) x (mentionedIds d) (groupMentions d)
        (links d) (reactions d) (vCards d).

Definition set_reactions (rs : list Reaction) (d : Doc) : Doc :=
  mkDoc (messageId d) (chatId d) (from d) (to d) (author d) (body d)
        (type d) (timestamp d) (fromMe d) (ack d) (hasMedia d)
        (hasQuotedMsg d) (isForwarded d) (forwardingScore d) (isStarred d)
        (isEdited d) (isDeleted d) (mentionedIds d) (groupMentions d)
        (links d) rs (vCards d).

Definition tombstone : string := "This message was deleted".

(** *** Instance methods (the document after [this.save()]) *)

Definition updateAck (a : Z) (d : Doc) : Doc := set_ack a d.

Definition addReaction (e sender : string) (now : Z) (d : Doc) : Doc :=
  (* Remove existing reaction from same sender *)
  let kept :=
    filter (fun r => negb (String.eqb (senderId r) sender)) (reactions d) in
  (* Add new reaction if not empty (empty means reaction removed) *)
  if JS.truthy e
  then set_reactions (kept ++ [mkReaction e sender now])%list d
  else set_reactions kept d.

Definition markAsDeleted (d : Doc) : Doc :=
  set_body tombstone (set_isDeleted true d).

Definition markAsEdited (newBody : string) (d : Doc) : Doc :=
  set_isEdited true (set_body newBody d).

(** *** Static methods *)

Definition byMessageId (m : string) (d : Doc) : bool :=
  String.eqb (messageId d) m.

(** The document [logMessage] builds for [create]. *)
Definition docOf (message : WA.Message) (now : Z) : Doc :=
  {| messageId := WA.id message;
     chatId :=
       if JS.includes (WA.from message) "@g.us" then WA.from message
       else if WA.fromMe message then WA.to message
       else WA.from message;
     from := WA.from message;
     to := WA.to message;
     author := or_null (WA.author message);
     body := WA.body message;
     type := JS.or_else (WA.type message) TEXT;
     timestamp := dateOf (WA.timestamp message) now;
     fromMe := WA.fromMe message;
     ack := match WA.ack message with Some a => a | None => ACK_PENDING end;
     hasMedia := WA.hasMedia message;
     hasQuotedMsg := WA.hasQuotedMsg message;
     isForwarded := WA.isForwarded message;
     forwardingScore := WA.forwardingScore message;
     isStarred := WA.isStarred message;
     isEdited := false;
     isDeleted := false;
     mentionedIds := WA.mentionedIds message;
     groupMentions := WA.groupMentions message;
     links := WA.links message;
     reactions := [];
     vCards := WA.vCards message |}.

(** Schema validation on [create]: the [required] paths and the two
    [enum]s. *)
Definition validate (d : Doc) : result unit :=
  match required "messageId" (messageId d) with
  | Err e => Err e
  | Ok _ =>
  match required "chatId" (chatId d) with
  | Err e => Err e
  | Ok _ =>
  match required "from" (from d) with
  | Err e => Err e
  | Ok _ =>
  match required "to" (to d) with
  | Err e => Err e
  | Ok _ =>
    if negb (mem_string (type d) MESSAGE_TYPES_values)
    then Err (ValidationError "type")
    else if negb (mem_Z (ack d) MESSAGE_ACK_values)
    then Err (ValidationError "ack")
    else Ok tt
  end end end end.

(** [Message.create(doc)]; the collection has a unique index on
    [messageId]. *)
Definition create (d : Doc) (coll : list Doc) : result (list Doc * Doc) :=
  match validate d with
  | Err e => Err e
  | Ok _ =>
      match findOne (byMessageId (messageId d)) coll with
      | Some _ => Err (ValidationError "E11000 duplicate key: messageId")
      | None => Ok ((coll ++ [d])%list, d)
      end
  end.

(** [Message.logMessage(message)]: the collection afterwards and the
    document returned. *)
Definition logMessage (message : WA.Message) (now : Z) (coll : list Doc)
  : result (list Doc * Doc) :=
  match findOne (byMessageId (WA.id message)) coll with
  | Some existingMessage => Ok (coll, existingMessage)
  | None => create (docOf message now) coll
  end.

Record Options := mkOptions {
  optLimit : option nat;
  before : option Z;
  after : option Z;
  includeDeleted : option bool;
}.

Definition noOptions : Options := mkOptions None None None None.

Definition withDefault {A} (o : option A) (d : A) : A :=
  match o with Some a => a | None => d end.

(** The query [getChatMessages] builds. *)
Definition query (c : string) (options : Options) (d : Doc) : bool :=
  String.eqb (chatId d) c
  && (if withDefault (includeDeleted options) false then true
      else negb (isDeleted d))
  && match before options, after options with
     | Some b, _ => timestamp d <? b
     | None, Some a => timestamp d >? a
     | None, None => true
     end.

(** [.sort({ timestamp: -1 })]: newest first.  MongoDB leaves the order
    of documents with equal timestamps open; here they keep their natural
    order. *)
Fixpoint insertDesc (d : Doc) (sorted : list Doc) : list Doc :=
  match sorted with
  | [] => [d]
  | x :: rest =>
      if timestamp x <=? timestamp d then d :: sorted
      else x :: insertDesc d rest
  end.

Fixpoint sortDesc (l : list Doc) : list Doc :=
  match l with
  | [] => []
  | d :: rest => insertDesc d (sortDesc rest)
  end.

Definition getChatMessages (c : string) (options : Options)
           (coll : list Doc) : list Doc :=
  let messages :=
    limit (withDefault (optLimit options) 50%nat)
          (sortDesc (filter (query c options) coll)) in
  rev messages.

End MessageModel.

(* ------------------------------------------------------------------ *)
(** ** [src/models/watchlist.model.js] *)

Module WatchlistModel.

Record LastMessage := mkLastMessage {
  content : string;
  timestamp : option Z;
  from : option string;
  fromMe : bool;
  type : string;
}.

Definition defaultLastMessage : LastMessage :=
  mkLastMessage "" None None false "chat".

Record Metadata := mkMetadata {
  participantCount : Z;
  description : string;
  isReadOnly : bool;
  isMuted : bool;
}.

Record Entry := mkEntry {
  chatId : string;
  chatName : string;
  chatType : ChatType;
  isActive : bool;
  notifications : bool;
  order : Z;
  pinned : bool;
  unreadCount : Z;
  lastMessage : LastMessage;
  profilePicUrl : option string;
  metadata : Metadata;
  notes : string;
  tags : list string;
  addedAt : Z;
}.

Definition set_isActive (b : bool) (e : Entry) : Entry :=
  mkEntry (chatId e) (chatName e) (chatType e) b (notifications e)
          (order e) (pinned e) (unreadCount e) (lastMessage e)
          (profilePicUrl e) (metadata e) (notes e) (tags e) (addedAt e).

Definition set_notifications (b : bool) (e : Entry) : Entry :=
  mkEntry (chatId e) (chatName e) (chatType e) (isActive e) b
          (order e) (pinned e) (unreadCount e) (lastMessage e)
          (profilePicUrl e) (metadata e) (notes e) (tags e) (addedAt e).

Definition set_order (o : Z) (e : Entry) : Entry :=
  mkEntry (chatId e) (chatName e) (chatType e) (isActive e)
          (notifications e) o (pinned e) (unreadCount e) (lastMessage e)
          (profilePicUrl e) (metadata e) (notes e) (tags e) (addedAt e).

Definition set_pinned (b : bool) (e : Entry) : Entry :=
  mkEntry (chatId e) (chatName e) (chatType e) (isActive e)
          (notifications e) (order e) b (unreadCount e) (lastMessage e)
          (profilePicUrl e) (metadata e) (notes e) (tags e) (addedAt e).

Definition set_unreadCount (n : Z) (e : Entry) : Entry :=
  mkEntry (chatId e) (chatName e) (chatType e) (isActive e)
          (notifications e) (order e) (pinned e) n (lastMessage e)
          (profilePicUrl e) (metadata e) (notes e) (tags e) (addedAt e).

Definition set_lastMessage (m : LastMessage) (e : Entry) : Entry :=
  mkEntry (chatId e) (chatName e) (chatType e) (isActive e)
          (notifications e) (order e) (pinned e) (unreadCount e) m
          (profilePicUrl e) (metadata e) (notes e) (tags e) (addedAt e).

(** *** Instance methods (the document after [this.save()]) *)

Definition updateLastMessage (message : WA.Message) (now : Z) (e : Entry)
  : Entry :=
  let e1 :=
    set_lastMessage
      {| content := WA.body message;
         timestamp := Some (dateOf (WA.timestamp message) now);
         from := match or_null (WA.author message) with
                 | Some a => Some a
                 | None => Some (WA.from message)
                 end;
         fromMe := WA.fromMe message;
         type := JS.or_else (WA.type message) "chat" |} e in
  if negb (WA.fromMe message)
  then set_unreadCount (unreadCount e1 + 1) e1
  else e1.

Definition markAsRead (e : Entry) : Entry := set_unreadCount 0 e.

Definition togglePin (e : Entry) : Entry := set_pinned (negb (pinned e)) e.

Definition toggleNotifications (e : Entry) : Entry :=
  set_notifications (negb (notifications e)) e.

(** *** Static methods *)

Definition byChatId (c : string) (e : Entry) : bool :=
  String.eqb (chatId e) c.

(** The filter [{ chatId, isActive: true }]. *)
Definition activeChat (c : string) (e : Entry) : bool :=
  String.eqb (chatId e) c && isActive e.

(** What the service hands to [addToWatchlist]. *)
Record ChatData := mkChatData {
  dataChatId : string;
  dataChatName : string;
  dataChatType : ChatType;
  dataProfilePicUrl : option string;
  dataMetadata : Metadata;
  dataLastMessage : option LastMessage;
}.

(** [findOne(filter).sort({ order: -1 })]: the first document of the
    matching ones sorted by descending [order]. *)
Fixpoint firstByOrderDesc (l : list Entry) : option Entry :=
  match l with
  | [] => None
  | e :: rest =>
      match firstByOrderDesc rest with
      | Some e' => if order e <? order e' then Some e' else Some e
      | None => Some e
      end
  end.

(** [Watchlist.create({ ...chatData, order })] with the schema defaults;
    the collection has a unique index on [chatId]. *)
Definition create (chatData : ChatData) (o : Z) (now : Z)
           (coll : list Entry) : result (list Entry * Entry) :=
  match required "chatId" (dataChatId chatData) with
  | Err e => Err e
  | Ok _ =>
  match required "chatName" (dataChatName chatData) with
  | Err e => Err e
  | Ok _ =>
    match findOne (byChatId (dataChatId chatData)) coll with
    | Some _ => Err (ValidationError "E11000 duplicate key: chatId")
    | None =>
        let e :=
          {| chatId := dataChatId chatData;
             chatName := dataChatName chatData;
             chatType := dataChatType chatData;
             isActive := true;
             notifications := true;
             order := o;
             pinned := false;
             unreadCount := 0;
             lastMessage := MessageModel.withDefault
                              (dataLastMessage chatData) defaultLastMessage;
             profilePicUrl := dataProfilePicUrl chatData;
             metadata := dataMetadata chatData;
             notes := "";
             tags := [];
             addedAt := now |} in
        Ok ((coll ++ [e])%list, e)
    end
  end end.

Definition addToWatchlist (chatData : ChatData) (now : Z)
           (coll : list Entry) : result (list Entry * Entry) :=
  match findOne (byChatId (dataChatId chatData)) coll with
  | Some existing =>
      (* Reactivate if was deactivated *)
      if negb (isActive existing)
      then Ok (updateFirst (byChatId (dataChatId chatData))
                           (set_isActive true) coll,
               set_isActive true existing)
      else Ok (coll, existing)
  | None =>
      let maxOrder := firstByOrderDesc (filter isActive coll) in
      create chatData
             (JS.num_or (match maxOrder with
                         | Some e => order e
                         | None => 0 (* undefined || 0 *)
                         end) 0 + 1)
             now coll
  end.

(** [removeFromWatchlist]: the collection afterwards and the updated
    document ([null] when the chat is not in the collection). *)
Definition removeFromWatchlist (c : string) (coll : list Entry)
  : list Entry * option Entry :=
  (updateFirst (byChatId c) (set_isActive false) coll,
   option_map (set_isActive false) (findOne (byChatId c) coll)).

(** [reorder(orderedIds)]: one [updateOne] per identifier, carrying its
    index. *)
Fixpoint reorderFrom (index : Z) (orderedIds : list string)
         (coll : list Entry) : list Entry :=
  match orderedIds with
  | [] => coll
  | c :: rest =>
      reorderFrom (index + 1) rest
                  (updateFirst (byChatId c) (set_order index) coll)
  end.

Definition reorder (orderedIds : list string) (coll : list Entry)
  : list Entry := reorderFrom 0 orderedIds coll.

End WatchlistModel.

(* ------------------------------------------------------------------ *)
(** ** [src/models/settings.model.js] *)

Module SettingsModel.

Record AutoMessageConfig := mkConfig {
  enabled : bool;
  message : string;
  includeGroupRules : bool;
  mentionUser : bool;
  includeMedia : bool;
  mediaUrl : option string;
  delay : Z;
}.

Record AutoMessages := mkAutoMessages {
  welcome : AutoMessageConfig;
  farewell : AutoMessageConfig;
  rules : AutoMessageConfig;
}.

Record GroupSettings := mkGroupSettings {
  groupId : string;
  groupName : string;
  autoMessages : AutoMessages;
  groupRules : string;
  commandPrefix : string;
  isActive : bool;
  notes : string;
}.

(** The schema defaults of the three triggers (the sub-schema fills
    [includeGroupRules], [includeMedia], [mediaUrl] and [delay]). *)
Definition defaultWelcome : AutoMessageConfig :=
  mkConfig false "Welcome to the group, @{user}! 👋" false true false None 3000.

Definition defaultFarewell : AutoMessageConfig :=
  mkConfig false "Goodbye, {user}! We'll miss you. 👋" false false false
           None 3000.

Definition defaultRules : AutoMessageConfig :=
  mkConfig false "" false false false None 3000.

Definition byGroupId (g : string) (s : GroupSettings) : bool :=
  String.eqb (groupId s) g.

(** The filter [{ groupId, isActive: true }]. *)
Definition activeGroup (g : string) (s : GroupSettings) : bool :=
  String.eqb (groupId s) g && isActive s.

Definition getOrCreate (g name : string) (coll : list GroupSettings)
  : result (list GroupSettings * GroupSettings) :=
  match findOne (byGroupId g) coll with
  | Some settings => Ok (coll, settings)
  | None =>
      match required "groupId" g with
      | Err e => Err e
      | Ok _ =>
      match required "groupName" name with
      | Err e => Err e
      | Ok _ =>
        let settings :=
          mkGroupSettings g name
            (mkAutoMessages defaultWelcome defaultFarewell defaultRules)
            "" "!" true "" in
        Ok ((coll ++ [settings])%list, settings)
      end end
  end.

End SettingsModel.

(* ------------------------------------------------------------------ *)
(** ** [src/utils/formatters.js] (the formatters the handlers call) *)

Module Formatters.

Definition ackLabelOf (a : Z) : string :=
  if a =? ACK_ERROR then "error"
  else if a =? ACK_PENDING then "pending"
  else if a =? ACK_SENT then "sent"
  else if a =? ACK_RECEIVED then "received"
  else if a =? ACK_READ then "read"
  else if a =? ACK_PLAYED then "played"
  else "unknown".

Definition formatAck (a : option Z) : Json :=
  JObj [ ("status", match a with Some z => JNum z | None => JUndefined end);
         ("label", JStr (match a with
                         | Some z => ackLabelOf z
                         | None => "unknown"
                         end)) ].

Definition formatLink (l : WA.Link) : Json :=
  JObj [ ("link", JStr (WA.link l));
         ("isSuspicious", JBool (WA.isSuspicious l)) ].

(** [formatMessage], on the properties of the message that are
    modelled. *)
Definition formatMessage (message : WA.Message) (now : Z) : Json :=
  JObj [ ("id", JStr (WA.id message));
         ("body", JStr (WA.body message));
         ("type", JStr (JS.or_else (WA.type message) TEXT));
         ("timestamp", JDate (dateOf (WA.timestamp message) now));
         ("from", JStr (WA.from message));
         ("to", JStr (WA.to message));
         ("author", JOptStr (or_null (WA.author message)));
         ("fromMe", JBool (WA.fromMe message));
         ("hasMedia", JBool (WA.hasMedia message));
         ("hasQuotedMsg", JBool (WA.hasQuotedMsg message));
         ("isForwarded", JBool (WA.isForwarded message));
         ("forwardingScore", JNum (WA.forwardingScore message));
         ("isStarred", JBool (WA.isStarred message));
         ("mentionedIds", JStrs (WA.mentionedIds message));
         ("groupMentions", JStrs (WA.groupMentions message));
         ("ack", formatAck (WA.ack message));
         ("links", JArr (map formatLink (WA.links message)));
         ("vCards", JStrs (WA.vCards message)) ].

Definition formatGroupNotification (n : WA.GroupNotification) (now : Z)
  : Json :=
  JObj [ ("id", JStr (WA.notificationId n));
         ("type", JStr (WA.notificationType n));
         ("chatId", JStr (WA.chatId n));
         ("author", JStr (WA.notificationAuthor n));
         ("recipientIds", JStrs (WA.recipientIds n));
         ("timestamp", JDate (dateOf (WA.notificationTimestamp n) now)) ].

Definition formatReaction (r : WA.Reaction) (now : Z) : Json :=
  JObj [ ("id", JStr (WA.reactionId r));
         ("reaction", JStr (WA.reaction r));
         ("senderId", JStr (WA.senderId r));
         ("timestamp", JDate (dateOf (WA.reactionTimestamp r) now));
         ("orphaned", JBool (WA.orphaned r));
         ("msgId", JObj [("_serialized", JStr (WA.msgId r))]) ].

End Formatters.

(* ------------------------------------------------------------------ *)
(** ** The WhatsApp event handlers *)

Module Handlers.
Import Formatters.

(** What a handler does to the outside: an invocation of the installed
    broadcast function, the timer of [delay], a [chat.sendMessage]. *)
Inductive Effect :=
| Broadcast (event : WsEvent) (data : Json)
| Delay (ms : Z)
| SendMessage (chat : string) (text : string) (mentions : list WA.Contact).

(** The three collections, whether a broadcast function is installed
    ([broadcastFn !== null]), and the effects so far. *)
Record World := mkWorld {
  watchlist : list WatchlistModel.Entry;
  messages : list MessageModel.Doc;
  groupSettings : list SettingsModel.GroupSettings;
  broadcastFn : bool;
  effects : list Effect;
}.

Definition set_watchlist (l : list WatchlistModel.Entry) (w : World) :=
  mkWorld l (messages w) (groupSettings w) (broadcastFn w) (effects w).

Definition set_messages (l : list MessageModel.Doc) (w : World) :=
  mkWorld (watchlist w) l (groupSettings w) (broadcastFn w) (effects w).

Definition emit (e : Effect) (w : World) :=
  mkWorld (watchlist w) (messages w) (groupSettings w) (broadcastFn w)
          (effects w ++ [e])%list.

Definition setBroadcastFunction (w : World) :=
  mkWorld (watchlist w) (messages w) (groupSettings w) true (effects w).

(** *** The handler monad: state, and exceptions that keep the state *)

Definition M (A : Type) : Type := World -> World * result A.

Definition ret {A} (a : A) : M A := fun w => (w, Ok a).

Definition throw {A} (e : Error) : M A := fun w => (w, Err e).

Definition bind {A B} (m : M A) (k : A -> M B) : M B :=
  fun w =>
    match m w with
    | (w', Ok a) => k a w'
    | (w', Err e) => (w', Err e)
    end.

Notation "x <- m ;; k" := (bind m (fun x => k))
  (at level 61, m at next level, right associativity).
Notation "m ;;; k" := (bind m (fun _ => k))
  (at level 61, right associativity).

Definition gets {A} (f : World -> A) : M A := fun w => (w, Ok (f w)).

Definition modify (f : World -> World) : M unit := fun w => (f w, Ok tt).

(** [try { m } catch (error) { logger.error(...) }] *)
Definition try_catch (m : M unit) : M unit :=
  fun w => (fst (m w), Ok tt).

(** [broadcast(event, data)] *)
Definition broadcast (event : WsEvent) (data : Json) : M unit :=
  fun w =>
    if broadcastFn w then (emit (Broadcast event data) w, Ok tt)
    else (w, Ok tt).

(** [await Message.logMessage(message)] *)
Definition logMessage (message : WA.Message) (now : Z) : M unit :=
  fun w =>
    match MessageModel.logMessage message now (messages w) with
    | Ok (coll, _) => (set_messages coll w, Ok tt)
    | Err e => (w, Err e)
    end.

(** [await Message.findOneAndUpdate({ messageId }, update)] *)
Definition updateMessage (m : string)
           (update : MessageModel.Doc -> MessageModel.Doc) : M unit :=
  modify (fun w =>
    set_messages (updateFirst (MessageModel.byMessageId m) update
                              (messages w)) w).

(** [await Watchlist.findOne({ chatId, isActive: true })] *)
Definition findWatched (c : string) : M (option WatchlistModel.Entry) :=
  gets (fun w => findOne (WatchlistModel.activeChat c) (watchlist w)).

(** [await watchlistItem.updateLastMessage(message)] on the document just
    found by [findWatched]. *)
Definition updateLastMessage (c : string) (message : WA.Message) (now : Z)
  : M unit :=
  modify (fun w =>
    set_watchlist
      (updateFirst (WatchlistModel.activeChat c)
                   (WatchlistModel.updateLastMessage message now)
                   (watchlist w)) w).

Section WithClient.
(** The live session client: the handlers are registered on it, and
    [getClient()] returns it while they run. *)
Variable client : WA.Client.
(** The clock. *)
Variable now : Z.

(** [await message.getChat()] *)
Definition getChat (message : WA.Message) : M unit :=
  if WA.getChatById client (WA.from message) then ret tt
  else throw (CollaboratorError "getChat").

Definition handleMessage (message : WA.Message) : M unit :=
  let chatId := WA.from message in
  (* Log group IDs prominently for easy copying *)
  (if JS.includes chatId "@g.us" then getChat message else ret tt) ;;;
  (* Check if message is from a watchlist chat *)
  watchlistItem <- findWatched chatId ;;
  match watchlistItem with
  | Some _ =>
      updateLastMessage chatId message now ;;;
      logMessage message now ;;;
      broadcast WATCHLIST_MESSAGE
                (JObj [ ("chatId", JStr chatId);
                        ("message", formatMessage message now) ])
  | None => ret tt
  end ;;;
  (* Broadcast general message event *)
  broadcast MESSAGE_NEW (formatMessage message now).

Definition handleMessageCreate (message : WA.Message) : M unit :=
  if WA.fromMe message then
    let chatId := WA.to message in
    watchlistItem <- findWatched chatId ;;
    match watchlistItem with
    | Some _ =>
        updateLastMessage chatId message now ;;;
        logMessage message now ;;;
        broadcast WATCHLIST_MESSAGE
                  (JObj [ ("chatId", JStr chatId);
                          ("message", formatMessage message now) ])
    | None => ret tt
    end
  else ret tt.

Definition ackLabels : list string :=
  ["error"; "pending"; "sent"; "received"; "read"; "played"].

(** [ackLabels[ack + 1]] *)
Definition ackLabel (ack : Z) : Json :=
  if ack + 1 <? 0 then JUndefined
  else match nth_error ackLabels (Z.to_nat (ack + 1)) with
       | Some l => JStr l
       | None => JUndefined
       end.

Definition handleMessageAck (message : WA.Message) (ack : Z) : M unit :=
  let messageId := WA.id message in
  updateMessage messageId (MessageModel.set_ack ack) ;;;
  broadcast MESSAGE_ACK
            (JObj [ ("messageId", JStr messageId);
                    ("ack", JNum ack);
                    ("ackLabel", ackLabel ack) ]).

Definition handleMessageRevoke (message : WA.Message)
           (revokedMsg : option WA.Message) : M unit :=
  match revokedMsg with
  | Some revoked =>
      let messageId := WA.id revoked in
      updateMessage messageId
        (fun d => MessageModel.set_body "This message was deleted"
                    (MessageModel.set_isDeleted true d)) ;;;
      broadcast MESSAGE_REVOKED (JObj [ ("messageId", JStr messageId) ])
  | None => ret tt
  end.

Definition handleMessageEdit (message : WA.Message)
           (newBody oldBody : string) : M unit :=
  let messageId := WA.id message in
  updateMessage messageId
    (fun d => MessageModel.set_isEdited true
                (MessageModel.set_body newBody d)) ;;;
  broadcast MESSAGE_EDIT
            (JObj [ ("messageId", JStr messageId);
                    ("newBody", JStr newBody);
                    ("oldBody", JStr oldBody) ]).

(** [{ $push: { reactions: entry } }] *)
Definition push (entry : MessageModel.Reaction) (d : MessageModel.Doc)
  : MessageModel.Doc :=
  MessageModel.set_reactions
    (MessageModel.reactions d ++ [entry])%list d.

(** [{ $pull: { reactions: { senderId } } }] *)
Definition pull (sender : string) (d : MessageModel.Doc)
  : MessageModel.Doc :=
  MessageModel.set_reactions
    (filter (fun r =>
               negb (String.eqb (MessageModel.senderId r) sender))
            (MessageModel.reactions d)) d.

Definition handleMessageReaction (reaction : WA.Reaction) : M unit :=
  let formattedReaction := formatReaction reaction now in
  let messageId := WA.msgId reaction in
  (if JS.truthy (WA.reaction reaction) then
     updateMessage messageId
       (push (MessageModel.mkReaction (WA.reaction reaction)
                                      (WA.senderId reaction) now))
   else
     (* Remove reaction *)
     updateMessage messageId (pull (WA.senderId reaction))) ;;;
  broadcast MESSAGE_REACTION formattedReaction.

(** The body of the loop over [joinedIds]: a contact that does not
    resolve is skipped ([logger.warn]); one that does is pushed to
    [mentions] and, with [mentionUser], substituted in the text. *)
Fixpoint resolveJoined (config : SettingsModel.AutoMessageConfig)
         (joinedIds : list string)
         (message : string) (mentions : list WA.Contact)
  : string * list WA.Contact :=
  match joinedIds with
  | [] => (message, mentions)
  | id :: rest =>
      match WA.getContactById client id with
      | Some contact =>
          let mentions' := (mentions ++ [contact])%list in
          let handle :=
            "@" ++ JS.or_else (WA.number contact) (WA.user contact) in
          (* Replace placeholder with mention *)
          if SettingsModel.mentionUser config then
            let message1 := JS.replace message "{user}" handle in
            let message2 := JS.replace message1 "@{user}" handle in
            resolveJoined config rest message2 mentions'
          else resolveJoined config rest message mentions'
      | None => resolveJoined config rest message mentions
      end
  end.

Definition rulesHeader : string :=
  JS.newline ++ JS.newline ++ "📋 *Group Rules*:" ++ JS.newline.

(** [await client.getChatById(groupId)] then [await chat.sendMessage]:
    the send is attempted once the chat resolves, and may reject. *)
Definition sendToChat (chat text : string) (mentions : list WA.Contact)
  : M unit :=
  if WA.getChatById client chat then
    modify (emit (SendMessage chat text mentions)) ;;;
    if WA.sendMessage client chat then ret tt
    else throw (CollaboratorError "sendMessage")
  else throw (CollaboratorError "getChatById").

(** The tail shared by the group handlers: a watched group gets a
    watchlist update. *)
Definition watchlistUpdate (groupId : string) (data : Json) : M unit :=
  watchlistItem <- findWatched groupId ;;
  match watchlistItem with
  | Some _ => broadcast WATCHLIST_UPDATE data
  | None => ret tt
  end.

Definition findSettings (groupId : string)
  : M (option SettingsModel.GroupSettings) :=
  gets (fun w => findOne (SettingsModel.activeGroup groupId)
                         (groupSettings w)).

Definition handleGroupJoin (notification : WA.GroupNotification)
  : M unit :=
  let groupId := WA.chatId notification in
  let joinedIds := WA.recipientIds notification in
  (* Broadcast event *)
  broadcast GROUP_JOIN (formatGroupNotification notification now) ;;;
  (* Check if auto-welcome is enabled *)
  settings <- findSettings groupId ;;
  match settings with
  | Some settings =>
      let config :=
        SettingsModel.welcome (SettingsModel.autoMessages settings) in
      if SettingsModel.enabled config then
        (* Wait configured delay *)
        modify (emit (Delay (JS.num_or (SettingsModel.delay config)
                                       3000))) ;;;
        try_catch
          (let '(message, mentions) :=
             resolveJoined config joinedIds
                           (SettingsModel.message config) [] in
           (* Include group rules if configured *)
           let message :=
             if SettingsModel.includeGroupRules config
                && JS.truthy (SettingsModel.groupRules settings)
             then message ++ rulesHeader
                          ++ SettingsModel.groupRules settings
             else message in
           (* Send welcome message *)
           sendToChat groupId message
                      (if SettingsModel.mentionUser config
                       then mentions else []))
      else ret tt
  | None => ret tt
  end ;;;
  (* Update watchlist if group is monitored *)
  watchlistUpdate groupId
    (JObj [ ("chatId", JStr groupId);
            ("event", JStr "member_join");
            ("members", JStrs joinedIds) ]).

Definition handleGroupLeave (notification : WA.GroupNotification)
  : M unit :=
  let groupId := WA.chatId notification in
  let leftIds := WA.recipientIds notification in
  (* Broadcast event *)
  broadcast GROUP_LEAVE (formatGroupNotification notification now) ;;;
  (* Check if auto-farewell is enabled *)
  settings <- findSettings groupId ;;
  match settings with
  | Some settings =>
      let config :=
        SettingsModel.farewell (SettingsModel.autoMessages settings) in
      if SettingsModel.enabled config then
        modify (emit (Delay (JS.num_or (SettingsModel.delay config)
                                       3000))) ;;;
        try_catch
          ((* Replace user placeholder (can't mention users who left) *)
           let message :=
             JS.replace (SettingsModel.message config) "{user}"
                        (if (List.length leftIds =? 1)%nat
                         then "member" else "members") in
           sendToChat groupId message [])
      else ret tt
  | None => ret tt
  end ;;;
  watchlistUpdate groupId
    (JObj [ ("chatId", JStr groupId);
            ("event", JStr "member_leave");
            ("members", JStrs leftIds) ]).

Definition handleGroupUpdate (notification : WA.GroupNotification)
  : M unit :=
  let groupId := WA.chatId notification in
  broadcast GROUP_UPDATE (formatGroupNotification notification now) ;;;
  watchlistUpdate groupId
    (JObj [ ("chatId", JStr groupId);
            ("event", JStr "group_update");
            ("type", JStr (WA.notificationType notification)) ]).

Definition handleGroupAdminChanged (notification : WA.GroupNotification)
  : M unit :=
  broadcast GROUP_ADMIN_CHANGED
            (formatGroupNotification notification now).

Definition handleGroupMembershipRequest
           (notification : WA.GroupNotification) : M unit :=
  broadcast GROUP_MEMBERSHIP_REQUEST
            (JObj [ ("groupId", JStr (WA.chatId notification));
                    ("requesterId",
                     JStr (WA.notificationAuthor notification));
                    ("timestamp", JDate now) ]).

(** *** [initializeEventHandlers]: one listener per event kind *)

Inductive Event :=
| on_message (m : WA.Message)
| on_message_create (m : WA.Message)
| on_message_ack (m : WA.Message) (ack : Z)
| on_message_revoke_everyone (m : WA.Message) (revokedMsg : option WA.Message)
| on_message_edit (m : WA.Message) (newBody oldBody : string)
| on_message_reaction (r : WA.Reaction)
| on_group_join (n : WA.GroupNotification)
| on_group_leave (n : WA.GroupNotification)
| on_group_update (n : WA.GroupNotification)
| on_group_admin_changed (n : WA.GroupNotification)
| on_group_membership_request (n : WA.GroupNotification)
| on_contact_changed (oldId newId : string) (isContact : bool)
| on_chat_archived (chatId : string) (currState : bool).

Definition handler (ev : Event) : M unit :=
  match ev with
  | on_message m => handleMessage m
  | on_message_create m => handleMessageCreate m
  | on_message_ack m ack => handleMessageAck m ack
  | on_message_revoke_everyone m revokedMsg => handleMessageRevoke m revokedMsg
  | on_message_edit m newBody oldBody => handleMessageEdit m newBody oldBody
  | on_message_reaction r => handleMessageReaction r
  | on_group_join n => handleGroupJoin n
  | on_group_leave n => handleGroupLeave n
  | on_group_update n => handleGroupUpdate n
  | on_group_admin_changed n => handleGroupAdminChanged n
  | on_group_membership_request n => handleGroupMembershipRequest n
  | on_contact_changed oldId newId isContact =>
      broadcast CONTACT_CHANGED
                (JObj [ ("oldId", JStr oldId);
                        ("newId", JStr newId);
                        ("isContact", JBool isContact) ])
  | on_chat_archived chatId currState =>
      broadcast CHAT_ARCHIVED
                (JObj [ ("chatId", JStr chatId);
                        ("archived", JBool currState) ])
  end.

(** Every listener wraps its handler in [try]/[catch]. *)
Definition dispatch (ev : Event) (w : World) : World :=
  fst (try_catch (handler ev) w).

End WithClient.

(** The events of a session, each handled at its own time. *)
Fixpoint dispatchAll (client : WA.Client) (evs : list (Z * Event))
         (w : World) : World :=
  match evs with
  | [] => w
  | (now, ev) :: rest => dispatchAll client rest (dispatch client now ev w)
  end.

End Handlers.


(* ------------------------------------------------------------------ *)
(** ** The watchlist service (the operations behind the API) *)

Module WatchlistService.

Definition isDigit (ch : ascii) : bool :=
  let n := nat_of_ascii ch in (48 <=? n)%nat && (n <=? 57)%nat.

(** [s.replace(/[^\d+]/g, "")] *)
Fixpoint keepDigitsAndPlus (s : string) : string :=
  match s with
  | EmptyString => EmptyString
  | String ch rest =>
      if isDigit ch || Ascii.eqb ch "+"
      then String ch (keepDigitsAndPlus rest)
      else keepDigitsAndPlus rest
  end.

Definition normalizePhoneNumber (phoneNumber : string) : string :=
  (* Remove all non-numeric characters except + *)
  let cleaned := keepDigitsAndPlus phoneNumber in
  (* Remove leading + if present *)
  let cleaned :=
    if String.prefix "+" cleaned then JS.drop 1 cleaned else cleaned in
  (* Ensure it ends with @c.us for individual chats *)
  if negb (JS.includes cleaned "@") then cleaned ++ "@c.us" else cleaned.

Definition normalizeGroupId (groupId : string) : string :=
  if negb (JS.includes groupId "@") then groupId ++ "@g.us" else groupId.

Definition isGroupId (id : string) : bool := JS.endsWith id "@g.us".

Definition normalizeId (chatId : string) : string :=
  if isGroupId chatId then normalizeGroupId chatId
  else normalizePhoneNumber chatId.

Inductive ServiceError :=
| WATCHLIST_NOT_FOUND.

(** [getWatchlistItem(chatId)] *)
Definition getWatchlistItem (chatId : string)
  (coll : list WatchlistModel.Entry)
  : WatchlistModel.Entry + ServiceError :=
  match findOne (WatchlistModel.activeChat (normalizeId chatId)) coll with
  | Some item => inl item
  | None => inr WATCHLIST_NOT_FOUND
  end.

(** [markAsRead(chatId)]: the collection afterwards and the entry
    returned.  The [sendSeen] to the session sits in a [try] of its own
    and does not bear on the result. *)
Definition markAsRead (chatId : string) (coll : list WatchlistModel.Entry)
  : (list WatchlistModel.Entry * WatchlistModel.Entry) + ServiceError :=
  match getWatchlistItem chatId coll with
  | inl item =>
      inl (updateFirst (WatchlistModel.activeChat (normalizeId chatId))
                       WatchlistModel.markAsRead coll,
           WatchlistModel.markAsRead item)
  | inr e => inr e
  end.

End WatchlistService.

(* ------------------------------------------------------------------ *)
(** ** [src/utils/helpers.js] *)

Module Helpers.

(** [s.substring(0, k)]: a negative [k] counts as 0.  Strings are
    sequences of code units. *)
Fixpoint take (n : nat) (s : string) : string :=
  match n, s with
  | O, _ => EmptyString
  | S _, EmptyString => EmptyString
  | S n', String ch rest => String ch (take n' rest)
  end.

Definition substring0 (k : Z) (s : string) : string := take (Z.to_nat k) s.




Definition truncate (str : string) (maxLength : Z) : string :=
  if negb (JS.truthy str) then ""
  else if Z.of_nat (String.length str) <=? maxLength then str
  else substring0 (maxLength - 3) str ++ "...".

Section Arrays.
Variable A : Type.

(** [array.slice(start, end)] with the relative indices of JavaScript. *)
Definition slice (start stop : Z) (array : list A) : list A :=
  let len := Z.of_nat (List.length array) in
  let from := if start <? 0 then Z.max (len + start) 0 else Z.min start len in
  let to := if stop <? 0 then Z.max (len + stop) 0 else Z.min stop len in
  firstn (Z.to_nat (to - from)) (skipn (Z.to_nat from) array).

(** The loop of [chunkArray]; [None] when the fuel runs out before the
    index passes the end of the array. *)
Fixpoint chunkLoop (fuel : nat) (array : list A) (size : Z) (i : Z)
  (chunks : list (list A)) : option (list (list A)) :=
  if i <? Z.of_nat (List.length array) then
    match fuel with
    | O => None
    | S fuel' =>
        chunkLoop fuel' array size (i + size)
                  (chunks ++ [slice i (i + size) array])%list
    end
  else Some chunks.

Definition chunkArray (fuel : nat) (array : list A) (size : Z)
  : option (list (list A)) :=
  chunkLoop fuel array size 0 [].

(** [retryWithBackoff(fn, maxRetries, baseDelay)]: [fn i] is the outcome
    of the call number [i]; the result is what is returned or thrown
    ([None] is the [undefined] thrown when there was no call at all),
    with the delays waited, in order, and the number of calls made. *)
Fixpoint retryLoop (fn : nat -> A + string) (remaining : nat) (i : nat)
  (baseDelay : Z) (lastError : option string) (delays : list Z)
  : (A + option string) * list Z * nat :=
  match remaining with
  | O => (inr lastError, delays, i)
  | S remaining' =>
      match fn i with
      | inl a => (inl a, delays, S i)
      | inr error =>
          retryLoop fn remaining' (S i) baseDelay (Some error)
                    (delays ++ [baseDelay * 2 ^ Z.of_nat i])%list
      end
  end.

Definition retryWithBackoff (fn : nat -> A + string) (maxRetries : nat)
  (baseDelay : Z) : (A + option string) * list Z * nat :=
  retryLoop fn maxRetries 0 baseDelay None [].

End Arrays.

End Helpers.

(* ------------------------------------------------------------------ *)
(** ** The validation middleware *)

Module Validator.

Inductive ApiError :=
| VALIDATION_ERROR (message : string).

(** The leading digits of a string and what follows them. *)
Fixpoint spanDigits (s : string) : string * string :=
  match s with
  | EmptyString => (EmptyString, EmptyString)
  | String ch rest =>
      if WatchlistService.isDigit ch
      then let (d, r) := spanDigits rest in (String ch d, r)
      else (EmptyString, s)
  end.

(** [/^[\d]+@(c\.us|g\.us|broadcast|newsletter)$/.test(chatId)] *)
Definition matchesFullId (chatId : string) : bool :=
  let (d, rest) := spanDigits chatId in
  JS.truthy d
  && mem_string rest ["@c.us"; "@g.us"; "@broadcast"; "@newsletter"].

(** [/^[\d]+$/.test(chatId)] *)
Definition matchesDigits (chatId : string) : bool :=
  let (d, rest) := spanDigits chatId in
  JS.truthy d && String.eqb rest "".

(** [validateChatId]: the identifier is taken from [params.chatId],
    [params.id] or [body.chatId] (empty when absent); [inl] is the call of
    [next()] with the identifier that was checked. *)
Definition validateChatId (paramsChatId paramsId bodyChatId : string)
  : string + ApiError :=
  let chatId := JS.or_else (JS.or_else paramsChatId paramsId) bodyChatId in
  if negb (JS.truthy chatId) then inr (VALIDATION_ERROR "Chat ID is required")
  else
    (* Basic validation for WhatsApp ID format *)
    let isValidFormat := matchesFullId chatId || matchesDigits chatId in
    if negb isValidFormat
    then inr (VALIDATION_ERROR "Invalid chat ID format")
    else inl chatId.

(** [validatePhoneNumber], on [body.phoneNumber || params.phoneNumber]. *)
Definition validatePhoneNumber (bodyPhoneNumber paramsPhoneNumber : string)
  : string + ApiError :=
  let phoneNumber := JS.or_else bodyPhoneNumber paramsPhoneNumber in
  if negb (JS.truthy phoneNumber)
  then inr (VALIDATION_ERROR "Phone number is required")
  else
    (* Remove all non-numeric characters except + *)
    let cleaned := WatchlistService.keepDigitsAndPlus phoneNumber in
    if ((String.length cleaned <? 10) || (15 <? String.length cleaned))%nat
    then inr (VALIDATION_ERROR "Invalid phone number format")
    else inl phoneNumber.

End Validator.

(* ------------------------------------------------------------------ *)
(** ** More of [src/models/settings.model.js] *)

Module SettingsOps.
Import SettingsModel.

(** [Object.values(AUTO_MESSAGE_TYPES)] *)
Definition AUTO_MESSAGE_TYPES_values : list string :=
  ["welcome"; "farewell"; "rules"; "announcement"].

Inductive Failure :=
| InvalidType     (* [Error("Invalid auto-message type")] *)
| TypeError.      (* a property read on [undefined] *)

(** [autoMessages[type]]: the schema has three triggers. *)
Definition trigger (type : string) (a : AutoMessages)
  : option AutoMessageConfig :=
  if String.eqb type "welcome" then Some (welcome a)
  else if String.eqb type "farewell" then Some (farewell a)
  else if String.eqb type "rules" then Some (rules a)
  else None.

Definition set_enabled (b : bool) (c : AutoMessageConfig)
  : AutoMessageConfig :=
  mkConfig b (message c) (includeGroupRules c) (mentionUser c)
           (includeMedia c) (mediaUrl c) (delay c).

Definition set_autoMessages (a : AutoMessages) (s : GroupSettings)
  : GroupSettings :=
  mkGroupSettings (groupId s) (groupName s) a (groupRules s)
                  (commandPrefix s) (isActive s) (notes s).

Definition set_groupRules (r : string) (s : GroupSettings) : GroupSettings :=
  mkGroupSettings (groupId s) (groupName s) (autoMessages s) r
                  (commandPrefix s) (isActive s) (notes s).

(** [toggleAutoMessage(type)]: the document after [save()]. *)
Definition toggleAutoMessage (type : string) (s : GroupSettings)
  : GroupSettings + Failure :=
  if negb (mem_string type AUTO_MESSAGE_TYPES_values) then inr InvalidType
  else
    let a := autoMessages s in
    if String.eqb type "welcome" then
      inl (set_autoMessages
             (mkAutoMessages
                (set_enabled (negb (enabled (welcome a))) (welcome a))
                (farewell a) (rules a)) s)
    else if String.eqb type "farewell" then
      inl (set_autoMessages
             (mkAutoMessages
                (welcome a)
                (set_enabled (negb (enabled (farewell a))) (farewell a))
                (rules a)) s)
    else if String.eqb type "rules" then
      inl (set_autoMessages
             (mkAutoMessages
                (welcome a) (farewell a)
                (set_enabled (negb (enabled (rules a))) (rules a))) s)
    else inr TypeError.

Definition setGroupRules (r : string) (s : GroupSettings) : GroupSettings :=
  set_groupRules r s.

(** [getGroupsWithAutoMessage(type)]: a type without a path in the schema
    matches no document. *)
Definition getGroupsWithAutoMessage (type : string)
  (coll : list GroupSettings) : list GroupSettings :=
  filter (fun s =>
            match trigger type (autoMessages s) with
            | Some c => enabled c
            | None => false
            end && isActive s) coll.

End SettingsOps.

(* ------------------------------------------------------------------ *)
(** ** More of [src/models/watchlist.model.js] and of its service *)

Module WatchlistQueries.
Import WatchlistModel.

(** The order [{ pinned: -1, "lastMessage.timestamp": -1 }] puts [a] no
    later than [b]: pinned entries first, then the later preview first, an
    entry without preview time last. *)
Definition precedes (a b : Entry) : bool :=
  match pinned a, pinned b with
  | true, false => true
  | false, true => false
  | _, _ =>
      match timestamp (lastMessage a), timestamp (lastMessage b) with
      | _, None => true
      | None, Some _ => false
      | Some ta, Some tb => tb <=? ta
      end
  end.

(** The sort; entries the order does not tell apart keep their natural
    order (MongoDB leaves it open). *)
Fixpoint insertSorted (e : Entry) (sorted : list Entry) : list Entry :=
  match sorted with
  | [] => [e]
  | x :: rest =>
      if precedes e x then e :: sorted else x :: insertSorted e rest
  end.

Fixpoint sortForDisplay (l : list Entry) : list Entry :=
  match l with
  | [] => []
  | e :: rest => insertSorted e (sortForDisplay rest)
  end.

Definition getActiveWatchlist (coll : list Entry) : list Entry :=
  sortForDisplay (filter isActive coll).

Definition set_tags (t : list string) (e : Entry) : Entry :=
  mkEntry (chatId e) (chatName e) (chatType e) (isActive e)
          (notifications e) (order e) (pinned e) (unreadCount e)
          (lastMessage e) (profilePicUrl e) (metadata e) (notes e) t
          (addedAt e).

(** [{ $addToSet: { tags: { $each: tags } } }] *)
Fixpoint addToSet (tags : list string) (current : list string)
  : list string :=
  match tags with
  | [] => current
  | t :: rest =>
      addToSet rest (if mem_string t current then current
                     else (current ++ [t])%list)
  end.

(** [{ $pull: { tags: tag } }] *)
Definition pullTag (tag : string) (current : list string) : list string :=
  filter (fun t => negb (String.eqb t tag)) current.

(** [addTags(chatId, tags)] and [removeTag(chatId, tag)] of the service:
    the collection afterwards. *)
Definition addTags (chatId : string) (tags : list string)
  (coll : list Entry) : list Entry :=
  updateFirst (activeChat (WatchlistService.normalizeId chatId))
              (fun e => set_tags (addToSet tags (WatchlistModel.tags e)) e)
              coll.

Definition removeTag (chatId : string) (tag : string)
  (coll : list Entry) : list Entry :=
  updateFirst (activeChat (WatchlistService.normalizeId chatId))
              (fun e => set_tags (pullTag tag (WatchlistModel.tags e)) e)
              coll.

(** [removeFromWatchlist(chatId)] of the service: the collection
    afterwards and the entry returned. *)
Definition removeFromWatchlist (chatId : string) (coll : list Entry)
  : (list Entry * Entry) + WatchlistService.ServiceError :=
  match WatchlistModel.removeFromWatchlist
          (WatchlistService.normalizeId chatId) coll with
  | (coll', Some result) => inl (coll', result)
  | (_, None) => inr WatchlistService.WATCHLIST_NOT_FOUND
  end.

(** [togglePin(chatId)] of the service. *)
Definition togglePin (chatId : string) (coll : list Entry)
  : (list Entry * Entry) + WatchlistService.ServiceError :=
  match WatchlistService.getWatchlistItem chatId coll with
  | inl item =>
      inl (updateFirst (activeChat (WatchlistService.normalizeId chatId))
                       WatchlistModel.togglePin coll,
           WatchlistModel.togglePin item)
  | inr e => inr e
  end.

End WatchlistQueries.

(* ------------------------------------------------------------------ *)
(** ** Observations on the stores *)

Module Observe.

(** The reaction entries of a record that belong to a sender. *)
Definition entriesOf (sender : string) (d : MessageModel.Doc)
  : list MessageModel.Reaction :=
  filter (fun r => String.eqb (MessageModel.senderId r) sender)
         (MessageModel.reactions d).

(** The records of a conversation that a default query shows: the ones
    that are not soft-deleted. *)
Definition visible (c : string) (coll : list MessageModel.Doc)
  : list MessageModel.Doc :=
  filter (fun d => String.eqb (MessageModel.chatId d) c
                   && negb (MessageModel.isDeleted d)) coll.

(** The records of a conversation, deleted or not. *)
Definition ofChat (c : string) (coll : list MessageModel.Doc)
  : list MessageModel.Doc :=
  filter (fun d => String.eqb (MessageModel.chatId d) c) coll.

Definition older (a b : MessageModel.Doc) : Prop :=
  MessageModel.timestamp a < MessageModel.timestamp b.

Definition notNewer (a b : MessageModel.Doc) : Prop :=
  MessageModel.timestamp a <= MessageModel.timestamp b.

(** The unread counter of the active entry of a conversation. *)
Definition unreadOf (c : string) (w : Handlers.World) : option Z :=
  option_map WatchlistModel.unreadCount
             (findOne (WatchlistModel.activeChat c) (Handlers.watchlist w)).

(** The events that count as unread traffic of a conversation: the
    [message] events from it that are not sent by the user. *)
Definition isInbound (c : string) (ev : Handlers.Event) : bool :=
  match ev with
  | Handlers.on_message m => String.eqb (WA.from m) c && negb (WA.fromMe m)
  | _ => false
  end.

Definition inboundCount (c : string) (evs : list (Z * Handlers.Event)) : nat :=
  List.length (filter (fun te => isInbound c (snd te)) evs).

(** A computation that leaves the watchlist as it is, whether it returns
    or throws. *)
Definition keepsWatchlist {A : Type} (m : Handlers.M A) : Prop :=
  forall w, Handlers.watchlist (fst (m w)) = Handlers.watchlist w.

(** The invariant the unique index on [messageId] keeps. *)
Definition uniqueIds (w : Handlers.World) : Prop :=
  NoDup (map MessageModel.messageId (Handlers.messages w)).

(** A computation that keeps a property of the world, whether it returns
    or throws. *)
Definition preserves (P : Handlers.World -> Prop) {A : Type}
  (m : Handlers.M A) : Prop :=
  forall w, P w -> P (fst (m w)).

(** Selections of the effects of a handler. *)
Definition sends (l : list Handlers.Effect) : list Handlers.Effect :=
  filter (fun e => match e with
                   | Handlers.SendMessage _ _ _ => true
                   | _ => false
                   end) l.

Definition broadcastsOf (ev : WsEvent) (l : list Handlers.Effect)
  : list Handlers.Effect :=
  filter (fun e => match e with
                   | Handlers.Broadcast ev' _ => WsEvent_eqb ev ev'
                   | _ => false
                   end) l.

End Observe.

(* ------------------------------------------------------------------ *)
(** ** Sample data for the examples *)

Module Samples.

Definition textMessage (id from to body : string) (seconds : Z)
  (fromMe : bool) : WA.Message :=
  {| WA.id := id; WA.from := from; WA.to := to; WA.author := None;
     WA.body := body; WA.type := "chat"; WA.timestamp := seconds;
     WA.fromMe := fromMe; WA.ack := Some ACK_SENT; WA.hasMedia := false;
     WA.hasQuotedMsg := false; WA.isForwarded := false;
     WA.forwardingScore := 0; WA.isStarred := false;
     WA.mentionedIds := []; WA.groupMentions := []; WA.links := [];
     WA.vCards := [] |}.

Definition me : string := "15550000000@c.us".
Definition alice : string := "15551234567@c.us".
Definition bob : string := "15557654321@c.us".
Definition G : string := "120363000000000001@g.us".

Definition aliceContact : WA.Contact :=
  WA.mkContact alice "15551234567" "15551234567".

(** A session on which every chat resolves, sends go through, and alice
    is the one contact known. *)
Definition session : WA.Client :=
  {| WA.getContactById :=
       fun id => if String.eqb id alice then Some aliceContact else None;
     WA.getChatById := fun _ => true;
     WA.sendMessage := fun _ => true |}.

(** An empty world with the broadcast function installed. *)
Definition emptyWorld : Handlers.World :=
  Handlers.mkWorld [] [] [] true [].

Definition watchedEntry (c name : string) (t : ChatType)
  : WatchlistModel.Entry :=
  {| WatchlistModel.chatId := c;
     WatchlistModel.chatName := name;
     WatchlistModel.chatType := t;
     WatchlistModel.isActive := true;
     WatchlistModel.notifications := true;
     WatchlistModel.order := 1;
     WatchlistModel.pinned := false;
     WatchlistModel.unreadCount := 0;
     WatchlistModel.lastMessage := WatchlistModel.defaultLastMessage;
     WatchlistModel.profilePicUrl := None;
     WatchlistModel.metadata := WatchlistModel.mkMetadata 0 "" false false;
     WatchlistModel.notes := "";
     WatchlistModel.tags := [];
     WatchlistModel.addedAt := 0 |}.

Definition chatDataFor (c name : string) : WatchlistModel.ChatData :=
  WatchlistModel.mkChatData c name PRIVATE None
    (WatchlistModel.mkMetadata 0 "" false false) None.

(** A watchlist: alice active at order 1, the group active at order 5, bob
    removed (soft-deleted) at order 9. *)
Definition someWatchlist : list WatchlistModel.Entry :=
  [ watchedEntry alice "Alice" PRIVATE;
    WatchlistModel.set_order 5 (watchedEntry G "Team" GROUP);
    WatchlistModel.set_isActive false
      (WatchlistModel.set_order 9 (watchedEntry bob "Bob" PRIVATE)) ].

Definition carol : string := "15559999999@c.us".

(** Three messages from alice in the group [G], at seconds 100 < 200 < 300. *)
Definition msg1 := textMessage "m1" G me "one" 100 false.
Definition msg2 := textMessage "m2" G me "two" 200 false.
Definition msg3 := textMessage "m3" G me "three" 300 false.

(** The log after the three messages were stored. *)
Definition threeStored : list MessageModel.Doc :=
  [MessageModel.docOf msg1 0; MessageModel.docOf msg2 0;
   MessageModel.docOf msg3 0].

(** An echo of a message the user sent to the group. *)
Definition echo : WA.Message := textMessage "e1" me G "mine" 150 true.

(** The group watched, nothing else stored. *)
Definition watchingG : Handlers.World :=
  Handlers.set_watchlist [watchedEntry G "Team" GROUP] emptyWorld.

(** The three messages arrive (each with its [message_create] twin), and
    the user sends one in between. *)
Definition traffic : list (Z * Handlers.Event) :=
  [ (100500, Handlers.on_message_create msg1);
    (100500, Handlers.on_message msg1);
    (150500, Handlers.on_message_create echo);
    (200500, Handlers.on_message_create msg2);
    (200500, Handlers.on_message msg2);
    (300500, Handlers.on_message_create msg3);
    (300500, Handlers.on_message msg3) ].

(** The settings of the scenario of the welcome message: trigger on,
    template with the placeholder, mention on join, no delay. *)
Definition welcomeOn : SettingsModel.GroupSettings :=
  SettingsModel.mkGroupSettings G "Team"
    (SettingsModel.mkAutoMessages
       (SettingsModel.mkConfig true "Hi @{user}!" false true false None 0)
       SettingsModel.defaultFarewell SettingsModel.defaultRules)
    "" "!" true "".

(** The settings a group gets from [getOrCreate]: every trigger off. *)
Definition welcomeOff : SettingsModel.GroupSettings :=
  SettingsModel.mkGroupSettings G "Team"
    (SettingsModel.mkAutoMessages
       SettingsModel.defaultWelcome SettingsModel.defaultFarewell
       SettingsModel.defaultRules)
    "" "!" true "".

Definition withSettings (s : SettingsModel.GroupSettings) : Handlers.World :=
  Handlers.mkWorld [] [] [s] true [].

(** alice joins the group. *)
Definition aliceJoins : WA.GroupNotification :=
  WA.mkGroupNotification "n1" "add" G bob [alice] 500.

(** The revoke notification for [msg1]: the same message in its
    current state. *)
Definition msg1Revoked : WA.Message :=
  textMessage "m1" G me "" 100 false.

Fixpoint stars (n : nat) : string :=
  match n with
  | O => EmptyString
  | S n' => String "*" (stars n')
  end.

(** The [k]-th of the messages that follow [msg1] in the group. *)
Definition later (k : nat) : WA.Message :=
  textMessage ("n" ++ stars k) G me "later" (100 + Z.of_nat k) false.

(** The log of a busy group: [msg1] and fifty messages after it. *)
Definition busyLog : list MessageModel.Doc :=
  MessageModel.docOf msg1 0
  :: map (fun k => MessageModel.docOf (later k) 0) (seq 1 50).

End Samples.

(* ------------------------------------------------------------------ *)
(** ** Observations on strings *)

Module Text.

(** Every code unit of a string satisfies a test. *)
Fixpoint all (p : ascii -> bool) (s : string) : bool :=
  match s with
  | EmptyString => true
  | String ch rest => p ch && all p rest
  end.

Definition digitOrPlus (ch : ascii) : bool :=
  WatchlistService.isDigit ch || Ascii.eqb ch "+".

End Text.

(* ------------------------------------------------------------------ *)
(** ** Measures *)

Module Measure.

(** The waits of a backoff: [baseDelay] times 2 to the number of the
    call, for [count] calls from the call number [first]. *)
Definition waits (baseDelay : Z) (first count : nat) : list Z :=
  map (fun j => baseDelay * 2 ^ Z.of_nat j) (seq first count).

Definition total (l : list Z) : Z := fold_right Z.add 0 l.

End Measure.

(* ------------------------------------------------------------------ *)
(** ** Observations on the handlers *)

Module Watch.

(** The world after a call of [broadcast]. *)
Definition announce (event : WsEvent) (data : Json) (w : Handlers.World)
  : Handlers.World :=
  fst (Handlers.broadcast event data w).

(** The payload of the [watchlist:message] broadcast. *)
Definition watchlistMessage (c : string) (m : WA.Message) (now : Z) : Json :=
  JObj [ ("chatId", JStr c); ("message", Formatters.formatMessage m now) ].

(** The session resolves the chat of a message when the handler asks for
    it, which it does for group identifiers only. *)
Definition chatResolves (client : WA.Client) (c : string) : bool :=
  negb (JS.includes c "@g.us") || WA.getChatById client c.

Definition isBroadcast (e : Handlers.Effect) : bool :=
  match e with
  | Handlers.Broadcast _ _ => true
  | _ => false
  end.

(** No broadcast function installed, and the broadcasts among the
    effects are [l]. *)
Definition silent (l : list Handlers.Effect) (w : Handlers.World) : Prop :=
  Handlers.broadcastFn w = false
  /\ filter isBroadcast (Handlers.effects w) = l.

(** What identifies a record and files it: identifier, conversation,
    time, sender and recipient. *)
Definition filing (d : MessageModel.Doc)
  : string * string * Z * string * string :=
  (MessageModel.messageId d, MessageModel.chatId d,
   MessageModel.timestamp d, MessageModel.from d, MessageModel.to d).

(** The log holds the records filed as [l], in this order, followed by
    others. *)
Definition extends (l : list (string * string * Z * string * string))
  (w : Handlers.World) : Prop :=
  exists more, map filing (Handlers.messages w) = (l ++ more)%list.

End Watch.

(* ------------------------------------------------------------------ *)
(** ** A session that fails *)

Module Faults.

(** No contact and no chat resolves, and no send goes through. *)
Definition offline : WA.Client :=
  {| WA.getContactById := fun _ => None;
     WA.getChatById := fun _ => false;
     WA.sendMessage := fun _ => false |}.

(** Chats resolve, but every send is rejected. *)
Definition rejecting : WA.Client :=
  {| WA.getContactById := WA.getContactById Samples.session;
     WA.getChatById := fun _ => true;
     WA.sendMessage := fun _ => false |}.

(** The group is watched and greets who joins. *)
Definition greeting : Handlers.World :=
  Handlers.mkWorld [Samples.watchedEntry Samples.G "Team" GROUP] []
                   [Samples.welcomeOn] true [].


End Faults.

(* ================================================================== *)
(** * Properties *)

(** ** Collections *)

Section CollectionFacts.
Variable Doc : Type.
Implicit Types (p q : Doc -> bool) (f : Doc -> Doc) (l : list Doc).

Lemma findOne_updateFirst p f l :
  (forall d, p (f d) = p d) ->
  findOne p (updateFirst p f l) = option_map f (findOne p l).
Proof.
  intros Hp. induction l as [|d l IH]; simpl; [reflexivity|].
  destruct (p d) eqn:E; simpl.
  - now rewrite Hp, E.
  - now rewrite E.
Qed.

Lemma findOne_updateFirst_other p q f l :
  (forall d, p d = true -> q d = false /\ q (f d) = false) ->
  findOne q (updateFirst p f l) = findOne q l.
Proof.
  intros H. induction l as [|d l IH]; simpl; [reflexivity|].
  destruct (p d) eqn:E; simpl.
  - destruct (H d E) as [-> ->]. reflexivity.
  - destruct (q d); [reflexivity | exact IH].
Qed.

Lemma updateFirst_none p f l :
  findOne p l = None -> updateFirst p f l = l.
Proof.
  induction l as [|d l IH]; simpl; [reflexivity|].
  destruct (p d); [discriminate|]. intros H. now rewrite IH.
Qed.

Lemma updateFirst_length p f l :
  List.length (updateFirst p f l) = List.length l.
Proof.
  induction l as [|d l IH]; simpl; [reflexivity|].
  destruct (p d); simpl; congruence.
Qed.

Lemma updateFirst_map (B : Type) (g : Doc -> B) p f l :
  (forall d, g (f d) = g d) ->
  map g (updateFirst p f l) = map g l.
Proof.
  intros H. induction l as [|d l IH]; simpl; [reflexivity|].
  destruct (p d); simpl; [now rewrite H | now rewrite IH].
Qed.

Lemma findOne_In p l d : findOne p l = Some d -> In d l /\ p d = true.
Proof. apply find_some. Qed.

Lemma findOne_app_none p l d :
  findOne p l = None -> findOne p (l ++ [d]) = if p d then Some d else None.
Proof.
  induction l as [|x l IH]; simpl; [reflexivity|].
  destruct (p x); [discriminate | exact IH].
Qed.
End CollectionFacts.

(** ** The session state machine *)

Module SessionFacts.
Import Whatsapp.

(** The listeners that leave the pairing state through [authenticated]
    or [disconnected], and the destroy and logout calls, clear the
    payload: in those two states it is never pending. *)
Lemma cleared_when_authenticated_or_disconnected (s : State) :
  reachable s ->
  (clientStatus s = AUTHENTICATED \/ clientStatus s = DISCONNECTED) ->
  getCurrentQR s = None.
Proof.
  intros R. induction R as [|i s R IH En].
  - reflexivity.
  - destruct i; simpl in *;
      try (intros [H|H]; (discriminate H || reflexivity || (apply IH; auto))).
    + (* initializeClient *)
      destruct (client s && ClientStatus_eqb (clientStatus s) READY);
        simpl; intros [H|H]; try discriminate; apply IH; auto.
    + destruct (client s && destroyed); simpl; intros [H|H];
        try reflexivity; apply IH; auto.
    + destruct (client s && loggedOut); simpl; intros [H|H];
        try reflexivity; apply IH; auto.
Qed.

Lemma run_reachable inputs s : reachable s -> reachable (run inputs s).
Proof.
  revert s. induction inputs as [|i inputs IH]; simpl; intros s R.
  - exact R.
  - apply IH. destruct (enabled i s) eqn:E; [|exact R].
    now apply reachable_step.
Qed.
End SessionFacts.

(** C9.  The pairing payload outlives the pairing state: when
    [initializeClient] is called again while a QR code is pending,
    [initializeAsync] moves the status to INITIALIZING and leaves
    [currentQR] as it is; the rejection of an initialisation and
    [auth_failure] move to FAILED in the same way.  Both states are
    reachable with a non-null payload. *)
Theorem pairing_payload_survives_reinitialize :
  let s1 := Whatsapp.run [Whatsapp.CallInitializeClient;
                          Whatsapp.OnQr "2@abc";
                          Whatsapp.CallInitializeClient] Whatsapp.initial in
  let s2 := Whatsapp.run [Whatsapp.CallInitializeClient;
                          Whatsapp.OnQr "2@abc";
                          Whatsapp.InitializeRejected] Whatsapp.initial in
  (Whatsapp.reachable s1 /\
   Whatsapp.getClientStatus s1 = INITIALIZING /\
   Whatsapp.getCurrentQR s1 = Some "2@abc") /\
  (Whatsapp.reachable s2 /\
   Whatsapp.getClientStatus s2 = FAILED /\
   Whatsapp.getCurrentQR s2 = Some "2@abc").
Proof.
  split; (split; [apply SessionFacts.run_reachable; constructor
                 | split; reflexivity]).
Qed.

(** ** The message handlers *)

Module HandlerFacts.
Import Handlers.

Lemma dispatch_message_ack client now m a w :
  dispatch client now (on_message_ack m a) w
  = let w1 := set_messages
                (updateFirst (MessageModel.byMessageId (WA.id m))
                             (MessageModel.set_ack a) (messages w)) w in
    if broadcastFn w
    then emit (Broadcast MESSAGE_ACK
                 (JObj [ ("messageId", JStr (WA.id m));
                         ("ack", JNum a);
                         ("ackLabel", ackLabel a) ])) w1
    else w1.
Proof.
  unfold dispatch, try_catch, handler, handleMessageAck, bind, updateMessage,
    modify, broadcast. simpl.
  destruct (broadcastFn w); reflexivity.
Qed.

(** The six levels of [MESSAGE_ACK] get the label of their rank. *)
Lemma ackLabel_levels :
  ackLabel ACK_ERROR = JStr "error" /\
  ackLabel ACK_PENDING = JStr "pending" /\
  ackLabel ACK_SENT = JStr "sent" /\
  ackLabel ACK_RECEIVED = JStr "received" /\
  ackLabel ACK_READ = JStr "read" /\
  ackLabel ACK_PLAYED = JStr "played".
Proof. repeat split. Qed.

End HandlerFacts.

(** C10.  An acknowledgement event overwrites the stored level with the
    level of the event whatever was stored: the record of the message is
    the old one with [ack] set to the event's value, so a lower value makes
    the stored level go back; the broadcast carries the label found at
    index [ack + 1] of error, pending, sent, received, read, played. *)
Theorem ack_latest_wins
  (client : WA.Client) (now : Z) (w : Handlers.World)
  (m : WA.Message) (a : Z) (d : MessageModel.Doc) :
  findOne (MessageModel.byMessageId (WA.id m)) (Handlers.messages w) = Some d ->
  let w' := Handlers.dispatch client now (Handlers.on_message_ack m a) w in
  findOne (MessageModel.byMessageId (WA.id m)) (Handlers.messages w')
    = Some (MessageModel.updateAck a d)
  /\ MessageModel.ack (MessageModel.updateAck a d) = a
  /\ (a < MessageModel.ack d ->
      MessageModel.ack (MessageModel.updateAck a d) < MessageModel.ack d)
  /\ (Handlers.broadcastFn w = true ->
      exists label,
        Handlers.effects w'
        = (Handlers.effects w
           ++ [Handlers.Broadcast MESSAGE_ACK
                 (JObj [ ("messageId", JStr (WA.id m));
                         ("ack", JNum a);
                         ("ackLabel", label) ])])%list
        /\ (0 <= a + 1 ->
            label = match nth_error
                            ["error"; "pending"; "sent"; "received"; "read";
                             "played"] (Z.to_nat (a + 1)) with
                    | Some l => JStr l
                    | None => JUndefined
                    end)).
Proof.
  intros Hd w'. subst w'. rewrite HandlerFacts.dispatch_message_ack.
  split; [|split; [reflexivity | split; [simpl; auto|]]].
  - assert (E : findOne (MessageModel.byMessageId (WA.id m))
                  (updateFirst (MessageModel.byMessageId (WA.id m))
                     (MessageModel.set_ack a) (Handlers.messages w))
                = Some (MessageModel.set_ack a d)).
    { rewrite findOne_updateFirst by reflexivity. now rewrite Hd. }
    destruct (Handlers.broadcastFn w); exact E.
  - intros ->. eexists. split; [reflexivity|].
    intros Ha. unfold Handlers.ackLabel.
    destruct (a + 1 <? 0) eqn:E; [apply Z.ltb_lt in E; lia | reflexivity].
Qed.

(** A message stored as read goes back to received. *)
Lemma ack_latest_wins_witness :
  let m := Samples.textMessage "m1" Samples.me Samples.alice "hello" 100 true in
  let stored := MessageModel.set_ack ACK_READ (MessageModel.docOf m 0) in
  let w := Handlers.set_messages [stored] Samples.emptyWorld in
  let w' := Handlers.dispatch Samples.session 5
              (Handlers.on_message_ack m ACK_RECEIVED) w in
  option_map MessageModel.ack
    (findOne (MessageModel.byMessageId "m1") (Handlers.messages w'))
  = Some ACK_RECEIVED
  /\ MessageModel.ack (MessageModel.updateAck ACK_RECEIVED stored)
     < MessageModel.ack stored
  /\ exists label,
       Handlers.effects w'
       = [Handlers.Broadcast MESSAGE_ACK
            (JObj [ ("messageId", JStr "m1"); ("ack", JNum ACK_RECEIVED);
                    ("ackLabel", label) ])]
       /\ label = JStr "received".
Proof.
  intros m stored w w'.
  destruct (@ack_latest_wins Samples.session 5 w m ACK_RECEIVED stored
              eq_refl) as (H1 & H2 & H3 & H4).
  split; [|split].
  - change (WA.id m) with "m1" in H1. subst w'. rewrite H1. reflexivity.
  - apply H3. reflexivity.
  - destruct (H4 eq_refl) as (label & E & L).
    exists label. split; [exact E|]. apply L. discriminate.
Defined.

(** ** Reactions *)

Module ReactionFacts.
Import Handlers Observe.

Lemma dispatch_message_reaction client now r w :
  Handlers.messages (dispatch client now (on_message_reaction r) w)
  = updateFirst (MessageModel.byMessageId (WA.msgId r))
      (if JS.truthy (WA.reaction r)
       then push (MessageModel.mkReaction (WA.reaction r) (WA.senderId r) now)
       else pull (WA.senderId r))
      (Handlers.messages w).
Proof.
  unfold dispatch, try_catch, handler, handleMessageReaction, bind,
    updateMessage, modify, broadcast. simpl.
  destruct (JS.truthy (WA.reaction r)); simpl;
    destruct (broadcastFn w); reflexivity.
Qed.

Lemma filter_negb_same (A : Type) (p : A -> bool) (l : list A) :
  filter p (filter (fun x => negb (p x)) l) = [].
Proof.
  induction l as [|x l IH]; simpl; [reflexivity|].
  destruct (p x) eqn:E; simpl; [exact IH | now rewrite E].
Qed.

Lemma filter_negb_other (l : list MessageModel.Reaction) (s s' : string) :
  s <> s' ->
  filter (fun r => String.eqb (MessageModel.senderId r) s')
    (filter (fun r => negb (String.eqb (MessageModel.senderId r) s)) l)
  = filter (fun r => String.eqb (MessageModel.senderId r) s') l.
Proof.
  intros N. induction l as [|x l IH]; simpl; [reflexivity|].
  destruct (String.eqb (MessageModel.senderId x) s) eqn:E; simpl.
  - apply String.eqb_eq in E.
    destruct (String.eqb (MessageModel.senderId x) s') eqn:E'; [|exact IH].
    apply String.eqb_eq in E'. congruence.
  - now rewrite IH.
Qed.

(** The removal of the dispatcher: after an event with an empty emoji the
    record holds no entry of the sender. *)
Lemma empty_reaction_removes client now w r d :
  WA.reaction r = "" ->
  findOne (MessageModel.byMessageId (WA.msgId r)) (Handlers.messages w)
    = Some d ->
  exists d',
    findOne (MessageModel.byMessageId (WA.msgId r))
            (Handlers.messages (dispatch client now (on_message_reaction r) w))
      = Some d'
    /\ entriesOf (WA.senderId r) d' = [].
Proof.
  intros He Hd. rewrite dispatch_message_reaction, He. simpl.
  rewrite findOne_updateFirst by reflexivity. rewrite Hd. simpl.
  eexists. split; [reflexivity|].
  unfold entriesOf, pull. simpl.
  apply (filter_negb_same
           (fun r0 => String.eqb (MessageModel.senderId r0) (WA.senderId r))).
Qed.

(** The addition of the dispatcher: an event with an emoji appends an
    entry to the entries the sender already has. *)
Lemma nonempty_reaction_appends client now w r d :
  JS.truthy (WA.reaction r) = true ->
  findOne (MessageModel.byMessageId (WA.msgId r)) (Handlers.messages w)
    = Some d ->
  exists d',
    findOne (MessageModel.byMessageId (WA.msgId r))
            (Handlers.messages (dispatch client now (on_message_reaction r) w))
      = Some d'
    /\ entriesOf (WA.senderId r) d'
       = (entriesOf (WA.senderId r) d
          ++ [MessageModel.mkReaction (WA.reaction r) (WA.senderId r) now])%list.
Proof.
  intros He Hd. rewrite dispatch_message_reaction, He.
  rewrite findOne_updateFirst by reflexivity. rewrite Hd. simpl.
  eexists. split; [reflexivity|].
  unfold entriesOf, push. simpl. rewrite filter_app. simpl.
  now rewrite String.eqb_refl.
Qed.

(** The method of the model replaces the entry of the sender: it leaves
    one entry for a non-empty emoji, none for the empty one, and does not
    touch the entries of the other senders. *)
Lemma addReaction_one_per_sender e sender now d :
  entriesOf sender (MessageModel.addReaction e sender now d)
  = (if JS.truthy e then [MessageModel.mkReaction e sender now] else [])
  /\ forall other, other <> sender ->
       entriesOf other (MessageModel.addReaction e sender now d)
       = entriesOf other d.
Proof.
  unfold entriesOf, MessageModel.addReaction. split.
  - destruct (JS.truthy e); simpl.
    + rewrite filter_app.
      rewrite (filter_negb_same
                 (fun r => String.eqb (MessageModel.senderId r) sender)).
      simpl. now rewrite String.eqb_refl.
    + apply (filter_negb_same
               (fun r => String.eqb (MessageModel.senderId r) sender)).
  - intros other N.
    destruct (JS.truthy e); simpl.
    + rewrite filter_app. simpl.
      destruct (String.eqb sender other) eqn:E;
        [apply String.eqb_eq in E; congruence|].
      rewrite app_nil_r. apply filter_negb_other. congruence.
    + apply filter_negb_other. congruence.
Qed.

End ReactionFacts.

(** C1.  The dispatcher adds a reaction with [$push] and never removes the
    entry the sender already has: after two reaction events of one sender on
    one message the record holds two entries of that sender. *)
Theorem reaction_push_keeps_old_entry :
  let w := Handlers.set_messages [MessageModel.docOf Samples.msg1 0]
                                 Samples.emptyWorld in
  let thumb := WA.mkReaction "r1" "👍" Samples.alice 110 false "m1" in
  let heart := WA.mkReaction "r2" "❤" Samples.alice 120 false "m1" in
  let w' := Handlers.dispatchAll Samples.session
              [ (110000, Handlers.on_message_reaction thumb);
                (120000, Handlers.on_message_reaction heart) ] w in
  option_map (Observe.entriesOf Samples.alice)
             (findOne (MessageModel.byMessageId "m1") (Handlers.messages w'))
  = Some [ MessageModel.mkReaction "👍" Samples.alice 110000;
           MessageModel.mkReaction "❤" Samples.alice 120000 ].
Proof. reflexivity. Qed.

(** ** Sorting by timestamp *)

Module SortFacts.
Import MessageModel Observe.

Lemma insertDesc_perm d l : Permutation (insertDesc d l) (d :: l).
Proof.
  induction l as [|x l IH]; simpl; [reflexivity|].
  destruct (timestamp x <=? timestamp d); [reflexivity|].
  rewrite IH. apply perm_swap.
Qed.

Lemma sortDesc_perm l : Permutation (sortDesc l) l.
Proof.
  induction l as [|d l IH]; simpl; [reflexivity|].
  rewrite insertDesc_perm. now constructor.
Qed.

Lemma sortDesc_length l : List.length (sortDesc l) = List.length l.
Proof. apply Permutation_length, sortDesc_perm. Qed.

Lemma insertDesc_sorted d l :
  StronglySorted (fun a b => notNewer b a) l ->
  StronglySorted (fun a b => notNewer b a) (insertDesc d l).
Proof.
  unfold notNewer.
  induction 1 as [|x l S IH F]; simpl.
  - repeat constructor.
  - destruct (timestamp x <=? timestamp d) eqn:E.
    + apply Z.leb_le in E. constructor; [now constructor|].
      constructor; [exact E|].
      eapply Forall_impl; [|exact F]. simpl. intros; lia.
    + apply Z.leb_gt in E. constructor; [exact IH|].
      eapply Permutation_Forall;
        [symmetry; apply insertDesc_perm|].
      constructor; [lia | exact F].
Qed.

Lemma sortDesc_sorted l :
  StronglySorted (fun a b => notNewer b a) (sortDesc l).
Proof.
  induction l as [|d l IH]; simpl; [constructor|].
  now apply insertDesc_sorted.
Qed.

Lemma StronglySorted_snoc (A : Type) (R : A -> A -> Prop) (l : list A) x :
  StronglySorted R l -> Forall (fun y => R y x) l ->
  StronglySorted R (l ++ [x]).
Proof.
  induction 1 as [|y l S IH F]; simpl; intros Fx.
  - repeat constructor.
  - inversion Fx; subst. constructor; [now apply IH|].
    apply Forall_app. split; [exact F | now repeat constructor].
Qed.

Lemma StronglySorted_rev (A : Type) (R : A -> A -> Prop) (l : list A) :
  StronglySorted (fun a b => R b a) l -> StronglySorted R (rev l).
Proof.
  induction 1 as [|x l S IH F]; simpl; [constructor|].
  apply StronglySorted_snoc; [exact IH | now apply Forall_rev].
Qed.

(** A document older than all the sorted ones goes last. *)
Lemma insertDesc_oldest d l :
  Forall (fun x => older d x) l -> insertDesc d l = (l ++ [d])%list.
Proof.
  unfold older. induction 1 as [|x l H F IH]; simpl; [reflexivity|].
  destruct (timestamp x <=? timestamp d) eqn:E.
  - apply Z.leb_le in E. lia.
  - now rewrite IH.
Qed.

(** On documents stored in strictly increasing order of timestamp the
    sort is the reversal. *)
Lemma sortDesc_increasing l :
  StronglySorted older l -> sortDesc l = rev l.
Proof.
  induction 1 as [|d l S IH F]; simpl; [reflexivity|].
  rewrite IH. apply insertDesc_oldest.
  apply Forall_rev. exact F.
Qed.

(** The sort commutes with an update that keeps the timestamps. *)
Lemma insertDesc_map (g : Doc -> Doc) d l :
  (forall x, timestamp (g x) = timestamp x) ->
  insertDesc (g d) (map g l) = map g (insertDesc d l).
Proof.
  intros H. induction l as [|x l IH]; simpl; [reflexivity|].
  rewrite !H. destruct (timestamp x <=? timestamp d); simpl;
    [reflexivity | now rewrite IH].
Qed.

Lemma sortDesc_map (g : Doc -> Doc) l :
  (forall x, timestamp (g x) = timestamp x) ->
  sortDesc (map g l) = map g (sortDesc l).
Proof.
  intros H. induction l as [|d l IH]; simpl; [reflexivity|].
  now rewrite IH, insertDesc_map.
Qed.

Lemma limit_map (A B : Type) (g : A -> B) n l :
  limit n (map g l) = map g (limit n l).
Proof. destruct n; [reflexivity | apply firstn_map]. Qed.

Lemma limit_incl (A : Type) n (l : list A) x : In x (limit n l) -> In x l.
Proof.
  destruct n; [trivial|]. intros H.
  rewrite <- (firstn_skipn (S n) l). apply in_or_app. now left.
Qed.

End SortFacts.

(** ** Pages of the message log *)

Module PageFacts.
Import MessageModel Observe SortFacts.

Lemma query_default c n coll :
  filter (query c (mkOptions n None None None)) coll = visible c coll.
Proof.
  unfold visible. apply filter_ext. intros d. unfold query. simpl.
  now rewrite andb_true_r.
Qed.

Lemma rev_limit (A : Type) n (l : list A) :
  (0 < n)%nat ->
  rev (limit n l) = skipn (List.length (rev l) - n) (rev l).
Proof.
  intros Hn. destruct n as [|n]; [lia|]. unfold limit.
  rewrite firstn_skipn_rev, rev_involutive. now rewrite length_rev.
Qed.

End PageFacts.

(** C6.  With a limit [n >= 1] and no cursor, [getChatMessages] returns
    the [n] most recent records of the conversation that are not
    soft-deleted, oldest first: the page is the last [n] elements (all of
    them when there are fewer) of the visible records put in ascending order
    of timestamp, and when the records were stored at strictly increasing
    timestamps it is the last [n] of them as stored. *)
Theorem getChatMessages_most_recent
  (coll : list MessageModel.Doc) (c : string) (n : nat) :
  (0 < n)%nat ->
  let page :=
    MessageModel.getChatMessages
      c (MessageModel.mkOptions (Some n) None None None) coll in
  exists ascending,
    Permutation ascending (Observe.visible c coll)
    /\ StronglySorted Observe.notNewer ascending
    /\ page = skipn (List.length ascending - n) ascending
    /\ List.length page = Nat.min n (List.length (Observe.visible c coll))
    /\ (StronglySorted Observe.older (Observe.visible c coll) ->
        ascending = Observe.visible c coll).
Proof.
  intros Hn page.
  exists (rev (MessageModel.sortDesc (Observe.visible c coll))).
  assert (P : Permutation (rev (MessageModel.sortDesc (Observe.visible c coll)))
                          (Observe.visible c coll)).
  { rewrite <- Permutation_rev. apply SortFacts.sortDesc_perm. }
  split; [exact P|]. split.
  { apply SortFacts.StronglySorted_rev, SortFacts.sortDesc_sorted. }
  assert (E : page = skipn
             (List.length (rev (MessageModel.sortDesc (Observe.visible c coll)))
              - n)
             (rev (MessageModel.sortDesc (Observe.visible c coll)))).
  { subst page. unfold MessageModel.getChatMessages. simpl.
    rewrite PageFacts.query_default. now apply PageFacts.rev_limit. }
  split; [exact E|]. split.
  - rewrite E, length_skipn, (Permutation_length P). lia.
  - intros S. rewrite SortFacts.sortDesc_increasing by exact S.
    apply rev_involutive.
Qed.

(** Three messages of one group at seconds 100 < 200 < 300, limit 2: the
    page is the second and the third, in this order. *)
Lemma getChatMessages_most_recent_witness :
  MessageModel.getChatMessages
    Samples.G (MessageModel.mkOptions (Some 2%nat) None None None)
    Samples.threeStored
  = [MessageModel.docOf Samples.msg2 0; MessageModel.docOf Samples.msg3 0].
Proof.
  destruct (@getChatMessages_most_recent Samples.threeStored Samples.G 2
              ltac:(lia))
    as (ascending & _ & _ & E & _ & A).
  rewrite E, A; [reflexivity|].
  repeat constructor.
Defined.

(** ** Revocation *)

Module RevokeFacts.
Import Handlers MessageModel Observe SortFacts.

Lemma dispatch_message_revoke client now message revoked w :
  dispatch client now (on_message_revoke_everyone message (Some revoked)) w
  = let w1 := set_messages
                (updateFirst (byMessageId (WA.id revoked)) markAsDeleted
                             (Handlers.messages w)) w in
    if broadcastFn w
    then emit (Broadcast MESSAGE_REVOKED
                 (JObj [ ("messageId", JStr (WA.id revoked)) ])) w1
    else w1.
Proof.
  unfold dispatch, try_catch, handler, handleMessageRevoke, bind,
    updateMessage, modify, broadcast. simpl.
  destruct (broadcastFn w); reflexivity.
Qed.

(** Under the unique index the write of [findOneAndUpdate] touches every
    document with the identifier: there is one at most. *)
Lemma updateFirst_unique m f (l : list Doc) :
  NoDup (map messageId l) ->
  (forall d, messageId (f d) = messageId d) ->
  updateFirst (byMessageId m) f l
  = map (fun d => if byMessageId m d then f d else d) l.
Proof.
  intros N Hf. induction l as [|d l IH]; simpl; [reflexivity|].
  inversion N as [|? ? Hd N']; subst.
  destruct (byMessageId m d) eqn:E.
  - f_equal. unfold byMessageId in E. apply String.eqb_eq in E.
    clear IH. induction l as [|x l IHl]; simpl; [reflexivity|].
    inversion N' as [|? ? Hx N'']; subst.
    destruct (byMessageId (messageId d) x) eqn:Ex.
    + exfalso. apply Hd. left. unfold byMessageId in Ex.
      now apply String.eqb_eq in Ex.
    + f_equal. apply IHl; [| |exact N''].
      * constructor; [|exact N'']. intros I. apply Hd. now right.
      * intros I. apply Hd. now right.
  - f_equal. now apply IH.
Qed.

Lemma page_incl c options coll x :
  In x (getChatMessages c options coll) ->
  In x coll /\ query c options x = true.
Proof.
  unfold getChatMessages. intros H. apply in_rev in H.
  apply limit_incl in H.
  apply (Permutation_in _ (sortDesc_perm _)) in H.
  now apply filter_In in H.
Qed.

(** With [includeDeleted] the page is cut by conversation, cursor and
    limit only, so an update that keeps conversation and timestamp goes
    through it. *)
Lemma page_map (g : Doc -> Doc) c options coll :
  includeDeleted options = Some true ->
  (forall d, chatId (g d) = chatId d) ->
  (forall d, timestamp (g d) = timestamp d) ->
  getChatMessages c options (map g coll)
  = map g (getChatMessages c options coll).
Proof.
  intros Hi Hc Ht. unfold getChatMessages.
  rewrite filter_map_swap.
  rewrite (filter_ext (fun a => query c options (g a)) (query c options)).
  - now rewrite sortDesc_map, limit_map, map_rev.
  - intros d. unfold query. now rewrite Hi, Hc, Ht.
Qed.

Lemma page_complete c options coll d :
  includeDeleted options = Some true ->
  before options = None -> after options = None ->
  (withDefault (optLimit options) 50 = 0
   \/ List.length (ofChat c coll) <= withDefault (optLimit options) 50)%nat ->
  In d coll -> chatId d = c ->
  In d (getChatMessages c options coll).
Proof.
  intros Hi Hb Ha Hl Hd Hc. unfold getChatMessages.
  assert (Q : filter (query c options) coll = ofChat c coll).
  { apply filter_ext. intros x. unfold query.
    now rewrite Hi, Hb, Ha, !andb_true_r. }
  rewrite Q. apply -> in_rev.
  assert (L : limit (withDefault (optLimit options) 50%nat)
                    (sortDesc (ofChat c coll)) = sortDesc (ofChat c coll)).
  { destruct Hl as [-> | Hl]; [reflexivity|].
    destruct (withDefault (optLimit options) 50%nat) as [|n]; [reflexivity|].
    apply firstn_all2. now rewrite sortDesc_length. }
  rewrite L. apply (Permutation_in _ (Permutation_sym (sortDesc_perm _))).
  apply filter_In. split; [exact Hd|]. subst c. apply String.eqb_refl.
Qed.

End RevokeFacts.

(** C5, as amended.  When the revoke event carries the revoked message
    and that message is stored: its record becomes the old one with
    [isDeleted] set and the tombstone as body; no page asked without
    [includeDeleted] shows it; a page asked with [includeDeleted] is the
    page from before the event with the record replaced by its tombstoned
    version, so it shows the record exactly when the record lies within the
    page (it always does when no cursor is given and the conversation holds
    no more records than the limit); and the broadcast payload is the
    message identifier alone. *)
Theorem revoke_marks_record_deleted
  (client : WA.Client) (now : Z) (w : Handlers.World)
  (message revoked : WA.Message) (d : MessageModel.Doc) :
  NoDup (map MessageModel.messageId (Handlers.messages w)) ->
  findOne (MessageModel.byMessageId (WA.id revoked)) (Handlers.messages w)
    = Some d ->
  let m := WA.id revoked in
  let w' := Handlers.dispatch client now
              (Handlers.on_message_revoke_everyone message (Some revoked)) w in
  let d' := MessageModel.markAsDeleted d in
  findOne (MessageModel.byMessageId m) (Handlers.messages w') = Some d'
  /\ MessageModel.isDeleted d' = true
  /\ MessageModel.body d' = MessageModel.tombstone
  /\ (forall c options x,
        MessageModel.withDefault (MessageModel.includeDeleted options) false
          = false ->
        In x (MessageModel.getChatMessages c options (Handlers.messages w')) ->
        MessageModel.messageId x <> m)
  /\ (forall c options,
        MessageModel.includeDeleted options = Some true ->
        MessageModel.getChatMessages c options (Handlers.messages w')
        = map (fun x => if MessageModel.byMessageId m x
                        then MessageModel.markAsDeleted x else x)
              (MessageModel.getChatMessages c options (Handlers.messages w)))
  /\ (forall options,
        MessageModel.includeDeleted options = Some true ->
        In d (MessageModel.getChatMessages (MessageModel.chatId d) options
                                           (Handlers.messages w)) ->
        In d' (MessageModel.getChatMessages (MessageModel.chatId d) options
                                            (Handlers.messages w')))
  /\ (forall options,
        MessageModel.includeDeleted options = Some true ->
        MessageModel.before options = None ->
        MessageModel.after options = None ->
        (MessageModel.withDefault (MessageModel.optLimit options) 50 = 0
         \/ List.length (Observe.ofChat (MessageModel.chatId d)
                                        (Handlers.messages w))
            <= MessageModel.withDefault (MessageModel.optLimit options) 50)%nat ->
        In d' (MessageModel.getChatMessages (MessageModel.chatId d) options
                                            (Handlers.messages w')))
  /\ (Handlers.broadcastFn w = true ->
      Handlers.effects w'
      = (Handlers.effects w
         ++ [Handlers.Broadcast MESSAGE_REVOKED
               (JObj [ ("messageId", JStr m) ])])%list).
Proof.
  intros N Hd m w' d'.
  set (g := fun x => if MessageModel.byMessageId m x
                     then MessageModel.markAsDeleted x else x).
  assert (Hm : Handlers.messages w' = map g (Handlers.messages w)).
  { subst w'. rewrite RevokeFacts.dispatch_message_revoke. simpl.
    destruct (Handlers.broadcastFn w); simpl;
      apply RevokeFacts.updateFirst_unique; (exact N || reflexivity). }
  assert (Hgc : forall x, MessageModel.chatId (g x) = MessageModel.chatId x).
  { intros x. unfold g. now destruct (MessageModel.byMessageId m x). }
  assert (Hgt : forall x,
             MessageModel.timestamp (g x) = MessageModel.timestamp x).
  { intros x. unfold g. now destruct (MessageModel.byMessageId m x). }
  assert (Hpage : forall c options,
             MessageModel.includeDeleted options = Some true ->
             MessageModel.getChatMessages c options (Handlers.messages w')
             = map g (MessageModel.getChatMessages c options
                                                   (Handlers.messages w))).
  { intros c options Hi. rewrite Hm. now apply RevokeFacts.page_map. }
  assert (Hgd : g d = d').
  { destruct (findOne_In _ _ Hd) as [_ E]. unfold g, m. now rewrite E. }
  split; [|split; [reflexivity | split; [reflexivity|]]].
  { subst w'. rewrite RevokeFacts.dispatch_message_revoke.
    assert (E : findOne (MessageModel.byMessageId m)
                  (updateFirst (MessageModel.byMessageId m)
                     MessageModel.markAsDeleted (Handlers.messages w))
                = Some d').
    { rewrite findOne_updateFirst by reflexivity. unfold m.
      now rewrite Hd. }
    destruct (Handlers.broadcastFn w); exact E. }
  split.
  { intros c options x Hi Hx Ex.
    apply RevokeFacts.page_incl in Hx. destruct Hx as [Hin Hq].
    rewrite Hm in Hin. apply in_map_iff in Hin.
    destruct Hin as (y & <- & _).
    unfold MessageModel.query in Hq. rewrite Hi in Hq.
    unfold g in Hq, Ex.
    destruct (MessageModel.byMessageId m y) eqn:E.
    - simpl in Hq. rewrite andb_false_r in Hq. discriminate.
    - unfold MessageModel.byMessageId in E.
      apply String.eqb_neq in E. contradiction. }
  split; [exact Hpage|]. split.
  { intros options Hi Hin. rewrite Hpage by exact Hi.
    rewrite <- Hgd. now apply in_map. }
  split.
  { intros options Hi Hb Ha Hl. rewrite Hpage by exact Hi.
    rewrite <- Hgd. apply in_map.
    apply RevokeFacts.page_complete; auto.
    now apply findOne_In in Hd. }
  intros Hb. subst w'. rewrite RevokeFacts.dispatch_message_revoke.
  now rewrite Hb.
Qed.

(** [msg1] is revoked in the log of the three messages. *)
Lemma revoke_marks_record_deleted_witness :
  let w := Handlers.set_messages Samples.threeStored Samples.emptyWorld in
  let w' := Handlers.dispatch Samples.session 400000
              (Handlers.on_message_revoke_everyone
                 Samples.msg1Revoked (Some Samples.msg1)) w in
  let d' := MessageModel.markAsDeleted (MessageModel.docOf Samples.msg1 0) in
  findOne (MessageModel.byMessageId "m1") (Handlers.messages w') = Some d'
  /\ MessageModel.getChatMessages
       Samples.G MessageModel.noOptions (Handlers.messages w')
     = [MessageModel.docOf Samples.msg2 0; MessageModel.docOf Samples.msg3 0]
  /\ In d' (MessageModel.getChatMessages
              Samples.G (MessageModel.mkOptions None None None (Some true))
              (Handlers.messages w'))
  /\ Handlers.effects w'
     = [Handlers.Broadcast MESSAGE_REVOKED (JObj [ ("messageId", JStr "m1") ])].
Proof.
  intros w w' d'.
  assert (N : NoDup (map MessageModel.messageId (Handlers.messages w))).
  { simpl. repeat constructor; simpl; intuition discriminate. }
  destruct (@revoke_marks_record_deleted Samples.session 400000 w
              Samples.msg1Revoked Samples.msg1
              (MessageModel.docOf Samples.msg1 0) N eq_refl)
    as (H1 & _ & _ & _ & _ & _ & H7 & H8).
  split; [exact H1|]. split; [reflexivity|]. split.
  - apply (H7 (MessageModel.mkOptions None None None (Some true)));
      try reflexivity.
    right. simpl. lia.
  - apply H8. reflexivity.
Defined.

(** C5 as stated fails in two ways.  A revoke event whose revoked message
    is not available leaves the record of the message as it was, and
    nothing is broadcast.  And in a conversation with fifty later messages
    the record, though marked deleted, is not on the default page even with
    [includeDeleted]. *)
Lemma revoke_claim_counterexample :
  (let w := Handlers.set_messages Samples.threeStored Samples.emptyWorld in
   let w' := Handlers.dispatch Samples.session 400000
               (Handlers.on_message_revoke_everyone
                  Samples.msg1Revoked None) w in
   option_map MessageModel.isDeleted
     (findOne (MessageModel.byMessageId "m1") (Handlers.messages w'))
   = Some false
   /\ Handlers.effects w' = [])
  /\
  (let w := Handlers.set_messages Samples.busyLog Samples.emptyWorld in
   let w' := Handlers.dispatch Samples.session 400000
               (Handlers.on_message_revoke_everyone
                  Samples.msg1Revoked (Some Samples.msg1)) w in
   let page := MessageModel.getChatMessages
                 Samples.G (MessageModel.mkOptions None None None (Some true))
                 (Handlers.messages w') in
   option_map MessageModel.isDeleted
     (findOne (MessageModel.byMessageId "m1") (Handlers.messages w'))
   = Some true
   /\ mem_string "m1" (map MessageModel.messageId page) = false
   /\ List.length page = 50%nat).
Proof.
  split; [split; reflexivity|].
  split; [reflexivity | split; vm_compute; reflexivity].
Qed.

(** ** Logging *)

Module LogFacts.
Import MessageModel.

Lemma count_none m (l : list Doc) :
  findOne (byMessageId m) l = None ->
  countDocuments (byMessageId m) l = 0%nat.
Proof.
  unfold countDocuments. induction l as [|d l IH]; simpl; [reflexivity|].
  destruct (byMessageId m d); [discriminate | exact IH].
Qed.

Lemma findOne_none_notin m (l : list Doc) :
  findOne (byMessageId m) l = None -> ~ In m (map messageId l).
Proof.
  induction l as [|d l IH]; simpl; [tauto|].
  destruct (byMessageId m d) eqn:E; [discriminate|].
  intros H [I|I]; [|now apply IH].
  unfold byMessageId in E. apply String.eqb_neq in E. congruence.
Qed.

Lemma notin_findOne_none m (l : list Doc) :
  ~ In m (map messageId l) -> findOne (byMessageId m) l = None.
Proof.
  induction l as [|d l IH]; simpl; [reflexivity|].
  intros H. destruct (byMessageId m d) eqn:E.
  - unfold byMessageId in E. apply String.eqb_eq in E. tauto.
  - apply IH. tauto.
Qed.

(** Under the unique index a stored identifier has one record. *)
Lemma count_unique m (l : list Doc) d :
  NoDup (map messageId l) ->
  findOne (byMessageId m) l = Some d ->
  countDocuments (byMessageId m) l = 1%nat.
Proof.
  unfold countDocuments. induction l as [|x l IH]; simpl; [discriminate|].
  intros N. inversion N as [|? ? Hx N']; subst.
  destruct (byMessageId m x) eqn:E.
  - intros _. simpl. f_equal.
    unfold byMessageId in E. apply String.eqb_eq in E. subst m.
    apply (count_none (messageId x) l). now apply notin_findOne_none.
  - now apply IH.
Qed.

Lemma create_fresh (d : Doc) (l : list Doc) :
  validate d = Ok tt ->
  findOne (byMessageId (messageId d)) l = None ->
  create d l = Ok ((l ++ [d])%list, d).
Proof. unfold create. now intros -> ->. Qed.

End LogFacts.

(** C2.  Logging a well-formed message twice, the second time with any
    event carrying the same identifier, leaves exactly one record with that
    identifier: the second call changes nothing in the collection and
    returns the record the first call returned. *)
Theorem logMessage_idempotent
  (coll : list MessageModel.Doc) (message message' : WA.Message)
  (now now' : Z) :
  NoDup (map MessageModel.messageId coll) ->
  MessageModel.validate (MessageModel.docOf message now) = Ok tt ->
  WA.id message' = WA.id message ->
  exists coll1 first,
    MessageModel.logMessage message now coll = Ok (coll1, first)
    /\ MessageModel.logMessage message' now' coll1 = Ok (coll1, first)
    /\ countDocuments (MessageModel.byMessageId (WA.id message)) coll1 = 1%nat
    /\ findOne (MessageModel.byMessageId (WA.id message)) coll1 = Some first
    /\ NoDup (map MessageModel.messageId coll1).
Proof.
  intros N V Hid. unfold MessageModel.logMessage. rewrite Hid.
  destruct (findOne (MessageModel.byMessageId (WA.id message)) coll)
    as [existing|] eqn:F.
  - exists coll, existing. rewrite F.
    repeat split; auto. now apply LogFacts.count_unique with existing.
  - pose proof (@LogFacts.create_fresh (MessageModel.docOf message now) coll
                  V F) as C.
    rewrite C. eexists _, _. split; [reflexivity|].
    assert (F1 : findOne (MessageModel.byMessageId (WA.id message))
                         (coll ++ [MessageModel.docOf message now])
                 = Some (MessageModel.docOf message now)).
    { rewrite findOne_app_none by exact F.
      unfold MessageModel.byMessageId. simpl. now rewrite String.eqb_refl. }
    rewrite F1. split; [reflexivity|]. split; [|split; [reflexivity|]].
    + unfold countDocuments. rewrite filter_app, length_app.
      fold (countDocuments (MessageModel.byMessageId (WA.id message)) coll).
      rewrite LogFacts.count_none by exact F. simpl.
      unfold MessageModel.byMessageId. simpl. now rewrite String.eqb_refl.
    + rewrite map_app. simpl.
      apply NoDup_app; [exact N | repeat constructor; simpl; tauto| ].
      intros x Hx [<-|[]]. now apply (LogFacts.findOne_none_notin _ _ F).
Qed.

(** [msg1] is logged twice into an empty log, at two different times. *)
Lemma logMessage_idempotent_witness :
  exists coll1 first,
    MessageModel.logMessage Samples.msg1 7 [] = Ok (coll1, first)
    /\ MessageModel.logMessage Samples.msg1 9 coll1 = Ok (coll1, first)
    /\ countDocuments (MessageModel.byMessageId "m1") coll1 = 1%nat
    /\ findOne (MessageModel.byMessageId "m1") coll1 = Some first
    /\ NoDup (map MessageModel.messageId coll1).
Proof.
  apply (@logMessage_idempotent [] Samples.msg1 Samples.msg1 7 9).
  - constructor.
  - reflexivity.
  - reflexivity.
Defined.

(** ** The watchlist *)

Module WatchlistFacts.
Import WatchlistModel.

Lemma firstByOrderDesc_nil l : firstByOrderDesc l = None -> l = [].
Proof.
  destruct l as [|e l]; simpl; [reflexivity|].
  destruct (firstByOrderDesc l) as [e'|]; [|discriminate].
  destruct (order e <? order e'); discriminate.
Qed.

(** The document the sorted [findOne] returns carries the greatest
    [order] of the list. *)
Lemma firstByOrderDesc_max l e :
  firstByOrderDesc l = Some e ->
  In e l /\ Forall (fun a => order a <= order e) l.
Proof.
  revert e. induction l as [|x l IH]; simpl; [discriminate|].
  intros e. destruct (firstByOrderDesc l) as [e'|] eqn:F.
  - destruct (IH e' eq_refl) as [I M].
    destruct (order x <? order e') eqn:E; intros [= <-].
    + apply Z.ltb_lt in E. split; [now right|].
      constructor; [lia | exact M].
    + apply Z.ltb_ge in E. split; [now left|].
      constructor; [lia|].
      eapply Forall_impl; [|exact M]. simpl. intros; lia.
  - intros [= <-]. apply firstByOrderDesc_nil in F. subst l.
    split; [now left|]. constructor; [lia | constructor].
Qed.

Lemma num_or_zero a : JS.num_or a 0 = a.
Proof. unfold JS.num_or. destruct (a =? 0) eqn:E; [|reflexivity].
       apply Z.eqb_eq in E. now subst. Qed.

End WatchlistFacts.

(** C8.  [addToWatchlist] returns the entry of an active conversation and
    writes nothing; it reactivates the entry of a soft-deleted one, all else
    as it was; and for a conversation without entry it appends a new active
    entry whose [order] is one more than the greatest [order] of the active
    entries (1 when there is none). *)
Theorem addToWatchlist_spec
  (chatData : WatchlistModel.ChatData) (now : Z)
  (coll : list WatchlistModel.Entry) :
  let c := WatchlistModel.dataChatId chatData in
  (forall existing,
      findOne (WatchlistModel.byChatId c) coll = Some existing ->
      WatchlistModel.isActive existing = true ->
      WatchlistModel.addToWatchlist chatData now coll = Ok (coll, existing))
  /\ (forall existing,
      findOne (WatchlistModel.byChatId c) coll = Some existing ->
      WatchlistModel.isActive existing = false ->
      exists coll',
        WatchlistModel.addToWatchlist chatData now coll
        = Ok (coll', WatchlistModel.set_isActive true existing)
        /\ findOne (WatchlistModel.byChatId c) coll'
           = Some (WatchlistModel.set_isActive true existing)
        /\ (forall c', c' <> c ->
              findOne (WatchlistModel.byChatId c') coll'
              = findOne (WatchlistModel.byChatId c') coll)
        /\ List.length coll' = List.length coll)
  /\ (findOne (WatchlistModel.byChatId c) coll = None ->
      JS.truthy c = true ->
      JS.truthy (WatchlistModel.dataChatName chatData) = true ->
      exists created,
        WatchlistModel.addToWatchlist chatData now coll
        = Ok ((coll ++ [created])%list, created)
        /\ WatchlistModel.chatId created = c
        /\ WatchlistModel.isActive created = true
        /\ Forall (fun a => WatchlistModel.isActive a = true ->
                            WatchlistModel.order a
                            < WatchlistModel.order created) coll
        /\ ((exists a, In a coll /\ WatchlistModel.isActive a = true
                       /\ WatchlistModel.order created
                          = WatchlistModel.order a + 1)
            \/ (filter WatchlistModel.isActive coll = []
                /\ WatchlistModel.order created = 1))).
Proof.
  intros c. unfold WatchlistModel.addToWatchlist. fold c.
  split; [|split].
  - intros existing -> Ha. now rewrite Ha.
  - intros existing F Ha. rewrite F, Ha. simpl.
    eexists. split; [reflexivity|]. split; [|split].
    + rewrite findOne_updateFirst by reflexivity. now rewrite F.
    + intros c' N. apply findOne_updateFirst_other.
      intros d Hd. unfold WatchlistModel.byChatId in *. simpl.
      apply String.eqb_eq in Hd. rewrite Hd.
      split; apply String.eqb_neq; congruence.
    + apply updateFirst_length.
  - intros F Hc Hn. unfold WatchlistModel.create. fold c.
    rewrite F. unfold required. rewrite Hc, Hn.
    rewrite WatchlistFacts.num_or_zero.
    eexists. split; [reflexivity|]. simpl.
    split; [reflexivity|]. split; [reflexivity|].
    destruct (WatchlistModel.firstByOrderDesc
                (filter WatchlistModel.isActive coll)) as [top|] eqn:T.
    + destruct (WatchlistFacts.firstByOrderDesc_max _ T) as [I M].
      apply filter_In in I. destruct I as [I A].
      split.
      * apply Forall_forall. intros a Ia Aa.
        rewrite Forall_forall in M.
        assert (WatchlistModel.order a <= WatchlistModel.order top)
          by (apply M, filter_In; auto).
        lia.
      * left. exists top. auto.
    + apply WatchlistFacts.firstByOrderDesc_nil in T. split.
      * apply Forall_forall. intros a Ia Aa.
        assert (In a (filter WatchlistModel.isActive coll))
          by (apply filter_In; auto).
        rewrite T in H. contradiction.
      * right. auto.
Qed.

(** On a watchlist with alice (order 1) and the group (order 5) active and
    bob (order 9) removed: adding alice returns her entry, adding bob
    reactivates his, adding carol creates an entry of order 6. *)
Lemma addToWatchlist_spec_witness :
  WatchlistModel.addToWatchlist
    (Samples.chatDataFor Samples.alice "Alice") 50 Samples.someWatchlist
  = Ok (Samples.someWatchlist,
        Samples.watchedEntry Samples.alice "Alice" PRIVATE)
  /\ (exists coll',
        WatchlistModel.addToWatchlist
          (Samples.chatDataFor Samples.bob "Bob") 50 Samples.someWatchlist
        = Ok (coll',
              WatchlistModel.set_order
                9 (Samples.watchedEntry Samples.bob "Bob" PRIVATE)))
  /\ (exists created,
        WatchlistModel.addToWatchlist
          (Samples.chatDataFor Samples.carol "Carol") 50 Samples.someWatchlist
        = Ok ((Samples.someWatchlist ++ [created])%list, created)
        /\ WatchlistModel.order created = 6).
Proof.
  split; [|split].
  - apply (proj1 (@addToWatchlist_spec
                    (Samples.chatDataFor Samples.alice "Alice") 50
                    Samples.someWatchlist)); reflexivity.
  - destruct (proj1 (proj2 (@addToWatchlist_spec
                              (Samples.chatDataFor Samples.bob "Bob") 50
                              Samples.someWatchlist))
                    _ eq_refl eq_refl) as (coll' & E & _).
    exists coll'. exact E.
  - destruct (proj2 (proj2 (@addToWatchlist_spec
                              (Samples.chatDataFor Samples.carol "Carol") 50
                              Samples.someWatchlist))
                    eq_refl eq_refl eq_refl)
      as (created & E & _ & _ & F & [(a & I & A & O) | [N _]]).
    + exists created. split; [exact E|].
      (* the active entries are alice (1) and the group (5) *)
      simpl in I. destruct I as [<- | [<- | [<- | []]]].
      * inversion F as [|? ? _ F']. inversion F' as [|? ? H5 _].
        specialize (H5 eq_refl). simpl in H5, O. lia.
      * exact O.
      * discriminate A.
    + discriminate N.
Defined.

(** ** The unread counter *)

Module UnreadFacts.
Import Handlers Observe.

Lemma keeps_ret A (a : A) : keepsWatchlist (ret a).
Proof. intros w. reflexivity. Qed.

Lemma keeps_throw A e : keepsWatchlist (@throw A e).
Proof. intros w. reflexivity. Qed.

Lemma keeps_gets A (f : World -> A) : keepsWatchlist (gets f).
Proof. intros w. reflexivity. Qed.

Lemma keeps_bind A B (m : M A) (k : A -> M B) :
  keepsWatchlist m -> (forall a, keepsWatchlist (k a)) ->
  keepsWatchlist (bind m k).
Proof.
  intros Hm Hk w. unfold bind. specialize (Hm w).
  destruct (m w) as [w1 [a|e]]; simpl in *; [|exact Hm].
  now rewrite Hk.
Qed.

Lemma keeps_try_catch (m : M unit) :
  keepsWatchlist m -> keepsWatchlist (try_catch m).
Proof. intros Hm w. apply Hm. Qed.

Lemma keeps_emit e : keepsWatchlist (modify (emit e)).
Proof. intros w. reflexivity. Qed.

Lemma keeps_broadcast ev data : keepsWatchlist (broadcast ev data).
Proof. intros w. unfold broadcast. now destruct (broadcastFn w). Qed.

Lemma keeps_logMessage m now : keepsWatchlist (logMessage m now).
Proof.
  intros w. unfold logMessage.
  now destruct (MessageModel.logMessage m now (messages w)) as [[? ?]|].
Qed.

Lemma keeps_updateMessage m f : keepsWatchlist (updateMessage m f).
Proof. intros w. reflexivity. Qed.

Lemma keeps_findWatched c : keepsWatchlist (findWatched c).
Proof. intros w. reflexivity. Qed.

Lemma keeps_findSettings g : keepsWatchlist (findSettings g).
Proof. intros w. reflexivity. Qed.

Lemma keeps_sendToChat client chat text mentions :
  keepsWatchlist (sendToChat client chat text mentions).
Proof.
  unfold sendToChat. destruct (WA.getChatById client chat).
  - apply keeps_bind; [apply keeps_emit|]. intros _.
    destruct (WA.sendMessage client chat);
      [apply keeps_ret | apply keeps_throw].
  - apply keeps_throw.
Qed.

Lemma keeps_watchlistUpdate g data : keepsWatchlist (watchlistUpdate g data).
Proof.
  unfold watchlistUpdate. apply keeps_bind; [apply keeps_findWatched|].
  intros [e|]; [apply keeps_broadcast | apply keeps_ret].
Qed.

Create HintDb keeps.
#[local] Hint Resolve keeps_ret keeps_throw keeps_gets keeps_bind
  keeps_try_catch keeps_emit keeps_broadcast keeps_logMessage
  keeps_updateMessage keeps_findWatched keeps_findSettings keeps_sendToChat
  keeps_watchlistUpdate : keeps.

Ltac keeps := intros; cbv beta; auto 8 with keeps.

(** When the continuation keeps the watchlist, the watchlist after a
    sequence is the one its first part leaves. *)
Lemma bind_keeps_r A B (m : M A) (k : A -> M B) w :
  (forall a, keepsWatchlist (k a)) ->
  watchlist (fst (bind m k w)) = watchlist (fst (m w)).
Proof.
  intros Hk. unfold bind. destruct (m w) as [w1 [a|e]]; simpl; [|reflexivity].
  apply Hk.
Qed.

(** The write of the two message handlers on a watched conversation. *)
Lemma watched_part now c m (k : M unit) w :
  keepsWatchlist k ->
  watchlist
    (fst (bind (findWatched c)
               (fun watchlistItem =>
                  match watchlistItem with
                  | Some _ => bind (updateLastMessage c m now) (fun _ => k)
                  | None => ret tt
                  end) w))
  = updateFirst (WatchlistModel.activeChat c)
                (WatchlistModel.updateLastMessage m now) (watchlist w).
Proof.
  intros Hk. unfold bind at 1. unfold findWatched, gets. simpl.
  destruct (findOne (WatchlistModel.activeChat c) (watchlist w)) eqn:F.
  - rewrite bind_keeps_r by (intros; exact Hk). reflexivity.
  - simpl. symmetry. now apply updateFirst_none.
Qed.

Lemma watched_part_then now c m (k k2 : M unit) w :
  keepsWatchlist k -> keepsWatchlist k2 ->
  watchlist
    (fst (bind (findWatched c)
               (fun watchlistItem =>
                  bind (match watchlistItem with
                        | Some _ =>
                            bind (updateLastMessage c m now) (fun _ => k)
                        | None => ret tt
                        end) (fun _ => k2)) w))
  = updateFirst (WatchlistModel.activeChat c)
                (WatchlistModel.updateLastMessage m now) (watchlist w).
Proof.
  intros Hk Hk2. rewrite <- (watched_part now c m w Hk).
  unfold bind at 1 4. unfold findWatched, gets. simpl.
  apply bind_keeps_r. intros; exact Hk2.
Qed.

Lemma keeps_handleGroupJoin client now n :
  keepsWatchlist (handleGroupJoin client now n).
Proof.
  unfold handleGroupJoin. apply keeps_bind; [keeps|]. intros _.
  apply keeps_bind; [keeps|]. intros [settings|]; [|keeps].
  apply keeps_bind; [|keeps].
  destruct (SettingsModel.enabled _); [|keeps].
  apply keeps_bind; [keeps|]. intros _. apply keeps_try_catch.
  destruct (resolveJoined _ _ _ _ _). keeps.
Qed.

Lemma keeps_handleGroupLeave client now n :
  keepsWatchlist (handleGroupLeave client now n).
Proof.
  unfold handleGroupLeave. apply keeps_bind; [keeps|]. intros _.
  apply keeps_bind; [keeps|]. intros [settings|]; [|keeps].
  apply keeps_bind; [|keeps].
  destruct (SettingsModel.enabled _); keeps.
Qed.

Lemma keeps_handler client now ev :
  match ev with
  | on_message _ | on_message_create _ => True
  | _ => keepsWatchlist (handler client now ev)
  end.
Proof.
  destruct ev; simpl; trivial;
    try apply keeps_handleGroupJoin; try apply keeps_handleGroupLeave;
    try (unfold handleMessageAck, handleMessageEdit,
           handleMessageReaction, handleGroupUpdate, handleGroupAdminChanged,
           handleGroupMembershipRequest; keeps).
  - unfold handleMessageRevoke. destruct revokedMsg; keeps.
  - destruct (JS.truthy (WA.reaction r)); keeps.
Qed.

Lemma dispatch_watchlist client now ev w :
  watchlist (dispatch client now ev w)
  = match ev with
    | on_message m =>
        if JS.includes (WA.from m) "@g.us"
           && negb (WA.getChatById client (WA.from m))
        then watchlist w
        else updateFirst (WatchlistModel.activeChat (WA.from m))
                         (WatchlistModel.updateLastMessage m now)
                         (watchlist w)
    | on_message_create m =>
        if WA.fromMe m
        then updateFirst (WatchlistModel.activeChat (WA.to m))
                         (WatchlistModel.updateLastMessage m now)
                         (watchlist w)
        else watchlist w
    | _ => watchlist w
    end.
Proof.
  pose proof (keeps_handler client now ev) as K.
  unfold dispatch, try_catch.
  destruct ev; try (apply K).
  - simpl handler. unfold handleMessage.
    unfold bind at 1. unfold getChat.
    destruct (JS.includes (WA.from m) "@g.us"); simpl;
      [destruct (WA.getChatById client (WA.from m)); simpl;
       [|reflexivity]|];
      apply watched_part_then; keeps.
  - simpl handler. unfold handleMessageCreate.
    destruct (WA.fromMe m); [|reflexivity].
    apply watched_part; keeps.
Qed.

End UnreadFacts.

Module CounterFacts.
Import Handlers Observe.

Lemma updateLastMessage_active c m now e :
  WatchlistModel.activeChat c (WatchlistModel.updateLastMessage m now e)
  = WatchlistModel.activeChat c e.
Proof.
  unfold WatchlistModel.updateLastMessage.
  now destruct (negb (WA.fromMe m)).
Qed.

Lemma updateLastMessage_unread m now e :
  WatchlistModel.unreadCount (WatchlistModel.updateLastMessage m now e)
  = WatchlistModel.unreadCount e + (if WA.fromMe m then 0 else 1).
Proof.
  unfold WatchlistModel.updateLastMessage.
  destruct (WA.fromMe m); simpl; lia.
Qed.

(** The entry of [c] after the write of a message handler for [c']. *)
Lemma findOne_after_update c c' m now wl :
  findOne (WatchlistModel.activeChat c)
          (updateFirst (WatchlistModel.activeChat c')
                       (WatchlistModel.updateLastMessage m now) wl)
  = if String.eqb c' c
    then option_map (WatchlistModel.updateLastMessage m now)
                    (findOne (WatchlistModel.activeChat c) wl)
    else findOne (WatchlistModel.activeChat c) wl.
Proof.
  destruct (String.eqb c' c) eqn:E.
  - apply String.eqb_eq in E. subst c'.
    apply findOne_updateFirst. intros d. apply updateLastMessage_active.
  - apply String.eqb_neq in E. apply findOne_updateFirst_other.
    intros d Hd. rewrite updateLastMessage_active.
    unfold WatchlistModel.activeChat in *.
    apply andb_prop in Hd. destruct Hd as [Hc _].
    apply String.eqb_eq in Hc. rewrite Hc.
    assert (N : String.eqb c' c = false) by (apply String.eqb_neq; exact E).
    now rewrite N.
Qed.

(** One event: the counter of a watched conversation goes up by one on an
    inbound message of the conversation that is not the user's own, and
    stays on every other event. *)
Lemma unread_step client now c ev w n :
  (JS.includes c "@g.us" = true -> WA.getChatById client c = true) ->
  unreadOf c w = Some n ->
  unreadOf c (dispatch client now ev w)
  = Some (n + (if isInbound c ev then 1 else 0)).
Proof.
  intros Hg. unfold unreadOf. rewrite UnreadFacts.dispatch_watchlist.
  destruct (findOne (WatchlistModel.activeChat c) (watchlist w))
    as [e|] eqn:F; [|discriminate].
  simpl. intros [= <-].
  destruct ev; simpl isInbound; try (rewrite F; simpl; f_equal; lia).
  - (* message *)
    destruct (String.eqb (WA.from m) c) eqn:E.
    + apply String.eqb_eq in E. rewrite E. simpl.
      destruct (WA.fromMe m) eqn:Me; simpl.
      * destruct (JS.includes c "@g.us" && negb (WA.getChatById client c)).
        -- rewrite F. simpl. f_equal. lia.
        -- rewrite findOne_after_update, String.eqb_refl, F. simpl.
           rewrite updateLastMessage_unread, Me. reflexivity.
      * assert (G : JS.includes c "@g.us" && negb (WA.getChatById client c)
                    = false).
        { destruct (JS.includes c "@g.us"); [|reflexivity].
          now rewrite Hg. }
        rewrite G, findOne_after_update, String.eqb_refl, F. simpl.
        rewrite updateLastMessage_unread, Me. reflexivity.
    + simpl.
      destruct (JS.includes (WA.from m) "@g.us"
                && negb (WA.getChatById client (WA.from m))).
      * rewrite F. simpl. f_equal. lia.
      * rewrite findOne_after_update, E, F. simpl. f_equal. lia.
  - (* message_create *)
    destruct (WA.fromMe m) eqn:Me.
    + rewrite findOne_after_update.
      destruct (String.eqb (WA.to m) c); rewrite F; simpl.
      * rewrite updateLastMessage_unread, Me. reflexivity.
      * f_equal. lia.
    + rewrite F. simpl. f_equal. lia.
Qed.

Lemma unread_run client c evs w n :
  (JS.includes c "@g.us" = true -> WA.getChatById client c = true) ->
  unreadOf c w = Some n ->
  unreadOf c (dispatchAll client evs w)
  = Some (n + Z.of_nat (inboundCount c evs)).
Proof.
  intros Hg. revert w n. induction evs as [|[now ev] evs IH]; intros w n H.
  - simpl. rewrite H. f_equal. unfold inboundCount. simpl. lia.
  - simpl dispatchAll.
    rewrite (IH _ _ (unread_step client now c ev w Hg H)).
    f_equal. unfold inboundCount. simpl.
    destruct (isInbound c ev); simpl; lia.
Qed.

End CounterFacts.

(** C4.  Over any run of events, the unread counter of a watched
    conversation goes up by the number of inbound messages of that
    conversation that are not the user's own: the other events, the echoes
    of the user's own messages among them, do not move it.  After that
    [markAsRead], on the entry and through the service, sets it to 0. *)
Theorem unread_counts_inbound
  (client : WA.Client) (c : string) (evs : list (Z * Handlers.Event))
  (w : Handlers.World) (n : Z) :
  (JS.includes c "@g.us" = true -> WA.getChatById client c = true) ->
  Observe.unreadOf c w = Some n ->
  let w' := Handlers.dispatchAll client evs w in
  Observe.unreadOf c w' = Some (n + Z.of_nat (Observe.inboundCount c evs))
  /\ (forall e, WatchlistModel.unreadCount (WatchlistModel.markAsRead e) = 0)
  /\ (WatchlistService.normalizeId c = c ->
      exists coll item,
        WatchlistService.markAsRead c (Handlers.watchlist w')
        = inl (coll, item)
        /\ WatchlistModel.unreadCount item = 0
        /\ findOne (WatchlistModel.activeChat c) coll = Some item).
Proof.
  intros Hg Hn w'.
  pose proof (CounterFacts.unread_run client c evs w Hg Hn) as R.
  fold w' in R. split; [exact R|]. split; [reflexivity|].
  intros Hc. unfold WatchlistService.markAsRead,
               WatchlistService.getWatchlistItem. rewrite Hc.
  unfold Observe.unreadOf in R.
  destruct (findOne (WatchlistModel.activeChat c) (Handlers.watchlist w'))
    as [e|] eqn:F; [|discriminate].
  eexists _, _. split; [reflexivity|]. split; [reflexivity|].
  rewrite findOne_updateFirst by reflexivity. now rewrite F.
Qed.

(** The group [G] is watched; three messages arrive in it and the user
    sends one: the counter reads 3, and [markAsRead] puts it to 0. *)
Lemma unread_counts_inbound_witness :
  let w' := Handlers.dispatchAll Samples.session Samples.traffic
                                 Samples.watchingG in
  Observe.unreadOf Samples.G w' = Some 3
  /\ exists coll item,
       WatchlistService.markAsRead Samples.G (Handlers.watchlist w')
       = inl (coll, item)
       /\ WatchlistModel.unreadCount item = 0
       /\ findOne (WatchlistModel.activeChat Samples.G) coll = Some item.
Proof.
  intros w'.
  destruct (@unread_counts_inbound Samples.session Samples.G Samples.traffic
              Samples.watchingG 0 (fun _ => eq_refl) eq_refl)
    as (H1 & _ & H3).
  split; [exact H1 | apply H3; reflexivity].
Defined.

(** The scenario of the watched group in full: after the traffic the
    counter is 3, after [markAsRead] it is 0, and the page of limit 2 is the
    second and the third message, oldest first. *)
Example watched_group_scenario :
  let w' := Handlers.dispatchAll Samples.session Samples.traffic
                                 Samples.watchingG in
  Observe.unreadOf Samples.G w' = Some 3
  /\ option_map (fun r => WatchlistModel.unreadCount (snd r))
       (match WatchlistService.markAsRead Samples.G (Handlers.watchlist w')
        with inl r => Some r | inr _ => None end) = Some 0
  /\ map MessageModel.messageId
       (MessageModel.getChatMessages
          Samples.G (MessageModel.mkOptions (Some 2%nat) None None None)
          (Handlers.messages w'))
     = ["m2"; "m3"].
Proof. repeat split. Qed.

(** ** Group joins *)

Module JoinFacts.
Import Handlers Observe.

(** What the handler does when the lookup of the settings finds no
    enabled welcome trigger. *)
Lemma dispatch_group_join_off client now n w :
  (forall s,
      findOne (SettingsModel.activeGroup (WA.chatId n)) (groupSettings w)
      = Some s ->
      SettingsModel.enabled (SettingsModel.welcome
                               (SettingsModel.autoMessages s)) = false) ->
  dispatch client now (on_group_join n) w
  = let joined :=
      Broadcast GROUP_JOIN (Formatters.formatGroupNotification n now) in
    let update :=
      Broadcast WATCHLIST_UPDATE
        (JObj [ ("chatId", JStr (WA.chatId n));
                ("event", JStr "member_join");
                ("members", JStrs (WA.recipientIds n)) ]) in
    if broadcastFn w then
      match findOne (WatchlistModel.activeChat (WA.chatId n)) (watchlist w)
      with
      | Some _ => emit update (emit joined w)
      | None => emit joined w
      end
    else w.
Proof.
  intros H. unfold dispatch, try_catch, handler, handleGroupJoin.
  unfold watchlistUpdate, findWatched, findSettings, bind, broadcast, gets,
    ret.
  destruct (broadcastFn w) eqn:B; cbn [fst snd emit groupSettings watchlist
                                        broadcastFn].
  - destruct (findOne (SettingsModel.activeGroup (WA.chatId n))
                      (groupSettings w)) as [s|] eqn:F.
    + rewrite (H s eq_refl).
      cbn [fst snd emit groupSettings watchlist broadcastFn].
      destruct (findOne (WatchlistModel.activeChat (WA.chatId n))
                        (watchlist w));
        cbn [fst snd emit groupSettings watchlist broadcastFn];
        try rewrite B; reflexivity.
    + cbn [fst snd emit groupSettings watchlist broadcastFn].
      destruct (findOne (WatchlistModel.activeChat (WA.chatId n))
                        (watchlist w));
        cbn [fst snd emit groupSettings watchlist broadcastFn];
        try rewrite B; reflexivity.
  - destruct (findOne (SettingsModel.activeGroup (WA.chatId n))
                      (groupSettings w)) as [s|] eqn:F.
    + rewrite (H s eq_refl). cbn [fst snd].
      destruct (findOne (WatchlistModel.activeChat (WA.chatId n))
                        (watchlist w)); cbn [fst snd];
        try rewrite B; reflexivity.
    + destruct (findOne (WatchlistModel.activeChat (WA.chatId n))
                        (watchlist w)); cbn [fst snd];
        try rewrite B; reflexivity.
Qed.

End JoinFacts.

(** C7.  When the lookup of the group's settings finds no document, or
    one whose welcome trigger is off, the join handler sends nothing and
    waits for nothing: with a broadcast function installed, what it adds to
    the effects is the one group-join broadcast, followed by a watchlist
    update when the group is watched; the stores are as before. *)
Theorem join_without_welcome_sends_nothing
  (client : WA.Client) (now : Z) (n : WA.GroupNotification)
  (w : Handlers.World) :
  Handlers.broadcastFn w = true ->
  (forall s,
      findOne (SettingsModel.activeGroup (WA.chatId n))
              (Handlers.groupSettings w) = Some s ->
      SettingsModel.enabled (SettingsModel.welcome
                               (SettingsModel.autoMessages s)) = false) ->
  let w' := Handlers.dispatch client now (Handlers.on_group_join n) w in
  exists added,
    Handlers.effects w' = (Handlers.effects w ++ added)%list
    /\ Observe.sends added = []
    /\ Observe.broadcastsOf GROUP_JOIN added
       = [Handlers.Broadcast GROUP_JOIN
            (Formatters.formatGroupNotification n now)]
    /\ (forall x, In x added -> exists ev data, x = Handlers.Broadcast ev data)
    /\ Handlers.messages w' = Handlers.messages w
    /\ Handlers.watchlist w' = Handlers.watchlist w
    /\ Handlers.groupSettings w' = Handlers.groupSettings w.
Proof.
  intros B H w'. subst w'. rewrite JoinFacts.dispatch_group_join_off by exact H.
  rewrite B. cbv zeta.
  destruct (findOne (WatchlistModel.activeChat (WA.chatId n))
                    (Handlers.watchlist w)); simpl.
  - eexists [_; _]. rewrite <- app_assoc. simpl.
    split; [reflexivity|]. repeat split.
    intros x [<-|[<-|[]]]; eauto.
  - eexists [_]. split; [reflexivity|]. repeat split.
    intros x [<-|[]]; eauto.
Qed.

(** alice joins a group whose settings have every trigger off. *)
Lemma join_without_welcome_sends_nothing_witness :
  let w := Samples.withSettings Samples.welcomeOff in
  let w' := Handlers.dispatch Samples.session 500500
              (Handlers.on_group_join Samples.aliceJoins) w in
  exists added,
    Handlers.effects w' = (Handlers.effects w ++ added)%list
    /\ Observe.sends added = []
    /\ Observe.broadcastsOf GROUP_JOIN added
       = [Handlers.Broadcast GROUP_JOIN
            (Formatters.formatGroupNotification Samples.aliceJoins 500500)]
    /\ (forall x, In x added -> exists ev data, x = Handlers.Broadcast ev data)
    /\ Handlers.messages w' = Handlers.messages w
    /\ Handlers.watchlist w' = Handlers.watchlist w
    /\ Handlers.groupSettings w' = Handlers.groupSettings w.
Proof.
  apply (@join_without_welcome_sends_nothing Samples.session 500500
           Samples.aliceJoins (Samples.withSettings Samples.welcomeOff)).
  - reflexivity.
  - intros s [= <-]. reflexivity.
Defined.

(** C3.  With the welcome trigger on, the template ["Hi @{user}!"],
    mention on join and a delay of 0, a join of alice, whose contact
    resolves to the number 15551234567, makes the handler wait 3000 ms (a
    delay of 0 is read as unset) and send to the group, with alice
    mentioned, the text ["Hi @@15551234567!"]: the first replacement puts
    the handle, which starts with [@], in the place of [{user}] and keeps
    the [@] of the template, and the second finds no [@{user}] to
    replace. *)
Theorem welcome_text_doubles_the_at :
  Handlers.effects
    (Handlers.dispatch Samples.session 500500
       (Handlers.on_group_join Samples.aliceJoins)
       (Samples.withSettings Samples.welcomeOn))
  = [ Handlers.Broadcast GROUP_JOIN
        (Formatters.formatGroupNotification Samples.aliceJoins 500500);
      Handlers.Delay 3000;
      Handlers.SendMessage Samples.G "Hi @@15551234567!"
                           [Samples.aliceContact] ].
Proof. reflexivity. Qed.

(** ** The unique index of the message log *)

Module IndexFacts.
Import Handlers Observe.

Section Preserves.
Variable P : World -> Prop.

Lemma preserves_ret A (a : A) : preserves P (ret a).
Proof. intros w H. exact H. Qed.

Lemma preserves_throw A e : preserves P (@throw A e).
Proof. intros w H. exact H. Qed.

Lemma preserves_gets A (f : World -> A) : preserves P (gets f).
Proof. intros w H. exact H. Qed.

Lemma preserves_bind A B (m : M A) (k : A -> M B) :
  preserves P m -> (forall a, preserves P (k a)) -> preserves P (bind m k).
Proof.
  intros Hm Hk w H. unfold bind. specialize (Hm w H).
  destruct (m w) as [w1 [a|e]]; simpl in *; [|exact Hm].
  now apply Hk.
Qed.

Lemma preserves_try_catch (m : M unit) :
  preserves P m -> preserves P (try_catch m).
Proof. intros Hm w H. now apply Hm. Qed.
End Preserves.

Lemma unique_emit e : preserves uniqueIds (modify (emit e)).
Proof. intros w H. exact H. Qed.

Lemma unique_broadcast ev data : preserves uniqueIds (broadcast ev data).
Proof. intros w H. unfold broadcast. now destruct (broadcastFn w). Qed.

Lemma unique_updateLastMessage c m now :
  preserves uniqueIds (updateLastMessage c m now).
Proof. intros w H. exact H. Qed.

Lemma unique_updateMessage m f :
  (forall d, MessageModel.messageId (f d) = MessageModel.messageId d) ->
  preserves uniqueIds (updateMessage m f).
Proof.
  intros Hf w H. unfold uniqueIds, updateMessage, modify. simpl.
  now rewrite updateFirst_map.
Qed.

Lemma unique_logMessage m now : preserves uniqueIds (logMessage m now).
Proof.
  intros w H. unfold logMessage, MessageModel.logMessage.
  destruct (findOne (MessageModel.byMessageId (WA.id m)) (messages w))
    eqn:F; simpl; [exact H|].
  unfold MessageModel.create.
  destruct (MessageModel.validate (MessageModel.docOf m now));
    simpl; [|exact H].
  rewrite F. unfold uniqueIds. simpl. rewrite map_app. simpl.
  apply NoDup_app; [exact H | repeat constructor; simpl; tauto|].
  intros x Hx [<-|[]]. now apply (LogFacts.findOne_none_notin _ _ F).
Qed.

Lemma unique_sendToChat client chat text mentions :
  preserves uniqueIds (sendToChat client chat text mentions).
Proof.
  unfold sendToChat. destruct (WA.getChatById client chat).
  - apply preserves_bind; [apply unique_emit|]. intros _.
    destruct (WA.sendMessage client chat);
      [apply preserves_ret | apply preserves_throw].
  - apply preserves_throw.
Qed.

Lemma unique_watchlistUpdate g data :
  preserves uniqueIds (watchlistUpdate g data).
Proof.
  unfold watchlistUpdate. apply preserves_bind; [apply preserves_gets|].
  intros [e|]; [apply unique_broadcast | apply preserves_ret].
Qed.

Create HintDb unique.
#[local] Hint Resolve preserves_ret preserves_throw preserves_gets
  preserves_bind preserves_try_catch unique_emit unique_broadcast
  unique_updateLastMessage unique_updateMessage unique_logMessage
  unique_sendToChat unique_watchlistUpdate : unique.

Ltac unique := intros; cbv beta; auto 10 with unique.

(** Every handler keeps the identifiers of the log distinct. *)
Lemma handler_unique client now ev :
  preserves uniqueIds (handler client now ev).
Proof.
  destruct ev; simpl.
  - unfold handleMessage, getChat, findWatched.
    apply preserves_bind;
      [destruct (JS.includes _ _); [destruct (WA.getChatById _ _)|]; unique|].
    intros _. apply preserves_bind; [unique|].
    intros [e|]; unique.
  - unfold handleMessageCreate, findWatched.
    destruct (WA.fromMe m); [|unique].
    apply preserves_bind; [unique|]. intros [e|]; unique.
  - unfold handleMessageAck. unique.
  - unfold handleMessageRevoke. destruct revokedMsg; unique.
  - unfold handleMessageEdit. unique.
  - unfold handleMessageReaction.
    destruct (JS.truthy (WA.reaction r)); unique.
  - unfold handleGroupJoin, findSettings.
    apply preserves_bind; [unique|]. intros _.
    apply preserves_bind; [unique|]. intros [settings|]; [|unique].
    apply preserves_bind; [|unique].
    destruct (SettingsModel.enabled _); [|unique].
    apply preserves_bind; [unique|]. intros _. apply preserves_try_catch.
    destruct (resolveJoined _ _ _ _ _). unique.
  - unfold handleGroupLeave, findSettings.
    apply preserves_bind; [unique|]. intros _.
    apply preserves_bind; [unique|]. intros [settings|]; [|unique].
    apply preserves_bind; [|unique].
    destruct (SettingsModel.enabled _); unique.
  - unfold handleGroupUpdate. unique.
  - unfold handleGroupAdminChanged. unique.
  - unfold handleGroupMembershipRequest. unique.
  - unique.
  - unique.
Qed.

Lemma dispatch_unique client now ev w :
  uniqueIds w -> uniqueIds (dispatch client now ev w).
Proof. apply (handler_unique client now ev). Qed.

(** From an empty log on, the identifiers stay distinct over any run. *)
Lemma dispatchAll_unique client evs w :
  uniqueIds w -> uniqueIds (dispatchAll client evs w).
Proof.
  revert w. induction evs as [|[now ev] evs IH]; intros w H; simpl.
  - exact H.
  - apply IH. now apply dispatch_unique.
Qed.

End IndexFacts.

(* ================================================================== *)
(** * Further properties *)

(** ** Strings *)

Module TextFacts.
Import Text.

Lemma length_append (a b : string) :
  String.length (a ++ b) = (String.length a + String.length b)%nat.
Proof. induction a as [|ch a IH]; simpl; [reflexivity | now rewrite IH]. Qed.

Lemma length_take n s :
  String.length (Helpers.take n s) = Nat.min n (String.length s).
Proof.
  revert s. induction n as [|n IH]; intros [|ch s]; simpl; try reflexivity.
  now rewrite IH.
Qed.

Lemma take_all n s : (String.length s <= n)%nat -> Helpers.take n s = s.
Proof.
  revert s. induction n as [|n IH]; intros [|ch s]; simpl; intros H;
    try reflexivity; try lia.
  rewrite IH; [reflexivity | lia].
Qed.

Lemma digit_not_at ch :
  WatchlistService.isDigit ch = true -> Ascii.eqb ch "@" = false.
Proof.
  destruct ch as [[] [] [] [] [] [] [] []]; intros H;
    try reflexivity; discriminate H.
Qed.

Lemma digitOrPlus_not_at ch : digitOrPlus ch = true -> Ascii.eqb ch "@" = false.
Proof.
  destruct ch as [[] [] [] [] [] [] [] []]; intros H;
    try reflexivity; discriminate H.
Qed.

Lemma digit_digitOrPlus ch :
  WatchlistService.isDigit ch = true -> digitOrPlus ch = true.
Proof. unfold digitOrPlus. now intros ->. Qed.

Lemma all_impl (p q : ascii -> bool) s :
  (forall ch, p ch = true -> q ch = true) -> all p s = true -> all q s = true.
Proof.
  intros H. induction s as [|ch s IH]; simpl; [reflexivity|].
  intros E. apply andb_prop in E. destruct E as [E1 E2].
  now rewrite (H _ E1), IH.
Qed.


Lemma keep_fixed s :
  all digitOrPlus s = true -> WatchlistService.keepDigitsAndPlus s = s.
Proof.
  induction s as [|ch s IH]; simpl; [reflexivity|].
  fold (digitOrPlus ch). intros E. apply andb_prop in E.
  destruct E as [E1 E2]. now rewrite E1, IH.
Qed.

Lemma keep_append a b :
  WatchlistService.keepDigitsAndPlus (a ++ b)
  = WatchlistService.keepDigitsAndPlus a ++ WatchlistService.keepDigitsAndPlus b.
Proof.
  induction a as [|ch a IH]; simpl; [reflexivity|].
  destruct (WatchlistService.isDigit ch || Ascii.eqb ch "+"); simpl;
    now rewrite IH.
Qed.


Lemma includes_at_cons ch s :
  JS.includes (String ch s) "@"
  = if Ascii.eqb ch "@" then true else JS.includes s "@".
Proof.
  change (JS.includes (String ch s) "@")
    with (if String.prefix "@" (String ch s) then true
          else JS.includes s "@").
  cbn [String.prefix].
  destruct (Ascii.ascii_dec "@" ch) as [<-|N]; [now destruct s|].
  destruct (Ascii.eqb ch "@") eqn:E; [|reflexivity].
  apply Ascii.eqb_eq in E. congruence.
Qed.

Lemma includes_at_false s :
  all digitOrPlus s = true -> JS.includes s "@" = false.
Proof.
  induction s as [|ch s IH]; [reflexivity|].
  simpl all. intros E. apply andb_prop in E. destruct E as [E1 E2].
  rewrite includes_at_cons, (digitOrPlus_not_at _ E1). now apply IH.
Qed.

Lemma includes_at_true a b : JS.includes (a ++ String "@" b) "@" = true.
Proof.
  induction a as [|ch a IH].
  - simpl append. now rewrite includes_at_cons.
  - simpl append. rewrite includes_at_cons.
    destruct (Ascii.eqb ch "@"); [reflexivity | exact IH].
Qed.

Lemma endsWith_unfold s suffix :
  JS.endsWith s suffix
  = if String.eqb s suffix then true
    else match s with
         | EmptyString => false
         | String _ rest => JS.endsWith rest suffix
         end.
Proof. destruct s; reflexivity. Qed.

Lemma endsWith_append a b : JS.endsWith (a ++ b) b = true.
Proof.
  induction a as [|ch a IH]; rewrite endsWith_unfold.
  - simpl append. now rewrite String.eqb_refl.
  - simpl append. destruct (String.eqb (String ch (a ++ b)) b);
      [reflexivity | exact IH].
Qed.

(** A string of digits and plus signs followed by a domain ends with no
    other domain. *)
Lemma endsWith_other a b c :
  all digitOrPlus a = true ->
  JS.endsWith (String "@" b) (String "@" c) = false ->
  JS.endsWith (a ++ String "@" b) (String "@" c) = false.
Proof.
  intros Ha Hb. induction a as [|ch a IH]; [exact Hb|].
  simpl in Ha. apply andb_prop in Ha. destruct Ha as [H1 H2].
  rewrite endsWith_unfold. simpl append.
  assert (E : String.eqb (String ch (a ++ String "@" b)) (String "@" c)
              = false).
  { simpl. now rewrite (digitOrPlus_not_at _ H1). }
  rewrite E. now apply IH.
Qed.


(** The leading digits split a string. *)
Lemma spanDigits_spec s :
  let (d, rest) := Validator.spanDigits s in
  s = d ++ rest /\ all WatchlistService.isDigit d = true.
Proof.
  induction s as [|ch s IH]; simpl; [split; reflexivity|].
  destruct (WatchlistService.isDigit ch) eqn:E.
  - destruct (Validator.spanDigits s) as [d r]. destruct IH as [-> H].
    simpl. now rewrite E.
  - split; reflexivity.
Qed.

End TextFacts.

(** ** Identifiers *)

Module IdFacts.
Import Text TextFacts.

Lemma append_nil_r (s : string) : s ++ "" = s.
Proof. induction s as [|ch s IH]; simpl; [reflexivity | now rewrite IH]. Qed.

Lemma digit_not_plus ch :
  WatchlistService.isDigit ch = true -> Ascii.eqb ch "+" = false.
Proof.
  destruct ch as [[] [] [] [] [] [] [] []]; intros H;
    try reflexivity; discriminate H.
Qed.

Lemma prefix_plus_digits d :
  all WatchlistService.isDigit d = true -> String.prefix "+" d = false.
Proof.
  destruct d as [|ch d]; [reflexivity|]. simpl all. intros E.
  apply andb_prop in E. destruct E as [E _].
  cbn [String.prefix]. destruct (Ascii.ascii_dec "+" ch) as [<-|N];
    [discriminate E | reflexivity].
Qed.

(** Digits in front of a domain other than [g.us]: the domain is
    replaced by [c.us]. *)
Lemma normalizeId_digits d rest :
  all WatchlistService.isDigit d = true ->
  WatchlistService.keepDigitsAndPlus rest = "" ->
  JS.endsWith (d ++ rest) "@g.us" = false ->
  WatchlistService.normalizeId (d ++ rest) = d ++ "@c.us".
Proof.
  intros Hd Hr Hg.
  unfold WatchlistService.normalizeId, WatchlistService.isGroupId.
  rewrite Hg. unfold WatchlistService.normalizePhoneNumber.
  rewrite keep_append, Hr, append_nil_r.
  rewrite keep_fixed by (eapply all_impl; [apply digit_digitOrPlus | exact Hd]).
  rewrite prefix_plus_digits by exact Hd.
  rewrite includes_at_false
    by (eapply all_impl; [apply digit_digitOrPlus | exact Hd]).
  reflexivity.
Qed.

End IdFacts.


(** An identifier accepted by [validateChatId] is digits, alone or in
    front of one of the four domains.  The services then normalise it:
    a [g.us] identifier stays as it is, and every other accepted form, the
    [broadcast] and [newsletter] ones included, becomes the [c.us]
    identifier of the same digits. *)
Theorem validated_chatId_normalizes
  (paramsChatId paramsId bodyChatId chatId : string) :
  Validator.validateChatId paramsChatId paramsId bodyChatId = inl chatId ->
  exists d,
    Text.all WatchlistService.isDigit d = true
    /\ JS.truthy d = true
    /\ ((chatId = d ++ "@g.us"
         /\ WatchlistService.normalizeId chatId = d ++ "@g.us")
        \/ (In chatId [d; d ++ "@c.us"; d ++ "@broadcast"; d ++ "@newsletter"]
            /\ WatchlistService.normalizeId chatId = d ++ "@c.us")).
Proof.
  unfold Validator.validateChatId.
  set (c := JS.or_else (JS.or_else paramsChatId paramsId) bodyChatId).
  destruct (JS.truthy c); simpl; [|discriminate].
  unfold Validator.matchesFullId, Validator.matchesDigits.
  pose proof (TextFacts.spanDigits_spec c) as S.
  destruct (Validator.spanDigits c) as [d rest]. destruct S as [Ec Hd].
  destruct (JS.truthy d) eqn:Td; simpl;
    [|intros [=]].
  assert (DP : Text.all Text.digitOrPlus d = true)
    by (eapply TextFacts.all_impl; [apply TextFacts.digit_digitOrPlus | exact Hd]).
  destruct (String.eqb rest "@c.us") eqn:E1; simpl.
  { apply String.eqb_eq in E1. subst rest. intros [= <-].
    exists d. split; [exact Hd|]. split; [exact Td|]. right.
    rewrite Ec. split; [simpl; auto|].
    apply IdFacts.normalizeId_digits; [exact Hd | reflexivity|].
    apply (TextFacts.endsWith_other d "c.us" "g.us" DP). reflexivity. }
  destruct (String.eqb rest "@g.us") eqn:E2; simpl.
  { apply String.eqb_eq in E2. subst rest. intros [= <-].
    exists d. split; [exact Hd|]. split; [exact Td|]. left.
    rewrite Ec. split; [reflexivity|].
    unfold WatchlistService.normalizeId, WatchlistService.isGroupId.
    rewrite TextFacts.endsWith_append.
    unfold WatchlistService.normalizeGroupId.
    now rewrite (TextFacts.includes_at_true d "g.us"). }
  destruct (String.eqb rest "@broadcast") eqn:E3; simpl.
  { apply String.eqb_eq in E3. subst rest. intros [= <-].
    exists d. split; [exact Hd|]. split; [exact Td|]. right.
    rewrite Ec. split; [simpl; auto|].
    apply IdFacts.normalizeId_digits; [exact Hd | reflexivity|].
    apply (TextFacts.endsWith_other d "broadcast" "g.us" DP). reflexivity. }
  destruct (String.eqb rest "@newsletter") eqn:E4; simpl.
  { apply String.eqb_eq in E4. subst rest. intros [= <-].
    exists d. split; [exact Hd|]. split; [exact Td|]. right.
    rewrite Ec. split; [simpl; auto|].
    apply IdFacts.normalizeId_digits; [exact Hd | reflexivity|].
    apply (TextFacts.endsWith_other d "newsletter" "g.us" DP). reflexivity. }
  destruct (String.eqb rest "") eqn:E5; simpl; [|intros [=]].
  apply String.eqb_eq in E5. subst rest. intros [= <-].
  exists d. split; [exact Hd|]. split; [exact Td|]. right.
  rewrite Ec, IdFacts.append_nil_r. split; [simpl; auto|].
  rewrite <- (IdFacts.append_nil_r d) at 1.
  apply IdFacts.normalizeId_digits; [exact Hd | reflexivity|].
  rewrite IdFacts.append_nil_r.
  clear -DP. induction d as [|ch d IH]; [reflexivity|].
  simpl in DP. apply andb_prop in DP. destruct DP as [H1 H2].
  rewrite TextFacts.endsWith_unfold.
  assert (E : String.eqb (String ch d) "@g.us" = false).
  { simpl. now rewrite (TextFacts.digitOrPlus_not_at _ H1). }
  rewrite E. now apply IH.
Qed.

(** A broadcast list passes the validation and is filed as a contact. *)
Lemma validated_chatId_normalizes_witness :
  exists d,
    Text.all WatchlistService.isDigit d = true
    /\ JS.truthy d = true
    /\ (("1555@broadcast" = d ++ "@g.us"
         /\ WatchlistService.normalizeId "1555@broadcast" = d ++ "@g.us")
        \/ (In "1555@broadcast"
               [d; d ++ "@c.us"; d ++ "@broadcast"; d ++ "@newsletter"]
            /\ WatchlistService.normalizeId "1555@broadcast" = d ++ "@c.us")).
Proof.
  apply (@validated_chatId_normalizes "1555@broadcast" "" "" "1555@broadcast").
  reflexivity.
Defined.

(** ** Text and array helpers *)

(** [truncate] returns the empty string and any string that fits as they
    are; a longer one is cut to [maxLength - 3] code units and gets three
    dots, which makes [maxLength] in all when [maxLength >= 3], and three
    dots alone, longer than asked, when [maxLength < 3]. *)
Theorem truncate_length (str : string) (maxLength : Z) :
  (str = "" \/ Z.of_nat (String.length str) <= maxLength ->
   Helpers.truncate str maxLength = str)
  /\ (str <> "" -> maxLength < Z.of_nat (String.length str) ->
      Helpers.truncate str maxLength
      = Helpers.substring0 (maxLength - 3) str ++ "..."
      /\ Z.of_nat (String.length (Helpers.truncate str maxLength))
         = Z.max maxLength 3)
  /\ Z.of_nat (String.length (Helpers.truncate str maxLength))
     <= Z.max maxLength 3.
Proof.
  unfold Helpers.truncate.
  assert (L : maxLength < Z.of_nat (String.length str) ->
              Z.of_nat (String.length
                          (Helpers.substring0 (maxLength - 3) str ++ "..."))
              = Z.max maxLength 3).
  { intros H. rewrite TextFacts.length_append. unfold Helpers.substring0.
    rewrite TextFacts.length_take.
    change (String.length "...") with 3%nat.
    destruct (Nat.min_spec (Z.to_nat (maxLength - 3)) (String.length str))
      as [[? ->]|[? ->]]; lia. }
  destruct str as [|ch str].
  - simpl. repeat split; intros; try congruence; lia.
  - cbn [JS.truthy negb].
    destruct (Z.of_nat (String.length (String ch str)) <=? maxLength) eqn:E.
    + apply Z.leb_le in E. repeat split; intros; try lia.
    + apply Z.leb_gt in E. split; [intros [H|H]; [discriminate H | lia]|].
      split.
      * intros _ _. split; [reflexivity | now apply L].
      * rewrite L by exact E. lia.
Qed.

Lemma truncate_length_witness :
  Helpers.truncate "hello world" 8 = "hello..."
  /\ Z.of_nat (String.length (Helpers.truncate "hello world" 8)) = 8
  /\ Helpers.truncate "hello world" 2 = "...".
Proof.
  destruct (truncate_length "hello world" 8) as (_ & H & _).
  destruct (truncate_length "hello world" 2) as (_ & H2 & _).
  destruct (H ltac:(discriminate) ltac:(simpl; lia)) as [E L].
  destruct (H2 ltac:(discriminate) ltac:(simpl; lia)) as [E2 _].
  rewrite E, E2. repeat split.
Defined.

Module ChunkFacts.

Section Chunks.
Variable A : Type.
Implicit Types (array : list A) (chunks : list (list A)).

Lemma slice_inside array i size :
  0 <= i < Z.of_nat (List.length array) -> 1 <= size ->
  Helpers.slice i (i + size) array
  = firstn (Z.to_nat (Z.min size (Z.of_nat (List.length array) - i)))
           (skipn (Z.to_nat i) array).
Proof.
  intros Hi Hs. unfold Helpers.slice.
  destruct (i <? 0) eqn:E1; [apply Z.ltb_lt in E1; lia|].
  destruct (i + size <? 0) eqn:E2; [apply Z.ltb_lt in E2; lia|].
  f_equal; [|f_equal]; lia.
Qed.

Lemma chunkLoop_spec fuel : forall array size i chunks,
  1 <= size -> 0 <= i ->
  (Z.to_nat (Z.of_nat (List.length array) - i) <= fuel)%nat ->
  exists cs,
    Helpers.chunkLoop fuel array size i chunks = Some (chunks ++ cs)%list
    /\ List.concat cs = skipn (Z.to_nat i) array
    /\ Forall (fun c => (1 <= List.length c)%nat
                        /\ Z.of_nat (List.length c) <= size) cs.
Proof.
  induction fuel as [|fuel IH]; intros array size i chunks Hs Hi Hf.
  - simpl. destruct (i <? Z.of_nat (List.length array)) eqn:E;
      [apply Z.ltb_lt in E; lia|].
    apply Z.ltb_ge in E. exists []. rewrite app_nil_r.
    split; [reflexivity|]. split; [|constructor].
    simpl. symmetry. apply skipn_all2. lia.
  - simpl. destruct (i <? Z.of_nat (List.length array)) eqn:E.
    + apply Z.ltb_lt in E.
      destruct (IH array size (i + size)
                   (chunks ++ [Helpers.slice i (i + size) array])%list)
        as (cs & R & C & F); try lia.
      exists (Helpers.slice i (i + size) array :: cs).
      split; [rewrite R, <- app_assoc; reflexivity|].
      rewrite slice_inside by lia. split.
      * simpl. rewrite C.
        destruct (Z.le_gt_cases size (Z.of_nat (List.length array) - i)).
        -- rewrite Z.min_l by lia.
           replace (Z.to_nat (i + size))
             with (Z.to_nat size + Z.to_nat i)%nat by lia.
           rewrite <- skipn_skipn. apply firstn_skipn.
        -- rewrite Z.min_r by lia.
           rewrite (skipn_all2 (n := Z.to_nat (i + size))) by lia.
           rewrite app_nil_r. apply firstn_all2.
           rewrite length_skipn. lia.
      * constructor; [|exact F].
        rewrite length_firstn, length_skipn. lia.
    + apply Z.ltb_ge in E. exists []. rewrite app_nil_r.
      split; [reflexivity|]. split; [|constructor].
      simpl. symmetry. apply skipn_all2. lia.
Qed.

Lemma chunkLoop_stuck fuel : forall array size i chunks,
  size <= 0 -> i <= 0 -> array <> [] ->
  Helpers.chunkLoop fuel array size i chunks = None.
Proof.
  induction fuel as [|fuel IH]; intros array size i chunks Hs Hi Ha; simpl.
  - destruct (i <? Z.of_nat (List.length array)) eqn:E; [reflexivity|].
    apply Z.ltb_ge in E. destruct array; [congruence | simpl in E; lia].
  - destruct (i <? Z.of_nat (List.length array)) eqn:E.
    + apply IH; auto; lia.
    + apply Z.ltb_ge in E. destruct array; [congruence | simpl in E; lia].
Qed.

End Chunks.
End ChunkFacts.

(** With a size of at least 1, [chunkArray] returns, as soon as it has
    one step per element, chunks whose concatenation is the array, none
    empty and none longer than the size. *)
Theorem chunkArray_partitions (A : Type) (array : list A) (size : Z)
  (fuel : nat) :
  1 <= size ->
  (List.length array <= fuel)%nat ->
  exists chunks,
    Helpers.chunkArray fuel array size = Some chunks
    /\ List.concat chunks = array
    /\ Forall (fun c => (1 <= List.length c)%nat
                        /\ Z.of_nat (List.length c) <= size) chunks.
Proof.
  intros Hs Hf. unfold Helpers.chunkArray.
  destruct (@ChunkFacts.chunkLoop_spec A fuel array size 0 [] Hs)
    as (cs & R & C & F); try lia.
  exists cs. split; [exact R|]. split; [exact C | exact F].
Qed.

Lemma chunkArray_partitions_witness :
  exists chunks,
    Helpers.chunkArray 5 [1; 2; 3; 4; 5] 2 = Some chunks
    /\ List.concat chunks = [1; 2; 3; 4; 5]
    /\ Forall (fun c => (1 <= List.length c)%nat
                        /\ Z.of_nat (List.length c) <= 2) chunks.
Proof.
  apply (@chunkArray_partitions Z [1; 2; 3; 4; 5] 2 5); simpl; lia.
Defined.

(** With a size of 0 or less the loop of [chunkArray] never ends on an
    array that is not empty: the index does not get past the start. *)
Theorem chunkArray_never_ends (A : Type) (array : list A) (size : Z) :
  size <= 0 -> array <> [] ->
  forall fuel, Helpers.chunkArray fuel array size = None.
Proof.
  intros Hs Ha fuel. apply ChunkFacts.chunkLoop_stuck; auto; lia.
Qed.

Lemma chunkArray_never_ends_witness :
  Helpers.chunkArray 1000 ["a"; "b"] 0 = None.
Proof.
  apply (@chunkArray_never_ends string ["a"; "b"] 0); [lia | discriminate].
Defined.

Module RetryFacts.
Import Measure.

Lemma total_waits baseDelay count : forall first,
  total (waits baseDelay first count)
  = baseDelay * (2 ^ Z.of_nat (first + count) - 2 ^ Z.of_nat first).
Proof.
  unfold total, waits.
  induction count as [|count IH]; intros first; simpl.
  - rewrite Nat.add_0_r. lia.
  - rewrite IH.
    replace (Z.of_nat (S first + count)) with (Z.of_nat (first + S count))
      by lia.
    replace (Z.of_nat (S first)) with (Z.of_nat first + 1) by lia.
    rewrite Z.pow_add_r by lia. lia.
Qed.

Section Retry.
Variable A : Type.
Variable fn : nat -> A + string.
Variable errors : nat -> string.

Lemma retryLoop_fails baseDelay remaining : forall i lastError delays,
  (forall j, (i <= j < i + remaining)%nat -> fn j = inr (errors j)) ->
  Helpers.retryLoop fn remaining i baseDelay lastError delays
  = (inr (match remaining with
          | O => lastError
          | S r => Some (errors (i + r)%nat)
          end),
     (delays ++ waits baseDelay i remaining)%list,
     (i + remaining)%nat).
Proof.
  induction remaining as [|remaining IH]; intros i lastError delays H; simpl.
  - now rewrite app_nil_r, Nat.add_0_r.
  - rewrite (H i) by lia.
    rewrite IH by (intros j Hj; apply H; lia).
    rewrite <- app_assoc.
    change (waits baseDelay i (S remaining))
      with (baseDelay * 2 ^ Z.of_nat i :: waits baseDelay (S i) remaining).
    simpl app.
    replace (S i + remaining)%nat with (i + S remaining)%nat by lia.
    f_equal. f_equal. f_equal.
    destruct remaining as [|r].
    + f_equal. f_equal. lia.
    + f_equal. f_equal. lia.
Qed.

Lemma retryLoop_succeeds baseDelay a : forall k remaining i lastError delays,
  (k < remaining)%nat ->
  (forall j, (i <= j < i + k)%nat -> fn j = inr (errors j)) ->
  fn (i + k)%nat = inl a ->
  Helpers.retryLoop fn remaining i baseDelay lastError delays
  = (inl a, (delays ++ waits baseDelay i k)%list, S (i + k)).
Proof.
  induction k as [|k IH]; intros remaining i lastError delays Hk H Ha;
    destruct remaining as [|remaining]; try lia; simpl.
  - rewrite Nat.add_0_r in Ha. rewrite Ha.
    now rewrite app_nil_r, Nat.add_0_r.
  - rewrite (H i) by lia.
    rewrite (IH remaining (S i)); try lia.
    + rewrite <- app_assoc. simpl app.
      replace (S i + k)%nat with (i + S k)%nat by lia. reflexivity.
    + intros j Hj. apply H. lia.
    + replace (S i + k)%nat with (i + S k)%nat by lia. exact Ha.
Qed.

End Retry.
End RetryFacts.

(** [retryWithBackoff] returns the first result [fn] gives within
    [maxRetries] calls, after waiting [baseDelay], twice that, four times
    that, ... once per failed call.  When every call fails it throws the
    last error, having waited after the last failure as well, [baseDelay *
    (2^maxRetries - 1)] in all; with [maxRetries] 0 it calls nothing and
    throws [undefined]. *)
Theorem retryWithBackoff_outcomes (A : Type) (fn : nat -> A + string)
  (errors : nat -> string) (maxRetries : nat) (baseDelay : Z) :
  (forall k a,
      (k < maxRetries)%nat ->
      (forall j, (j < k)%nat -> fn j = inr (errors j)) ->
      fn k = inl a ->
      Helpers.retryWithBackoff fn maxRetries baseDelay
      = (inl a, map (fun j => baseDelay * 2 ^ Z.of_nat j) (seq 0 k), S k))
  /\ ((forall j, (j < maxRetries)%nat -> fn j = inr (errors j)) ->
      Helpers.retryWithBackoff fn maxRetries baseDelay
      = (inr (match maxRetries with
              | O => None
              | S r => Some (errors r)
              end),
         map (fun j => baseDelay * 2 ^ Z.of_nat j) (seq 0 maxRetries),
         maxRetries)
      /\ fold_right Z.add 0
           (map (fun j => baseDelay * 2 ^ Z.of_nat j) (seq 0 maxRetries))
         = baseDelay * (2 ^ Z.of_nat maxRetries - 1)).
Proof.
  unfold Helpers.retryWithBackoff. split.
  - intros k a Hk H Ha.
    apply (@RetryFacts.retryLoop_succeeds A fn errors baseDelay a k
             maxRetries 0%nat None []);
      [exact Hk | intros j Hj; apply H; lia | exact Ha].
  - intros H. split.
    + rewrite (@RetryFacts.retryLoop_fails A fn errors baseDelay maxRetries
                 0%nat None [])
        by (intros j Hj; apply H; lia).
      reflexivity.
    + apply (RetryFacts.total_waits baseDelay maxRetries 0%nat).
Qed.

(** A function that fails twice and then returns 7, retried up to three
    times from a base of 1000 ms; and one that always fails. *)
Lemma retryWithBackoff_outcomes_witness :
  Helpers.retryWithBackoff
    (fun i => if (i <? 2)%nat then inr "busy" else inl 7) 3 1000
  = (inl 7, [1000; 2000], 3%nat)
  /\ Helpers.retryWithBackoff (fun _ : nat => @inr Z string "down") 3 1000
     = (inr (Some "down"), [1000; 2000; 4000], 3%nat).
Proof.
  split.
  - apply (proj1 (@retryWithBackoff_outcomes Z
                    (fun i => if (i <? 2)%nat then inr "busy" else inl 7)
                    (fun _ => "busy") 3 1000) 2%nat 7); try lia.
    + intros j Hj. destruct j as [|[|j]]; [reflexivity | reflexivity | lia].
    + reflexivity.
  - apply (proj2 (@retryWithBackoff_outcomes Z
                    (fun _ => inr "down") (fun _ => "down") 3 1000)).
    reflexivity.
Defined.

(** ** Inbound and outbound messages *)

Module MessageFacts.
Import Handlers Observe Watch.

Lemma dispatch_message client now m w :
  dispatch client now (on_message m) w
  = if negb (chatResolves client (WA.from m)) then w
    else
      match findOne (WatchlistModel.activeChat (WA.from m)) (watchlist w) with
      | None => announce MESSAGE_NEW (Formatters.formatMessage m now) w
      | Some _ =>
          let w1 :=
            set_watchlist
              (updateFirst (WatchlistModel.activeChat (WA.from m))
                           (WatchlistModel.updateLastMessage m now)
                           (watchlist w)) w in
          match MessageModel.logMessage m now (messages w) with
          | Ok (coll, _) =>
              announce MESSAGE_NEW (Formatters.formatMessage m now)
                (announce WATCHLIST_MESSAGE
                          (watchlistMessage (WA.from m) m now)
                          (set_messages coll w1))
          | Err _ => w1
          end
      end.
Proof.
  unfold dispatch, try_catch, handler, handleMessage, getChat, chatResolves.
  unfold findWatched, updateLastMessage, logMessage, announce,
    watchlistMessage, bind, gets, modify, ret, throw.
  destruct (JS.includes (WA.from m) "@g.us"); simpl;
    [destruct (WA.getChatById client (WA.from m)); simpl;
     [|reflexivity]|];
    (destruct (findOne (WatchlistModel.activeChat (WA.from m)) (watchlist w));
     simpl; [|reflexivity];
     destruct (MessageModel.logMessage m now (messages w)) as [[coll d]|err];
     simpl; [|reflexivity];
     unfold broadcast; simpl;
     destruct (broadcastFn w); reflexivity).
Qed.

Lemma dispatch_message_create client now m w :
  dispatch client now (on_message_create m) w
  = if WA.fromMe m then
      match findOne (WatchlistModel.activeChat (WA.to m)) (watchlist w) with
      | None => w
      | Some _ =>
          let w1 :=
            set_watchlist
              (updateFirst (WatchlistModel.activeChat (WA.to m))
                           (WatchlistModel.updateLastMessage m now)
                           (watchlist w)) w in
          match MessageModel.logMessage m now (messages w) with
          | Ok (coll, _) =>
              announce WATCHLIST_MESSAGE (watchlistMessage (WA.to m) m now)
                       (set_messages coll w1)
          | Err _ => w1
          end
      end
    else w.
Proof.
  unfold dispatch, try_catch, handler, handleMessageCreate.
  destruct (WA.fromMe m); [|reflexivity].
  unfold findWatched, updateLastMessage, logMessage, announce,
    watchlistMessage, bind, gets, modify, ret.
  simpl.
  destruct (findOne (WatchlistModel.activeChat (WA.to m)) (watchlist w));
    simpl; [|reflexivity].
  destruct (MessageModel.logMessage m now (messages w)) as [[coll d]|err];
    reflexivity.
Qed.

Lemma announce_effects ev data w :
  broadcastFn w = true ->
  effects (announce ev data w) = (effects w ++ [Broadcast ev data])%list.
Proof. unfold announce, broadcast. now intros ->. Qed.

Lemma announce_stores ev data w :
  watchlist (announce ev data w) = watchlist w
  /\ messages (announce ev data w) = messages w
  /\ groupSettings (announce ev data w) = groupSettings w
  /\ broadcastFn (announce ev data w) = broadcastFn w.
Proof.
  unfold announce, broadcast.
  destruct (broadcastFn w) eqn:B; simpl; rewrite ?B; auto.
Qed.

End MessageFacts.

(** Traffic of a conversation without an active entry is never persisted:
    a [message] event leaves the watchlist and the log as they are and is
    only announced as [message:new]; a [message_create] event leaves the
    whole world as it is. *)
Theorem unwatched_traffic_not_persisted
  (client : WA.Client) (now : Z) (m : WA.Message) (w : Handlers.World) :
  (findOne (WatchlistModel.activeChat (WA.from m)) (Handlers.watchlist w)
   = None ->
   let w' := Handlers.dispatch client now (Handlers.on_message m) w in
   Handlers.watchlist w' = Handlers.watchlist w
   /\ Handlers.messages w' = Handlers.messages w
   /\ (Handlers.broadcastFn w = true ->
       Watch.chatResolves client (WA.from m) = true ->
       Handlers.effects w'
       = (Handlers.effects w
          ++ [Handlers.Broadcast MESSAGE_NEW
                (Formatters.formatMessage m now)])%list))
  /\ (findOne (WatchlistModel.activeChat (WA.to m)) (Handlers.watchlist w)
      = None ->
      Handlers.dispatch client now (Handlers.on_message_create m) w = w).
Proof.
  split.
  - intros F w'. subst w'. rewrite MessageFacts.dispatch_message, F.
    destruct (Watch.chatResolves client (WA.from m)); simpl.
    + destruct (MessageFacts.announce_stores MESSAGE_NEW
                  (Formatters.formatMessage m now) w) as (A & B & _).
      split; [exact A|]. split; [exact B|].
      intros Hb _. now apply MessageFacts.announce_effects.
    + split; [reflexivity|]. split; [reflexivity|]. discriminate.
  - intros F. rewrite MessageFacts.dispatch_message_create, F.
    now destruct (WA.fromMe m).
Qed.

(** bob writes to the user while only the group is watched. *)
Lemma unwatched_traffic_not_persisted_witness :
  let m := Samples.textMessage "b1" Samples.bob Samples.me "hi" 100 false in
  let w' := Handlers.dispatch Samples.session 100500
              (Handlers.on_message m) Samples.watchingG in
  Handlers.watchlist w' = Handlers.watchlist Samples.watchingG
  /\ Handlers.messages w' = []
  /\ Handlers.effects w'
     = [Handlers.Broadcast MESSAGE_NEW (Formatters.formatMessage m 100500)].
Proof.
  intros m w'.
  destruct (proj1 (@unwatched_traffic_not_persisted Samples.session 100500 m
                     Samples.watchingG) eq_refl) as (A & B & C).
  split; [exact A|]. split; [exact B|]. apply C; reflexivity.
Defined.

(** A message of a watched conversation that the schema of the log
    rejects is counted all the same: the entry gets its preview and, for a
    message of someone else, one more unread; but the handler stops at the
    rejection, so nothing is logged and neither [watchlist:message] nor
    [message:new] is broadcast. *)
Theorem rejected_message_counts_unannounced
  (client : WA.Client) (now : Z) (m : WA.Message) (w : Handlers.World)
  (n : Z) (e : Error) :
  Watch.chatResolves client (WA.from m) = true ->
  Observe.unreadOf (WA.from m) w = Some n ->
  findOne (MessageModel.byMessageId (WA.id m)) (Handlers.messages w) = None ->
  MessageModel.validate (MessageModel.docOf m now) = Err e ->
  let w' := Handlers.dispatch client now (Handlers.on_message m) w in
  Observe.unreadOf (WA.from m) w'
  = Some (n + (if WA.fromMe m then 0 else 1))
  /\ Handlers.messages w' = Handlers.messages w
  /\ Handlers.effects w' = Handlers.effects w.
Proof.
  intros R U F V w'. subst w'. rewrite MessageFacts.dispatch_message, R.
  simpl negb. cbv iota.
  unfold Observe.unreadOf in *.
  destruct (findOne (WatchlistModel.activeChat (WA.from m))
                    (Handlers.watchlist w)) as [entry|] eqn:W;
    [|discriminate].
  unfold MessageModel.logMessage. rewrite F.
  unfold MessageModel.create. rewrite V. simpl.
  split; [|split; reflexivity].
  rewrite CounterFacts.findOne_after_update, String.eqb_refl, W. simpl.
  rewrite CounterFacts.updateLastMessage_unread.
  simpl in U. injection U as <-. reflexivity.
Qed.

(** The group is watched and a message of a type the schema does not
    list arrives in it. *)
Lemma rejected_message_counts_unannounced_witness :
  let m := WA.mkMessage "a1" Samples.G Samples.me (Some Samples.alice) ""
             "album" 100 false None false false false 0 false [] [] [] [] in
  let w' := Handlers.dispatch Samples.session 100500
              (Handlers.on_message m) Samples.watchingG in
  Observe.unreadOf Samples.G w' = Some 1
  /\ Handlers.messages w' = []
  /\ Handlers.effects w' = [].
Proof.
  intros m w'.
  apply (@rejected_message_counts_unannounced Samples.session 100500 m
           Samples.watchingG 0 (ValidationError "type"));
    reflexivity.
Defined.

Module RedeliveryFacts.
Import Handlers Observe Watch.

(** What [logMessage] gives on a well-formed message. *)
Lemma logMessage_ok m now (l : list MessageModel.Doc) :
  MessageModel.validate (MessageModel.docOf m now) = Ok tt ->
  exists coll d,
    MessageModel.logMessage m now l = Ok (coll, d)
    /\ findOne (MessageModel.byMessageId (WA.id m)) coll = Some d
    /\ (NoDup (map MessageModel.messageId l) ->
        countDocuments (MessageModel.byMessageId (WA.id m)) coll = 1%nat).
Proof.
  intros V. unfold MessageModel.logMessage.
  destruct (findOne (MessageModel.byMessageId (WA.id m)) l) as [d|] eqn:F.
  - exists l, d. split; [reflexivity|]. split; [exact F|].
    intros N. now apply LogFacts.count_unique with d.
  - rewrite (@LogFacts.create_fresh (MessageModel.docOf m now) l V F).
    eexists _, _. split; [reflexivity|].
    assert (F1 : findOne (MessageModel.byMessageId (WA.id m))
                         (l ++ [MessageModel.docOf m now])
                 = Some (MessageModel.docOf m now)).
    { rewrite findOne_app_none by exact F.
      unfold MessageModel.byMessageId. simpl. now rewrite String.eqb_refl. }
    split; [exact F1|]. intros _.
    unfold countDocuments. rewrite filter_app, length_app.
    fold (countDocuments (MessageModel.byMessageId (WA.id m)) l).
    rewrite LogFacts.count_none by exact F. simpl.
    unfold MessageModel.byMessageId. simpl. now rewrite String.eqb_refl.
Qed.

Lemma logMessage_found m now (l : list MessageModel.Doc) d :
  findOne (MessageModel.byMessageId (WA.id m)) l = Some d ->
  MessageModel.logMessage m now l = Ok (l, d).
Proof. unfold MessageModel.logMessage. now intros ->. Qed.

Lemma resolves_group client c :
  chatResolves client c = true ->
  JS.includes c "@g.us" = true -> WA.getChatById client c = true.
Proof. unfold chatResolves. intros H G. now rewrite G in H. Qed.

End RedeliveryFacts.

(** A message of a watched conversation that is delivered twice is logged
    once, and counted and announced twice: the second handling leaves the
    log as the first made it, adds one more unread, and repeats the two
    broadcasts. *)
Theorem redelivered_message_logged_once
  (client : WA.Client) (now1 now2 : Z) (m : WA.Message)
  (w : Handlers.World) (n : Z) :
  Watch.chatResolves client (WA.from m) = true ->
  Observe.unreadOf (WA.from m) w = Some n ->
  WA.fromMe m = false ->
  MessageModel.validate (MessageModel.docOf m now1) = Ok tt ->
  Observe.uniqueIds w ->
  Handlers.broadcastFn w = true ->
  let w1 := Handlers.dispatch client now1 (Handlers.on_message m) w in
  let w2 := Handlers.dispatch client now2 (Handlers.on_message m) w1 in
  Handlers.messages w2 = Handlers.messages w1
  /\ countDocuments (MessageModel.byMessageId (WA.id m))
                    (Handlers.messages w2) = 1%nat
  /\ Observe.unreadOf (WA.from m) w2 = Some (n + 2)
  /\ Handlers.effects w2
     = (Handlers.effects w
        ++ [ Handlers.Broadcast WATCHLIST_MESSAGE
               (Watch.watchlistMessage (WA.from m) m now1);
             Handlers.Broadcast MESSAGE_NEW (Formatters.formatMessage m now1);
             Handlers.Broadcast WATCHLIST_MESSAGE
               (Watch.watchlistMessage (WA.from m) m now2);
             Handlers.Broadcast MESSAGE_NEW
               (Formatters.formatMessage m now2) ])%list.
Proof.
  intros R U Me V N B w1 w2.
  pose proof (RedeliveryFacts.resolves_group client _ R) as Hg.
  pose proof (CounterFacts.unread_step client now1 (WA.from m)
                (Handlers.on_message m) w Hg U) as U1.
  fold w1 in U1.
  pose proof (CounterFacts.unread_step client now2 (WA.from m)
                (Handlers.on_message m) w1 Hg U1) as U2.
  fold w2 in U2. simpl in U1, U2.
  rewrite String.eqb_refl, Me in U1, U2. simpl in U1, U2.
  destruct (RedeliveryFacts.logMessage_ok m now1 (Handlers.messages w) V)
    as (coll & d & L & F & C).
  assert (W : exists entry,
             findOne (WatchlistModel.activeChat (WA.from m))
                     (Handlers.watchlist w) = Some entry).
  { unfold Observe.unreadOf in U.
    destruct (findOne _ (Handlers.watchlist w)) as [entry|];
      [eauto | discriminate]. }
  destruct W as [entry W].
  assert (E1 : w1 = Watch.announce MESSAGE_NEW (Formatters.formatMessage m now1)
                      (Watch.announce WATCHLIST_MESSAGE
                         (Watch.watchlistMessage (WA.from m) m now1)
                         (Handlers.set_messages coll
                            (Handlers.set_watchlist
                               (updateFirst
                                  (WatchlistModel.activeChat (WA.from m))
                                  (WatchlistModel.updateLastMessage m now1)
                                  (Handlers.watchlist w)) w)))).
  { unfold w1. rewrite MessageFacts.dispatch_message, R, W, L. reflexivity. }
  assert (M1 : Handlers.messages w1 = coll).
  { rewrite E1. unfold Watch.announce, Handlers.broadcast. simpl.
    rewrite B. simpl. rewrite B. reflexivity. }
  assert (B1 : Handlers.broadcastFn w1 = true).
  { rewrite E1. unfold Watch.announce, Handlers.broadcast. simpl.
    rewrite B. simpl. rewrite B. exact B. }
  assert (X1 : Handlers.effects w1
               = (Handlers.effects w
                  ++ [ Handlers.Broadcast WATCHLIST_MESSAGE
                         (Watch.watchlistMessage (WA.from m) m now1);
                       Handlers.Broadcast MESSAGE_NEW
                         (Formatters.formatMessage m now1) ])%list).
  { rewrite E1. unfold Watch.announce, Handlers.broadcast. simpl.
    rewrite B. simpl. rewrite B. simpl. now rewrite <- app_assoc. }
  assert (W1 : exists entry1,
             findOne (WatchlistModel.activeChat (WA.from m))
                     (Handlers.watchlist w1) = Some entry1).
  { unfold Observe.unreadOf in U1.
    destruct (findOne _ (Handlers.watchlist w1)) as [entry1|];
      [eauto | discriminate]. }
  destruct W1 as [entry1 W1].
  assert (E2 : w2 = Watch.announce MESSAGE_NEW (Formatters.formatMessage m now2)
                      (Watch.announce WATCHLIST_MESSAGE
                         (Watch.watchlistMessage (WA.from m) m now2)
                         (Handlers.set_messages coll
                            (Handlers.set_watchlist
                               (updateFirst
                                  (WatchlistModel.activeChat (WA.from m))
                                  (WatchlistModel.updateLastMessage m now2)
                                  (Handlers.watchlist w1)) w1)))).
  { unfold w2. rewrite MessageFacts.dispatch_message, R, W1, M1.
    now rewrite (RedeliveryFacts.logMessage_found m now2 coll F). }
  assert (M2 : Handlers.messages w2 = coll).
  { rewrite E2. unfold Watch.announce, Handlers.broadcast. simpl.
    rewrite B1. simpl. rewrite B1. reflexivity. }
  split; [now rewrite M1, M2|]. split; [rewrite M2; now apply C|].
  split; [rewrite U2; f_equal; lia|].
  rewrite E2. unfold Watch.announce, Handlers.broadcast. simpl.
  rewrite B1. simpl. rewrite B1. simpl. rewrite X1, <- !app_assoc.
  reflexivity.
Qed.

(** [msg1] is delivered twice in the watched group. *)
Lemma redelivered_message_logged_once_witness :
  let w1 := Handlers.dispatch Samples.session 100500
              (Handlers.on_message Samples.msg1) Samples.watchingG in
  let w2 := Handlers.dispatch Samples.session 100900
              (Handlers.on_message Samples.msg1) w1 in
  Handlers.messages w2 = Handlers.messages w1
  /\ countDocuments (MessageModel.byMessageId "m1") (Handlers.messages w2)
     = 1%nat
  /\ Observe.unreadOf Samples.G w2 = Some 2.
Proof.
  intros w1 w2.
  destruct (@redelivered_message_logged_once Samples.session 100500 100900
              Samples.msg1 Samples.watchingG 0
              eq_refl eq_refl eq_refl eq_refl (NoDup_nil _) eq_refl)
    as (A & B & C & _).
  split; [exact A|]. split; [exact B | exact C].
Defined.

(** ** What every handler keeps *)

Module PreserveFacts.
Import Handlers Observe Watch.

Section Handler.
Variable P : World -> Prop.
Hypothesis P_emit :
  forall e, isBroadcast e = false -> preserves P (modify (emit e)).
Hypothesis P_broadcast : forall ev data, preserves P (broadcast ev data).
Hypothesis P_watch : forall c m now, preserves P (updateLastMessage c m now).
Hypothesis P_update :
  forall id f, (forall d, filing (f d) = filing d) ->
               preserves P (updateMessage id f).
Hypothesis P_log : forall m now, preserves P (logMessage m now).

Let P_ret := @IndexFacts.preserves_ret P.
Let P_throw := @IndexFacts.preserves_throw P.
Let P_gets := @IndexFacts.preserves_gets P.
Let P_bind := @IndexFacts.preserves_bind P.
Let P_try := @IndexFacts.preserves_try_catch P.

Lemma P_sendToChat client chat text mentions :
  preserves P (sendToChat client chat text mentions).
Proof.
  unfold sendToChat. destruct (WA.getChatById client chat).
  - apply P_bind; [now apply P_emit|]. intros _.
    destruct (WA.sendMessage client chat); [apply P_ret | apply P_throw].
  - apply P_throw.
Qed.

Lemma P_watchlistUpdate g data : preserves P (watchlistUpdate g data).
Proof.
  unfold watchlistUpdate, findWatched. apply P_bind; [apply P_gets|].
  intros [e|]; [apply P_broadcast | apply P_ret].
Qed.

Ltac step :=
  lazymatch goal with
  | |- preserves _ (ret _) => apply P_ret
  | |- preserves _ (throw _) => apply P_throw
  | |- preserves _ (gets _) => apply P_gets
  | |- preserves _ (findWatched _) => apply P_gets
  | |- preserves _ (findSettings _) => apply P_gets
  | |- preserves _ (broadcast _ _) => apply P_broadcast
  | |- preserves _ (updateLastMessage _ _ _) => apply P_watch
  | |- preserves _ (logMessage _ _) => apply P_log
  | |- preserves _ (sendToChat _ _ _ _) => apply P_sendToChat
  | |- preserves _ (watchlistUpdate _ _) => apply P_watchlistUpdate
  | |- preserves _ (modify (emit _)) => apply P_emit; reflexivity
  | |- preserves _ (updateMessage _ _) => apply P_update; reflexivity
  | |- preserves _ (try_catch _) => apply P_try
  | |- preserves _ (bind _ _) => apply P_bind; [|intros ?; cbv beta]
  end.

Lemma handler_preserves client now ev : preserves P (handler client now ev).
Proof.
  destruct ev; simpl.
  - unfold handleMessage, getChat.
    apply P_bind;
      [destruct (JS.includes _ _); [destruct (WA.getChatById _ _)|];
       repeat step|].
    intros _. apply P_bind; [repeat step|].
    intros [e|]; repeat step.
  - unfold handleMessageCreate.
    destruct (WA.fromMe m); [|repeat step].
    apply P_bind; [repeat step|]. intros [e|]; repeat step.
  - unfold handleMessageAck. repeat step.
  - unfold handleMessageRevoke. destruct revokedMsg; repeat step.
  - unfold handleMessageEdit. repeat step.
  - unfold handleMessageReaction.
    destruct (JS.truthy (WA.reaction r)); repeat step.
  - unfold handleGroupJoin.
    apply P_bind; [repeat step|]. intros _.
    apply P_bind; [repeat step|]. intros [settings|]; [|repeat step].
    apply P_bind; [|intros ?; repeat step].
    destruct (SettingsModel.enabled _); [|repeat step].
    apply P_bind; [repeat step|]. intros _. apply P_try.
    destruct (resolveJoined _ _ _ _ _). repeat step.
  - unfold handleGroupLeave.
    apply P_bind; [repeat step|]. intros _.
    apply P_bind; [repeat step|]. intros [settings|]; [|repeat step].
    apply P_bind; [|intros ?; repeat step].
    destruct (SettingsModel.enabled _); repeat step.
  - unfold handleGroupUpdate. repeat step.
  - unfold handleGroupAdminChanged. repeat step.
  - unfold handleGroupMembershipRequest. repeat step.
  - repeat step.
  - repeat step.
Qed.

Lemma dispatchAll_preserves client evs : forall w,
  P w -> P (dispatchAll client evs w).
Proof.
  induction evs as [|[now ev] evs IH]; intros w H; simpl; [exact H|].
  apply IH. now apply (handler_preserves client now ev).
Qed.

End Handler.

(** *** Without a broadcast function *)

Lemma silent_handlers l client evs w :
  silent l w -> silent l (dispatchAll client evs w).
Proof.
  apply dispatchAll_preserves.
  - intros e He w0 [B F]. split; [exact B|]. simpl.
    rewrite filter_app. simpl. rewrite He. now rewrite app_nil_r.
  - intros ev data w0 [B F]. unfold broadcast. rewrite B. now split.
  - intros c m now w0 H. exact H.
  - intros id f Hf w0 H. exact H.
  - intros m now w0 [B F]. unfold logMessage.
    destruct (MessageModel.logMessage m now (messages w0)) as [[? ?]|];
      now split.
Qed.

(** *** The filing of the records *)

Lemma extends_handlers l client evs w :
  extends l w -> extends l (dispatchAll client evs w).
Proof.
  apply dispatchAll_preserves.
  - intros e He w0 H. exact H.
  - intros ev data w0 H. unfold broadcast. now destruct (broadcastFn w0).
  - intros c m now w0 H. exact H.
  - intros id f Hf w0 [more H]. exists more.
    unfold updateMessage, modify. simpl.
    now rewrite updateFirst_map.
  - intros m now w0 [more H]. unfold logMessage, MessageModel.logMessage.
    destruct (findOne _ (messages w0)); simpl; [now exists more|].
    unfold MessageModel.create.
    destruct (MessageModel.validate _); simpl; [|now exists more].
    destruct (findOne _ (messages w0)); simpl; [now exists more|].
    exists (more ++ [filing (MessageModel.docOf m now)])%list.
    simpl. rewrite map_app, H, <- app_assoc. reflexivity.
Qed.

End PreserveFacts.

(** While no broadcast function is installed the handlers broadcast
    nothing, whatever events arrive; the function stays uninstalled. *)
Theorem no_broadcast_without_function
  (client : WA.Client) (evs : list (Z * Handlers.Event))
  (w : Handlers.World) :
  Handlers.broadcastFn w = false ->
  let w' := Handlers.dispatchAll client evs w in
  Handlers.broadcastFn w' = false
  /\ filter Watch.isBroadcast (Handlers.effects w')
     = filter Watch.isBroadcast (Handlers.effects w).
Proof.
  intros B w'.
  apply (@PreserveFacts.silent_handlers
           (filter Watch.isBroadcast (Handlers.effects w)) client evs w).
  now split.
Qed.

(** The traffic of the watched group with no function installed. *)
Lemma no_broadcast_without_function_witness :
  let w := Handlers.mkWorld [Samples.watchedEntry Samples.G "Team" GROUP]
                            [] [] false [] in
  let w' := Handlers.dispatchAll Samples.session Samples.traffic w in
  Handlers.broadcastFn w' = false
  /\ filter Watch.isBroadcast (Handlers.effects w') = [].
Proof.
  intros w w'.
  apply (@no_broadcast_without_function Samples.session Samples.traffic w).
  reflexivity.
Defined.

(** No run of events removes a record from the log or moves it: the
    records keep their place, identifier, conversation, timestamp, sender
    and recipient, and new records are appended after them. *)
Theorem records_never_removed
  (client : WA.Client) (evs : list (Z * Handlers.Event))
  (w : Handlers.World) :
  exists more,
    map Watch.filing (Handlers.messages (Handlers.dispatchAll client evs w))
    = (map Watch.filing (Handlers.messages w) ++ more)%list.
Proof.
  apply (@PreserveFacts.extends_handlers
           (map Watch.filing (Handlers.messages w)) client evs w).
  exists []. now rewrite app_nil_r.
Qed.

(** From a log with distinct identifiers, no run of events makes two
    records share one. *)
Theorem identifiers_stay_unique
  (client : WA.Client) (evs : list (Z * Handlers.Event))
  (w : Handlers.World) :
  Observe.uniqueIds w ->
  Observe.uniqueIds (Handlers.dispatchAll client evs w).
Proof. apply IndexFacts.dispatchAll_unique. Qed.

(** The traffic of the watched group, with [msg1] delivered once more at
    the end. *)
Lemma identifiers_stay_unique_witness :
  Observe.uniqueIds
    (Handlers.dispatchAll Samples.session
       (Samples.traffic ++ [(400500, Handlers.on_message Samples.msg1)])
       Samples.watchingG).
Proof.
  apply (@identifiers_stay_unique Samples.session
           (Samples.traffic ++ [(400500, Handlers.on_message Samples.msg1)])%list
           Samples.watchingG).
  constructor.
Defined.

(** ** Edits, revokes and reactions of one record *)

Module RecordFacts.
Import Handlers.

Lemma updateFirst_twice (Doc : Type) (p : Doc -> bool) (f g : Doc -> Doc)
  (l : list Doc) :
  (forall d, p (f d) = p d) ->
  updateFirst p g (updateFirst p f l) = updateFirst p (fun d => g (f d)) l.
Proof.
  intros Hp. induction l as [|d l IH]; simpl; [reflexivity|].
  destruct (p d) eqn:E; simpl.
  - now rewrite Hp, E.
  - now rewrite E, IH.
Qed.

Lemma updateFirst_ext (Doc : Type) (p : Doc -> bool) (f g : Doc -> Doc)
  (l : list Doc) :
  (forall d, f d = g d) -> updateFirst p f l = updateFirst p g l.
Proof.
  intros H. induction l as [|d l IH]; simpl; [reflexivity|].
  destruct (p d); [now rewrite H | now rewrite IH].
Qed.

Lemma dispatch_message_edit client now m newBody oldBody w :
  messages (dispatch client now (on_message_edit m newBody oldBody) w)
  = updateFirst (MessageModel.byMessageId (WA.id m))
                (MessageModel.markAsEdited newBody) (messages w).
Proof.
  unfold dispatch, try_catch, handler, handleMessageEdit, bind,
    updateMessage, modify, broadcast. simpl.
  destruct (broadcastFn w); reflexivity.
Qed.

Lemma messages_revoke client now m revoked w :
  messages (dispatch client now
              (on_message_revoke_everyone m (Some revoked)) w)
  = updateFirst (MessageModel.byMessageId (WA.id revoked))
                MessageModel.markAsDeleted (messages w).
Proof.
  rewrite RevokeFacts.dispatch_message_revoke. simpl.
  now destruct (broadcastFn w).
Qed.

End RecordFacts.

(** A revoke that arrives again changes nothing in the log: the record
    already carries the flag and the tombstone. *)
Theorem revoke_twice_is_revoke_once
  (client : WA.Client) (now1 now2 : Z) (m1 m2 revoked : WA.Message)
  (w : Handlers.World) :
  let w1 := Handlers.dispatch client now1
              (Handlers.on_message_revoke_everyone m1 (Some revoked)) w in
  let w2 := Handlers.dispatch client now2
              (Handlers.on_message_revoke_everyone m2 (Some revoked)) w1 in
  Handlers.messages w2 = Handlers.messages w1.
Proof.
  intros w1 w2. unfold w2, w1. rewrite !RecordFacts.messages_revoke.
  rewrite RecordFacts.updateFirst_twice by reflexivity.
  apply RecordFacts.updateFirst_ext. intros d. reflexivity.
Qed.

(** An edit and a revoke of one stored message both leave their flag,
    and the later of the two decides the body: an edit that arrives after
    the revoke puts the new text in the place of the tombstone of a record
    that stays deleted, a revoke after the edit leaves the tombstone. *)
Theorem edit_and_revoke_last_wins
  (client : WA.Client) (now1 now2 : Z) (m revoked : WA.Message)
  (newBody oldBody : string) (w : Handlers.World) (d : MessageModel.Doc) :
  WA.id revoked = WA.id m ->
  findOne (MessageModel.byMessageId (WA.id m)) (Handlers.messages w)
    = Some d ->
  let revoke := Handlers.on_message_revoke_everyone m (Some revoked) in
  let edit := Handlers.on_message_edit m newBody oldBody in
  (exists d',
      findOne (MessageModel.byMessageId (WA.id m))
        (Handlers.messages
           (Handlers.dispatch client now2 edit
              (Handlers.dispatch client now1 revoke w))) = Some d'
      /\ MessageModel.isDeleted d' = true
      /\ MessageModel.isEdited d' = true
      /\ MessageModel.body d' = newBody)
  /\ (exists d',
      findOne (MessageModel.byMessageId (WA.id m))
        (Handlers.messages
           (Handlers.dispatch client now2 revoke
              (Handlers.dispatch client now1 edit w))) = Some d'
      /\ MessageModel.isDeleted d' = true
      /\ MessageModel.isEdited d' = true
      /\ MessageModel.body d' = MessageModel.tombstone).
Proof.
  intros Hid Hd revoke edit. unfold revoke, edit. split.
  - rewrite RecordFacts.dispatch_message_edit, RecordFacts.messages_revoke.
    rewrite Hid, RecordFacts.updateFirst_twice by reflexivity.
    rewrite findOne_updateFirst by reflexivity. rewrite Hd. simpl.
    eexists. split; [reflexivity|]. repeat split.
  - rewrite RecordFacts.messages_revoke, RecordFacts.dispatch_message_edit.
    rewrite Hid, RecordFacts.updateFirst_twice by reflexivity.
    rewrite findOne_updateFirst by reflexivity. rewrite Hd. simpl.
    eexists. split; [reflexivity|]. repeat split.
Qed.

(** [msg1] is revoked, and then an edit of it arrives. *)
Lemma edit_and_revoke_last_wins_witness :
  let w := Handlers.set_messages Samples.threeStored Samples.emptyWorld in
  let w' := Handlers.dispatch Samples.session 500000
              (Handlers.on_message_edit Samples.msg1 "one, again" "one")
              (Handlers.dispatch Samples.session 400000
                 (Handlers.on_message_revoke_everyone
                    Samples.msg1 (Some Samples.msg1)) w) in
  exists d',
    findOne (MessageModel.byMessageId "m1") (Handlers.messages w') = Some d'
    /\ MessageModel.isDeleted d' = true
    /\ MessageModel.isEdited d' = true
    /\ MessageModel.body d' = "one, again".
Proof.
  intros w w'.
  apply (proj1 (@edit_and_revoke_last_wins Samples.session 400000 500000
                  Samples.msg1 Samples.msg1 "one, again" "one" w
                  (MessageModel.docOf Samples.msg1 0) eq_refl eq_refl)).
Defined.

(** An event with an empty emoji removes every entry of its sender from
    the record of the message and leaves the entries of all other senders,
    and everything else in the record, as they were. *)
Theorem empty_reaction_removes_only_sender
  (client : WA.Client) (now : Z) (w : Handlers.World)
  (r : WA.Reaction) (d : MessageModel.Doc) :
  WA.reaction r = "" ->
  findOne (MessageModel.byMessageId (WA.msgId r)) (Handlers.messages w)
    = Some d ->
  exists d',
    findOne (MessageModel.byMessageId (WA.msgId r))
            (Handlers.messages
               (Handlers.dispatch client now
                  (Handlers.on_message_reaction r) w)) = Some d'
    /\ Observe.entriesOf (WA.senderId r) d' = []
    /\ (forall other, other <> WA.senderId r ->
          Observe.entriesOf other d' = Observe.entriesOf other d)
    /\ d' = MessageModel.set_reactions (MessageModel.reactions d') d.
Proof.
  intros He Hd. rewrite ReactionFacts.dispatch_message_reaction, He. simpl.
  rewrite findOne_updateFirst by reflexivity. rewrite Hd. simpl.
  eexists. split; [reflexivity|]. split; [|split].
  - unfold Observe.entriesOf, Handlers.pull. simpl.
    apply (ReactionFacts.filter_negb_same
             (fun r0 => String.eqb (MessageModel.senderId r0) (WA.senderId r))).
  - intros other N. unfold Observe.entriesOf, Handlers.pull. simpl.
    apply ReactionFacts.filter_negb_other. congruence.
  - reflexivity.
Qed.

(** alice and bob have reacted to [msg1]; alice takes her reaction
    back. *)
Lemma empty_reaction_removes_only_sender_witness :
  let stored :=
    MessageModel.set_reactions
      [ MessageModel.mkReaction "👍" Samples.alice 110000;
        MessageModel.mkReaction "❤" Samples.bob 120000 ]
      (MessageModel.docOf Samples.msg1 0) in
  let w := Handlers.set_messages [stored] Samples.emptyWorld in
  let r := WA.mkReaction "r3" "" Samples.alice 130 false "m1" in
  exists d',
    findOne (MessageModel.byMessageId "m1")
            (Handlers.messages
               (Handlers.dispatch Samples.session 130000
                  (Handlers.on_message_reaction r) w)) = Some d'
    /\ MessageModel.reactions d'
       = [MessageModel.mkReaction "❤" Samples.bob 120000].
Proof.
  intros stored w r.
  destruct (@empty_reaction_removes_only_sender Samples.session 130000 w r
              stored eq_refl eq_refl) as (d' & F & _).
  exists d'. split; [exact F|].
  injection F as <-. reflexivity.
Defined.

(** ** The watchlist: removal, order, tags *)

Module RegistryFacts.
Import WatchlistModel.

Lemma updateFirst_fixed (Doc : Type) (p : Doc -> bool) (f : Doc -> Doc)
  (l : list Doc) d :
  findOne p l = Some d -> f d = d -> updateFirst p f l = l.
Proof.
  induction l as [|x l IH]; simpl; [discriminate|].
  destruct (p x).
  - intros [= ->] ->. reflexivity.
  - intros F E. now rewrite IH.
Qed.

Lemma reactivate_active e :
  isActive e = true -> set_isActive true (set_isActive false e) = e.
Proof. destruct e. simpl. now intros ->. Qed.

(** Under the unique index no other entry of the conversation is left
    once the first is removed. *)
Lemma removed_not_watched c (coll : list Entry) :
  NoDup (map chatId coll) ->
  findOne (activeChat c)
          (updateFirst (byChatId c) (set_isActive false) coll) = None.
Proof.
  induction coll as [|e coll IH]; simpl; [reflexivity|].
  intros N. inversion N as [|? ? Hn N']; subst.
  destruct (byChatId c e) eqn:E; simpl.
  - unfold activeChat at 1. simpl. rewrite andb_false_r.
    unfold byChatId in E. apply String.eqb_eq in E.
    clear IH. induction coll as [|x coll IHc]; simpl; [reflexivity|].
    inversion N' as [|? ? Hx N'']; subst.
    unfold activeChat at 1.
    destruct (String.eqb (chatId x) (chatId e)) eqn:Ex.
    + apply String.eqb_eq in Ex. exfalso. apply Hn. left. exact Ex.
    + simpl. apply IHc; [| |exact N''].
      * constructor; [|exact N'']. intros I. apply Hn. now right.
      * intros I. apply Hn. now right.
  - unfold activeChat at 1. unfold byChatId in E. rewrite E. simpl.
    now apply IH.
Qed.

(** The position of an identifier in a list. *)
Lemma reorderFrom_spec ids : forall k coll c,
  NoDup ids ->
  findOne (byChatId c) (reorderFrom k ids coll)
  = match List.find (fun p => String.eqb (snd p) c)
                    (combine (seq 0 (List.length ids)) ids) with
    | Some (j, _) =>
        option_map (set_order (k + Z.of_nat j)) (findOne (byChatId c) coll)
    | None => findOne (byChatId c) coll
    end.
Proof.
  induction ids as [|x ids IH]; intros k coll c N; [reflexivity|].
  inversion N as [|? ? Hx N']; subst.
  change (reorderFrom k (x :: ids) coll)
    with (reorderFrom (k + 1) ids
            (updateFirst (byChatId x) (set_order k) coll)).
  rewrite IH by exact N'.
  change (combine (seq 0 (List.length (x :: ids))) (x :: ids))
    with ((0%nat, x) :: combine (seq 1 (List.length ids)) ids).
  cbn [List.find snd].
  assert (Shift : forall (l : list string) (a : nat),
             List.find (fun p => String.eqb (snd p) c)
                       (combine (seq (S a) (List.length l)) l)
             = option_map (fun p => (S (fst p), snd p))
                 (List.find (fun p => String.eqb (snd p) c)
                            (combine (seq a (List.length l)) l))).
  { induction l as [|y l IHl]; intros a; [reflexivity|].
    simpl. destruct (String.eqb y c); [reflexivity | apply IHl]. }
  rewrite Shift.
  destruct (String.eqb x c) eqn:E.
  - apply String.eqb_eq in E. subst x.
    assert (Nf : List.find (fun p => String.eqb (snd p) c)
                           (combine (seq 0 (List.length ids)) ids) = None).
    { clear -Hx. generalize 0%nat.
      induction ids as [|y ids IHi]; intros a; [reflexivity|].
      simpl. destruct (String.eqb y c) eqn:Ey.
      - apply String.eqb_eq in Ey. exfalso. apply Hx. now left.
      - apply IHi. intros I. apply Hx. now right. }
    rewrite Nf. simpl.
    rewrite findOne_updateFirst by reflexivity.
    destruct (findOne (byChatId c) coll); simpl; [|reflexivity].
    f_equal. f_equal. lia.
  - assert (O : findOne (byChatId c)
                        (updateFirst (byChatId x) (set_order k) coll)
                = findOne (byChatId c) coll).
    { apply findOne_updateFirst_other. intros d Hd.
      unfold byChatId in *. simpl. apply String.eqb_eq in Hd.
      rewrite Hd. now split. }
    rewrite O.
    destruct (List.find (fun p => String.eqb (snd p) c)
                        (combine (seq 0 (List.length ids)) ids))
      as [[j y]|]; simpl; [|reflexivity].
    destruct (findOne (byChatId c) coll); simpl; [|reflexivity].
    f_equal. f_equal. lia.
Qed.

End RegistryFacts.

(** Removing an active entry and adding the conversation again gives the
    collection back as it was: the entry returns with its order, unread
    counter, pin and preview, and the chat data handed to the second add is
    ignored. *)
Theorem remove_then_add_restores
  (chatData : WatchlistModel.ChatData) (now : Z)
  (coll : list WatchlistModel.Entry) (e : WatchlistModel.Entry) :
  findOne (WatchlistModel.byChatId (WatchlistModel.dataChatId chatData)) coll
    = Some e ->
  WatchlistModel.isActive e = true ->
  let removed :=
    WatchlistModel.removeFromWatchlist
      (WatchlistModel.dataChatId chatData) coll in
  snd removed = Some (WatchlistModel.set_isActive false e)
  /\ WatchlistModel.addToWatchlist chatData now (fst removed) = Ok (coll, e).
Proof.
  intros F A removed. unfold removed, WatchlistModel.removeFromWatchlist.
  simpl. rewrite F. split; [reflexivity|].
  unfold WatchlistModel.addToWatchlist.
  rewrite findOne_updateFirst by reflexivity. rewrite F. simpl.
  rewrite RecordFacts.updateFirst_twice by reflexivity.
  rewrite (RegistryFacts.updateFirst_fixed _ _ _ F)
    by now apply RegistryFacts.reactivate_active.
  now rewrite RegistryFacts.reactivate_active.
Qed.

(** The group, at order 5 in the watchlist, is removed and added again
    under another name. *)
Lemma remove_then_add_restores_witness :
  WatchlistModel.addToWatchlist
    (Samples.chatDataFor Samples.G "Renamed") 70
    (fst (WatchlistModel.removeFromWatchlist Samples.G Samples.someWatchlist))
  = Ok (Samples.someWatchlist,
        WatchlistModel.set_order 5
          (Samples.watchedEntry Samples.G "Team" GROUP)).
Proof.
  apply (@remove_then_add_restores
           (Samples.chatDataFor Samples.G "Renamed") 70
           Samples.someWatchlist
           (WatchlistModel.set_order 5
              (Samples.watchedEntry Samples.G "Team" GROUP)));
    reflexivity.
Defined.

(** After the removal of a conversation, under the unique index on
    [chatId], its messages are no longer persisted: a [message] event from
    it changes neither the watchlist nor the log. *)
Theorem removed_conversation_not_persisted
  (client : WA.Client) (now : Z) (m : WA.Message) (w : Handlers.World) :
  NoDup (map WatchlistModel.chatId (Handlers.watchlist w)) ->
  let w0 :=
    Handlers.set_watchlist
      (fst (WatchlistModel.removeFromWatchlist (WA.from m)
                                               (Handlers.watchlist w))) w in
  let w' := Handlers.dispatch client now (Handlers.on_message m) w0 in
  Handlers.watchlist w' = Handlers.watchlist w0
  /\ Handlers.messages w' = Handlers.messages w.
Proof.
  intros N w0 w'. unfold w'. rewrite MessageFacts.dispatch_message.
  assert (F : findOne (WatchlistModel.activeChat (WA.from m))
                      (Handlers.watchlist w0) = None).
  { unfold w0. simpl. now apply RegistryFacts.removed_not_watched. }
  rewrite F.
  destruct (Watch.chatResolves client (WA.from m)); simpl.
  - destruct (MessageFacts.announce_stores MESSAGE_NEW
                (Formatters.formatMessage m now) w0) as (A & B & _).
    split; [exact A | exact B].
  - split; reflexivity.
Qed.

(** The watched group is removed; then [msg1] arrives in it. *)
Lemma removed_conversation_not_persisted_witness :
  let w0 :=
    Handlers.set_watchlist
      (fst (WatchlistModel.removeFromWatchlist
              Samples.G (Handlers.watchlist Samples.watchingG)))
      Samples.watchingG in
  let w' := Handlers.dispatch Samples.session 100500
              (Handlers.on_message Samples.msg1) w0 in
  Handlers.watchlist w' = Handlers.watchlist w0
  /\ Handlers.messages w' = [].
Proof.
  apply (@removed_conversation_not_persisted Samples.session 100500
           Samples.msg1 Samples.watchingG).
  repeat constructor. simpl. tauto.
Defined.

(** [reorder] with distinct identifiers gives every listed conversation
    its position in the list as [order], active or not, and leaves the
    entries of the conversations it does not list as they were. *)
Theorem reorder_assigns_positions
  (orderedIds : list string) (coll : list WatchlistModel.Entry) :
  NoDup orderedIds ->
  (forall i c e,
      nth_error orderedIds i = Some c ->
      findOne (WatchlistModel.byChatId c) coll = Some e ->
      findOne (WatchlistModel.byChatId c)
              (WatchlistModel.reorder orderedIds coll)
      = Some (WatchlistModel.set_order (Z.of_nat i) e))
  /\ (forall c,
      ~ In c orderedIds ->
      findOne (WatchlistModel.byChatId c)
              (WatchlistModel.reorder orderedIds coll)
      = findOne (WatchlistModel.byChatId c) coll).
Proof.
  intros N. unfold WatchlistModel.reorder.
  assert (Pos : forall (l : list string) (a i : nat) c,
             NoDup l -> nth_error l i = Some c ->
             List.find (fun p => String.eqb (snd p) c)
                       (combine (seq a (List.length l)) l)
             = Some ((a + i)%nat, c)).
  { induction l as [|y l IHl]; intros a i c Nl Hi;
      [destruct i; discriminate|].
    inversion Nl as [|? ? Hy Nl']; subst. simpl.
    destruct i as [|i]; simpl in Hi.
    - injection Hi as ->. rewrite String.eqb_refl. now rewrite Nat.add_0_r.
    - destruct (String.eqb y c) eqn:E.
      + apply String.eqb_eq in E. subst y. exfalso. apply Hy.
        eapply nth_error_In. exact Hi.
      + rewrite (IHl (S a) i c Nl' Hi). f_equal. f_equal. lia. }
  assert (Abs : forall (l : list string) (a : nat) c,
             ~ In c l ->
             List.find (fun p => String.eqb (snd p) c)
                       (combine (seq a (List.length l)) l) = None).
  { induction l as [|y l IHl]; intros a c Hc; [reflexivity|].
    simpl. destruct (String.eqb y c) eqn:E.
    - apply String.eqb_eq in E. exfalso. apply Hc. now left.
    - apply IHl. intros I. apply Hc. now right. }
  split.
  - intros i c e Hi F.
    rewrite RegistryFacts.reorderFrom_spec by exact N.
    rewrite (Pos orderedIds 0%nat i c N Hi), F. reflexivity.
  - intros c Hc.
    rewrite RegistryFacts.reorderFrom_spec by exact N.
    now rewrite (Abs orderedIds 0%nat c Hc).
Qed.

(** The watchlist (alice 1, group 5, bob removed at 9) is reordered to
    bob, alice: bob gets 0 though removed, alice 1, the group keeps 5. *)
Lemma reorder_assigns_positions_witness :
  let coll := WatchlistModel.reorder [Samples.bob; Samples.alice]
                                     Samples.someWatchlist in
  option_map WatchlistModel.order
             (findOne (WatchlistModel.byChatId Samples.bob) coll) = Some 0
  /\ option_map WatchlistModel.order
                (findOne (WatchlistModel.byChatId Samples.alice) coll) = Some 1
  /\ option_map WatchlistModel.order
                (findOne (WatchlistModel.byChatId Samples.G) coll) = Some 5.
Proof.
  intros coll. subst coll.
  assert (N : NoDup [Samples.bob; Samples.alice]).
  { repeat constructor; simpl; intuition discriminate. }
  destruct (@reorder_assigns_positions [Samples.bob; Samples.alice]
              Samples.someWatchlist N) as [P A].
  split; [|split].
  - rewrite (P 0%nat Samples.bob _ eq_refl eq_refl). reflexivity.
  - rewrite (P 1%nat Samples.alice _ eq_refl eq_refl). reflexivity.
  - rewrite (A Samples.G); [reflexivity|].
    simpl. intuition discriminate.
Defined.

Module DisplayFacts.
Import WatchlistModel WatchlistQueries.

(** Two entries that differ at most in [order]. *)
Lemma precedes_order a b x y :
  set_order 0 a = set_order 0 b -> set_order 0 x = set_order 0 y ->
  precedes a x = precedes b y.
Proof.
  destruct a, b, x, y. unfold set_order, precedes. simpl.
  intros [= -> -> -> -> -> -> -> -> -> -> -> -> ->]
         [= -> -> -> -> -> -> -> -> -> -> -> -> ->].
  reflexivity.
Qed.

Lemma isActive_order a b :
  set_order 0 a = set_order 0 b -> isActive a = isActive b.
Proof.
  destruct a, b. unfold set_order. simpl. now intros [= _ _ _ -> _].
Qed.

Lemma insertSorted_order a b : forall l l',
  set_order 0 a = set_order 0 b ->
  map (set_order 0) l = map (set_order 0) l' ->
  map (set_order 0) (insertSorted a l) = map (set_order 0) (insertSorted b l').
Proof.
  induction l as [|x l IH]; intros [|y l'] E H; try discriminate.
  - simpl. now rewrite E.
  - assert (Exy : set_order 0 x = set_order 0 y)
      by (simpl in H; congruence).
    assert (H' : map (set_order 0) l = map (set_order 0) l')
      by (simpl in H; congruence).
    clear H. rename H' into H.
    simpl. rewrite (@precedes_order a b x y E Exy).
    destruct (precedes b y); simpl.
    + now rewrite E, Exy, H.
    + rewrite Exy. f_equal. now apply IH.
Qed.

Lemma display_order : forall l l',
  map (set_order 0) l = map (set_order 0) l' ->
  map (set_order 0) (getActiveWatchlist l)
  = map (set_order 0) (getActiveWatchlist l').
Proof.
  unfold getActiveWatchlist.
  induction l as [|x l IH]; intros [|y l'] H; try discriminate;
    [reflexivity|].
  assert (Exy : set_order 0 x = set_order 0 y)
    by (simpl in H; congruence).
  assert (H' : map (set_order 0) l = map (set_order 0) l')
    by (simpl in H; congruence).
  clear H. rename H' into H. simpl.
  rewrite (@isActive_order x y Exy).
  destruct (isActive y); simpl.
  - apply insertSorted_order; [exact Exy | now apply IH].
  - now apply IH.
Qed.

Lemma reorderFrom_order ids : forall k coll,
  map (set_order 0) (reorderFrom k ids coll) = map (set_order 0) coll.
Proof.
  induction ids as [|c ids IH]; intros k coll; [reflexivity|].
  simpl. rewrite IH. apply updateFirst_map. now intros [].
Qed.

End DisplayFacts.

(** [reorder] does not bear on the list [getActiveWatchlist] returns: the
    same entries come in the same sequence, pinned first and then by the
    time of the preview, and differ at most in the [order] field, which the
    query does not sort by. *)
Theorem reorder_does_not_change_display
  (orderedIds : list string) (coll : list WatchlistModel.Entry) :
  map (WatchlistModel.set_order 0)
      (WatchlistQueries.getActiveWatchlist
         (WatchlistModel.reorder orderedIds coll))
  = map (WatchlistModel.set_order 0)
        (WatchlistQueries.getActiveWatchlist coll).
Proof.
  apply DisplayFacts.display_order.
  unfold WatchlistModel.reorder. apply DisplayFacts.reorderFrom_order.
Qed.

Module TagFacts.
Import WatchlistModel WatchlistQueries.

Lemma mem_string_In t l : mem_string t l = true <-> In t l.
Proof.
  unfold mem_string. rewrite existsb_exists. split.
  - intros (x & I & E). apply String.eqb_eq in E. now subst.
  - intros I. exists t. split; [exact I | apply String.eqb_refl].
Qed.

Lemma addToSet_In tags : forall cur t,
  In t (addToSet tags cur) <-> In t cur \/ In t tags.
Proof.
  induction tags as [|x tags IH]; intros cur t; simpl; [tauto|].
  rewrite IH. destruct (mem_string x cur) eqn:M.
  - apply mem_string_In in M. split; [tauto|].
    intros [H|[H|H]]; subst; tauto.
  - rewrite in_app_iff. simpl. tauto.
Qed.

Lemma addToSet_NoDup tags : forall cur,
  NoDup cur -> NoDup (addToSet tags cur).
Proof.
  induction tags as [|x tags IH]; intros cur N; simpl; [exact N|].
  apply IH. destruct (mem_string x cur) eqn:M; [exact N|].
  assert (Hx : ~ In x cur).
  { intros I. apply mem_string_In in I. congruence. }
  clear M. induction cur as [|y cur IHc]; simpl.
  - constructor; [tauto | constructor].
  - inversion N as [|? ? Hy N']; subst. constructor.
    + rewrite in_app_iff. simpl. intros [I|[I|[]]]; [tauto|].
      subst. apply Hx. now left.
    + apply IHc; [exact N'|]. intros I. apply Hx. now right.
Qed.

Lemma addToSet_absorb tags : forall cur,
  (forall t, In t tags -> In t cur) -> addToSet tags cur = cur.
Proof.
  induction tags as [|x tags IH]; intros cur H; simpl; [reflexivity|].
  assert (M : mem_string x cur = true).
  { apply mem_string_In. apply H. now left. }
  rewrite M. apply IH. intros t I. apply H. now right.
Qed.

Lemma addToSet_prefix tags : forall cur,
  exists added, addToSet tags cur = (cur ++ added)%list.
Proof.
  induction tags as [|x tags IH]; intros cur; simpl.
  - exists []. now rewrite app_nil_r.
  - destruct (mem_string x cur); [apply IH|].
    destruct (IH (cur ++ [x])%list) as (added & E).
    exists (x :: added). rewrite E. now rewrite <- app_assoc.
Qed.

Lemma activeChat_set_tags c t e :
  activeChat c (set_tags t e) = activeChat c e.
Proof. reflexivity. Qed.

Lemma set_tags_twice t u e : set_tags t (set_tags u e) = set_tags t e.
Proof. reflexivity. Qed.

End TagFacts.

(** [addTags] of the service treats the tags as a set: on the active
    entry of the conversation the tags that were there keep their places,
    every requested tag is there afterwards, a list without duplicates
    stays without, and adding the same tags a second time changes
    nothing. *)
Theorem addTags_adds_each_once
  (chatId : string) (tags : list string)
  (coll : list WatchlistModel.Entry) (e : WatchlistModel.Entry) :
  WatchlistService.getWatchlistItem chatId coll = inl e ->
  exists e',
    WatchlistService.getWatchlistItem chatId
      (WatchlistQueries.addTags chatId tags coll) = inl e'
    /\ e' = WatchlistQueries.set_tags (WatchlistModel.tags e') e
    /\ (exists added,
          WatchlistModel.tags e' = (WatchlistModel.tags e ++ added)%list)
    /\ (forall t, In t (WatchlistModel.tags e')
                  <-> In t (WatchlistModel.tags e) \/ In t tags)
    /\ (NoDup (WatchlistModel.tags e) -> NoDup (WatchlistModel.tags e'))
    /\ WatchlistQueries.addTags chatId tags
         (WatchlistQueries.addTags chatId tags coll)
       = WatchlistQueries.addTags chatId tags coll.
Proof.
  unfold WatchlistService.getWatchlistItem, WatchlistQueries.addTags.
  set (c := WatchlistService.normalizeId chatId).
  destruct (findOne (WatchlistModel.activeChat c) coll) as [d|] eqn:F;
    [|discriminate].
  intros [= ->].
  exists (WatchlistQueries.set_tags
            (WatchlistQueries.addToSet tags (WatchlistModel.tags e)) e).
  rewrite findOne_updateFirst by reflexivity. rewrite F. simpl.
  split; [reflexivity|]. split; [reflexivity|].
  split; [apply TagFacts.addToSet_prefix|].
  split; [apply TagFacts.addToSet_In|].
  split; [apply TagFacts.addToSet_NoDup|].
  rewrite RecordFacts.updateFirst_twice by reflexivity.
  apply RecordFacts.updateFirst_ext. intros d. simpl.
  rewrite (TagFacts.addToSet_absorb tags
             (WatchlistQueries.addToSet tags (WatchlistModel.tags d)));
    [reflexivity|].
  intros t I. apply TagFacts.addToSet_In. now right.
Qed.

(** The watched group gets the tags work, team, work. *)
Lemma addTags_adds_each_once_witness :
  exists e',
    WatchlistService.getWatchlistItem Samples.G
      (WatchlistQueries.addTags Samples.G ["work"; "team"; "work"]
                                Samples.someWatchlist) = inl e'
    /\ WatchlistModel.tags e' = ["work"; "team"].
Proof.
  destruct (@addTags_adds_each_once Samples.G ["work"; "team"; "work"]
              Samples.someWatchlist
              (WatchlistModel.set_order 5
                 (Samples.watchedEntry Samples.G "Team" GROUP))
              eq_refl) as (e' & F & _).
  exists e'. split; [exact F|].
  vm_compute in F. injection F as <-. reflexivity.
Defined.

(** [removeTag] of the service takes every occurrence of the tag from the
    active entry of the conversation and keeps the other tags in their
    order; after [addTags] of that one tag on an entry that did not carry
    it, the tags are as before. *)
Theorem removeTag_undoes_addTags
  (chatId tag : string)
  (coll : list WatchlistModel.Entry) (e : WatchlistModel.Entry) :
  WatchlistService.getWatchlistItem chatId coll = inl e ->
  ~ In tag (WatchlistModel.tags e) ->
  WatchlistQueries.removeTag chatId tag
    (WatchlistQueries.addTags chatId [tag] coll) = coll
  /\ WatchlistQueries.removeTag chatId tag coll = coll.
Proof.
  unfold WatchlistService.getWatchlistItem,
    WatchlistQueries.removeTag, WatchlistQueries.addTags.
  set (c := WatchlistService.normalizeId chatId).
  destruct (findOne (WatchlistModel.activeChat c) coll) as [d|] eqn:F;
    [|discriminate].
  intros [= ->] Hn.
  assert (P : WatchlistQueries.pullTag tag (WatchlistModel.tags e)
              = WatchlistModel.tags e).
  { unfold WatchlistQueries.pullTag.
    induction (WatchlistModel.tags e) as [|x l IH]; [reflexivity|].
    simpl. destruct (String.eqb x tag) eqn:E.
    - apply String.eqb_eq in E. exfalso. apply Hn. now left.
    - simpl. f_equal. apply IH. intros I. apply Hn. now right. }
  assert (Id : WatchlistQueries.set_tags (WatchlistModel.tags e) e = e)
    by now destruct e.
  split.
  - rewrite RecordFacts.updateFirst_twice by reflexivity.
    apply (RegistryFacts.updateFirst_fixed _ _ _ F). simpl.
    assert (M : mem_string tag (WatchlistModel.tags e) = false).
    { destruct (mem_string tag (WatchlistModel.tags e)) eqn:M;
        [|reflexivity].
      apply TagFacts.mem_string_In in M. contradiction. }
    rewrite M. unfold WatchlistQueries.pullTag.
    rewrite filter_app. fold (WatchlistQueries.pullTag tag
                                (WatchlistModel.tags e)).
    rewrite P. simpl. rewrite String.eqb_refl. simpl.
    rewrite app_nil_r. exact Id.
  - apply (RegistryFacts.updateFirst_fixed _ _ _ F). now rewrite P.
Qed.

(** The watched group, without tags, is tagged urgent and untagged. *)
Lemma removeTag_undoes_addTags_witness :
  WatchlistQueries.removeTag Samples.G "urgent"
    (WatchlistQueries.addTags Samples.G ["urgent"] Samples.someWatchlist)
  = Samples.someWatchlist.
Proof.
  apply (@removeTag_undoes_addTags Samples.G "urgent"
           Samples.someWatchlist
           (WatchlistModel.set_order 5
              (Samples.watchedEntry Samples.G "Team" GROUP))
           eq_refl).
  simpl. tauto.
Defined.

(** Once a conversation is removed, under the unique index on [chatId],
    the service no longer finds it: [getWatchlistItem], [markAsRead] and
    [togglePin] fail with "not found".  A second [removeFromWatchlist]
    does not: it finds the entry by [chatId] alone, succeeds again with the
    same result and leaves the collection as it is. *)
Theorem removed_entry_not_found
  (chatId : string) (coll coll' : list WatchlistModel.Entry)
  (r : WatchlistModel.Entry) :
  NoDup (map WatchlistModel.chatId coll) ->
  WatchlistQueries.removeFromWatchlist chatId coll = inl (coll', r) ->
  WatchlistService.getWatchlistItem chatId coll'
    = inr WatchlistService.WATCHLIST_NOT_FOUND
  /\ WatchlistService.markAsRead chatId coll'
     = inr WatchlistService.WATCHLIST_NOT_FOUND
  /\ WatchlistQueries.togglePin chatId coll'
     = inr WatchlistService.WATCHLIST_NOT_FOUND
  /\ WatchlistQueries.removeFromWatchlist chatId coll' = inl (coll', r).
Proof.
  intros N. unfold WatchlistQueries.removeFromWatchlist,
    WatchlistModel.removeFromWatchlist.
  set (c := WatchlistService.normalizeId chatId).
  destruct (findOne (WatchlistModel.byChatId c) coll) as [e|] eqn:F;
    simpl; [|discriminate].
  intros [= <- <-].
  assert (G : WatchlistService.getWatchlistItem chatId
                (updateFirst (WatchlistModel.byChatId c)
                             (WatchlistModel.set_isActive false) coll)
              = inr WatchlistService.WATCHLIST_NOT_FOUND).
  { unfold WatchlistService.getWatchlistItem. fold c.
    now rewrite RegistryFacts.removed_not_watched. }
  split; [exact G|].
  split; [unfold WatchlistService.markAsRead; now rewrite G|].
  split; [unfold WatchlistQueries.togglePin; now rewrite G|].
  rewrite findOne_updateFirst by reflexivity. rewrite F. simpl.
  rewrite RecordFacts.updateFirst_twice by reflexivity.
  reflexivity.
Qed.

(** The watched group is removed through the service. *)
Lemma removed_entry_not_found_witness :
  let coll' :=
    fst (WatchlistModel.removeFromWatchlist Samples.G Samples.someWatchlist)
  in
  WatchlistService.getWatchlistItem Samples.G coll'
    = inr WatchlistService.WATCHLIST_NOT_FOUND
  /\ WatchlistService.markAsRead Samples.G coll'
     = inr WatchlistService.WATCHLIST_NOT_FOUND
  /\ WatchlistQueries.togglePin Samples.G coll'
     = inr WatchlistService.WATCHLIST_NOT_FOUND
  /\ WatchlistQueries.removeFromWatchlist Samples.G coll'
     = inl (coll',
            WatchlistModel.set_isActive false
              (WatchlistModel.set_order 5
                 (Samples.watchedEntry Samples.G "Team" GROUP))).
Proof.
  apply (@removed_entry_not_found Samples.G Samples.someWatchlist).
  - repeat constructor; simpl; intuition discriminate.
  - reflexivity.
Defined.

Module MembershipFacts.
Import Handlers Observe.

(** Everything a [group_join] event adds to the effects. *)
Lemma join_effects client now n w :
  effects (dispatch client now (on_group_join n) w)
  = (effects w
     ++ (if broadcastFn w
         then [Broadcast GROUP_JOIN
                 (Formatters.formatGroupNotification n now)]
         else [])
     ++ match findOne (SettingsModel.activeGroup (WA.chatId n))
                      (groupSettings w) with
        | Some s =>
            let config := SettingsModel.welcome (SettingsModel.autoMessages s)
            in
            if SettingsModel.enabled config then
              Delay (JS.num_or (SettingsModel.delay config) 3000)
              :: (if WA.getChatById client (WA.chatId n) then
                    let r := resolveJoined client config (WA.recipientIds n)
                               (SettingsModel.message config) [] in
                    [SendMessage (WA.chatId n)
                       (if SettingsModel.includeGroupRules config
                           && JS.truthy (SettingsModel.groupRules s)
                        then fst r ++ rulesHeader
                             ++ SettingsModel.groupRules s
                        else fst r)
                       (if SettingsModel.mentionUser config
                        then snd r else [])]
                  else [])
            else []
        | None => []
        end
     ++ (if broadcastFn w then
           match findOne (WatchlistModel.activeChat (WA.chatId n))
                         (watchlist w) with
           | Some _ =>
               [Broadcast WATCHLIST_UPDATE
                  (JObj [ ("chatId", JStr (WA.chatId n));
                          ("event", JStr "member_join");
                          ("members", JStrs (WA.recipientIds n)) ])]
           | None => []
           end
         else []))%list.
Proof.
  unfold dispatch, handler, handleGroupJoin.
  unfold watchlistUpdate, findWatched, findSettings, sendToChat.
  unfold try_catch, bind, broadcast, gets, modify, ret, throw.
  destruct (findOne (SettingsModel.activeGroup (WA.chatId n))
                    (groupSettings w)) as [s|] eqn:F;
    destruct (findOne (WatchlistModel.activeChat (WA.chatId n))
                      (watchlist w)) as [e|] eqn:Fw;
    destruct (broadcastFn w) eqn:B;
    cbn [fst snd emit groupSettings watchlist broadcastFn effects];
    rewrite ?F;
    try (destruct (SettingsModel.enabled
                     (SettingsModel.welcome (SettingsModel.autoMessages s)))
           eqn:En);
    cbn [fst snd emit groupSettings watchlist broadcastFn effects];
    try (destruct (resolveJoined client
                     (SettingsModel.welcome (SettingsModel.autoMessages s))
                     (WA.recipientIds n)
                     (SettingsModel.message
                        (SettingsModel.welcome (SettingsModel.autoMessages s)))
                     []) as [text ms] eqn:R);
    try (destruct (WA.getChatById client (WA.chatId n)) eqn:Gc);
    cbn [fst snd emit groupSettings watchlist broadcastFn effects];
    try (destruct (WA.sendMessage client (WA.chatId n)) eqn:Sm);
    cbn [fst snd emit groupSettings watchlist broadcastFn effects];
    repeat progress
      (cbn [fst snd emit groupSettings watchlist broadcastFn effects];
       rewrite ?Fw, ?B);
    repeat rewrite <- app_assoc; rewrite ?app_nil_r; reflexivity.
Qed.

(** Everything a [group_leave] event adds to the effects. *)
Lemma leave_effects client now n w :
  effects (dispatch client now (on_group_leave n) w)
  = (effects w
     ++ (if broadcastFn w
         then [Broadcast GROUP_LEAVE
                 (Formatters.formatGroupNotification n now)]
         else [])
     ++ match findOne (SettingsModel.activeGroup (WA.chatId n))
                      (groupSettings w) with
        | Some s =>
            let config :=
              SettingsModel.farewell (SettingsModel.autoMessages s) in
            if SettingsModel.enabled config then
              Delay (JS.num_or (SettingsModel.delay config) 3000)
              :: (if WA.getChatById client (WA.chatId n) then
                    [SendMessage (WA.chatId n)
                       (JS.replace (SettingsModel.message config) "{user}"
                          (if (List.length (WA.recipientIds n) =? 1)%nat
                           then "member" else "members"))
                       []]
                  else [])
            else []
        | None => []
        end
     ++ (if broadcastFn w then
           match findOne (WatchlistModel.activeChat (WA.chatId n))
                         (watchlist w) with
           | Some _ =>
               [Broadcast WATCHLIST_UPDATE
                  (JObj [ ("chatId", JStr (WA.chatId n));
                          ("event", JStr "member_leave");
                          ("members", JStrs (WA.recipientIds n)) ])]
           | None => []
           end
         else []))%list.
Proof.
  unfold dispatch, handler, handleGroupLeave.
  unfold watchlistUpdate, findWatched, findSettings, sendToChat.
  unfold try_catch, bind, broadcast, gets, modify, ret, throw.
  destruct (findOne (SettingsModel.activeGroup (WA.chatId n))
                    (groupSettings w)) as [s|] eqn:F;
    destruct (findOne (WatchlistModel.activeChat (WA.chatId n))
                      (watchlist w)) as [e|] eqn:Fw;
    destruct (broadcastFn w) eqn:B;
    cbn [fst snd emit groupSettings watchlist broadcastFn effects];
    rewrite ?F;
    try (destruct (SettingsModel.enabled
                     (SettingsModel.farewell (SettingsModel.autoMessages s)))
           eqn:En);
    cbn [fst snd emit groupSettings watchlist broadcastFn effects];
    try (destruct (WA.getChatById client (WA.chatId n)) eqn:Gc);
    cbn [fst snd emit groupSettings watchlist broadcastFn effects];
    try (destruct (WA.sendMessage client (WA.chatId n)) eqn:Sm);
    cbn [fst snd emit groupSettings watchlist broadcastFn effects];
    repeat progress
      (cbn [fst snd emit groupSettings watchlist broadcastFn effects];
       rewrite ?Fw, ?B);
    repeat rewrite <- app_assoc; rewrite ?app_nil_r; reflexivity.
Qed.

End MembershipFacts.

Module PlaceholderFacts.







End PlaceholderFacts.




(** A [group_leave] event sends at most one message, only to a group
    that [getGroupsWithAutoMessage("farewell")] lists, and never with
    mentions: the first "{user}" of the configured text becomes "member"
    when one member left and "members" otherwise. *)
Theorem farewell_never_mentions
  (client : WA.Client) (now : Z) (n : WA.GroupNotification)
  (w : Handlers.World) :
  let w' := Handlers.dispatch client now (Handlers.on_group_leave n) w in
  Observe.sends (Handlers.effects w') = Observe.sends (Handlers.effects w)
  \/ exists s,
       In s (SettingsOps.getGroupsWithAutoMessage
               "farewell" (Handlers.groupSettings w))
       /\ SettingsModel.groupId s = WA.chatId n
       /\ Observe.sends (Handlers.effects w')
          = (Observe.sends (Handlers.effects w)
             ++ [Handlers.SendMessage (WA.chatId n)
                   (JS.replace
                      (SettingsModel.message
                         (SettingsModel.farewell
                            (SettingsModel.autoMessages s)))
                      "{user}"
                      (match WA.recipientIds n with
                       | [_] => "member"
                       | _ => "members"
                       end))
                   []])%list.
Proof.
  intros w'. unfold w'. rewrite MembershipFacts.leave_effects.
  unfold Observe.sends. rewrite !filter_app.
  destruct (findOne (SettingsModel.activeGroup (WA.chatId n))
                    (Handlers.groupSettings w)) as [s|] eqn:F.
  - destruct (findOne_In _ _ F) as [I A].
    unfold SettingsModel.activeGroup in A.
    apply andb_prop in A. destruct A as [A1 A2].
    apply String.eqb_eq in A1. cbv zeta.
    destruct (SettingsModel.enabled
                (SettingsModel.farewell (SettingsModel.autoMessages s)))
      eqn:En.
    + destruct (WA.getChatById client (WA.chatId n)).
      * right. exists s.
        split; [|split; [exact A1|]].
        -- unfold SettingsOps.getGroupsWithAutoMessage.
           apply filter_In. split; [exact I|].
           unfold SettingsOps.trigger. simpl. now rewrite En, A2.
        -- assert (L : (if (List.length (WA.recipientIds n) =? 1)%nat
                        then "member" else "members")
                       = match WA.recipientIds n with
                         | [_] => "member"
                         | _ => "members"
                         end).
           { destruct (WA.recipientIds n) as [|a [|b l]]; reflexivity. }
           rewrite L.
           destruct (Handlers.broadcastFn w);
             destruct (findOne (WatchlistModel.activeChat (WA.chatId n))
                               (Handlers.watchlist w));
             simpl; rewrite ?app_nil_r; reflexivity.
      * left.
        destruct (Handlers.broadcastFn w);
          destruct (findOne (WatchlistModel.activeChat (WA.chatId n))
                            (Handlers.watchlist w));
          simpl; now rewrite ?app_nil_r.
    + left.
      destruct (Handlers.broadcastFn w);
        destruct (findOne (WatchlistModel.activeChat (WA.chatId n))
                          (Handlers.watchlist w));
        simpl; now rewrite ?app_nil_r.
  - left.
    destruct (Handlers.broadcastFn w);
      destruct (findOne (WatchlistModel.activeChat (WA.chatId n))
                        (Handlers.watchlist w));
      simpl; now rewrite ?app_nil_r.
Qed.

(** The [watchlist:update] broadcast of a watched group does not depend
    on the automatic message: whether no trigger is configured, the chat
    does not resolve or the send is rejected, a join and a leave each
    add exactly one such broadcast, with the members of the
    notification. *)
Theorem membership_update_survives_send_failure
  (client : WA.Client) (now : Z) (n : WA.GroupNotification)
  (w : Handlers.World) (e : WatchlistModel.Entry) :
  Handlers.broadcastFn w = true ->
  findOne (WatchlistModel.activeChat (WA.chatId n)) (Handlers.watchlist w)
    = Some e ->
  Observe.broadcastsOf WATCHLIST_UPDATE
    (Handlers.effects
       (Handlers.dispatch client now (Handlers.on_group_join n) w))
  = (Observe.broadcastsOf WATCHLIST_UPDATE (Handlers.effects w)
     ++ [Handlers.Broadcast WATCHLIST_UPDATE
           (JObj [ ("chatId", JStr (WA.chatId n));
                   ("event", JStr "member_join");
                   ("members", JStrs (WA.recipientIds n)) ])])%list
  /\ Observe.broadcastsOf WATCHLIST_UPDATE
       (Handlers.effects
          (Handlers.dispatch client now (Handlers.on_group_leave n) w))
     = (Observe.broadcastsOf WATCHLIST_UPDATE (Handlers.effects w)
        ++ [Handlers.Broadcast WATCHLIST_UPDATE
              (JObj [ ("chatId", JStr (WA.chatId n));
                      ("event", JStr "member_leave");
                      ("members", JStrs (WA.recipientIds n)) ])])%list.
Proof.
  intros B F.
  rewrite MembershipFacts.join_effects, MembershipFacts.leave_effects.
  rewrite B, F. unfold Observe.broadcastsOf. rewrite !filter_app.
  split.
  - destruct (findOne (SettingsModel.activeGroup (WA.chatId n))
                      (Handlers.groupSettings w)) as [s|]; cbv zeta;
      [destruct (SettingsModel.enabled
                   (SettingsModel.welcome (SettingsModel.autoMessages s)));
       [destruct (WA.getChatById client (WA.chatId n))|]|];
      reflexivity.
  - destruct (findOne (SettingsModel.activeGroup (WA.chatId n))
                      (Handlers.groupSettings w)) as [s|]; cbv zeta;
      [destruct (SettingsModel.enabled
                   (SettingsModel.farewell (SettingsModel.autoMessages s)));
       [destruct (WA.getChatById client (WA.chatId n))|]|];
      reflexivity.
Qed.

(** alice joins the watched, greeting group on a session that rejects
    every send. *)
Lemma membership_update_survives_send_failure_witness :
  Observe.broadcastsOf WATCHLIST_UPDATE
    (Handlers.effects
       (Handlers.dispatch Faults.rejecting 600
          (Handlers.on_group_join Samples.aliceJoins) Faults.greeting))
  = [Handlers.Broadcast WATCHLIST_UPDATE
       (JObj [ ("chatId", JStr Samples.G);
               ("event", JStr "member_join");
               ("members", JStrs [Samples.alice]) ])].
Proof.
  apply (@membership_update_survives_send_failure Faults.rejecting 600
           Samples.aliceJoins Faults.greeting
           (Samples.watchedEntry Samples.G "Team" GROUP));
    reflexivity.
Defined.

(** ** The automatic messages of a group *)

(** [toggleAutoMessage] flips one trigger and nothing else, and flipping
    twice gives the settings back, for the three types the schema has.
    "announcement" passes the check of the type but has no trigger to
    flip; every other string is refused as invalid. *)
Theorem toggleAutoMessage_outcomes
  (type : string) (s : SettingsModel.GroupSettings) :
  match SettingsOps.toggleAutoMessage type s with
  | inl s' =>
      mem_string type ["welcome"; "farewell"; "rules"] = true
      /\ SettingsOps.toggleAutoMessage type s' = inl s
      /\ option_map SettingsModel.enabled
           (SettingsOps.trigger type (SettingsModel.autoMessages s'))
         = option_map (fun c => negb (SettingsModel.enabled c))
             (SettingsOps.trigger type (SettingsModel.autoMessages s))
      /\ option_map (SettingsOps.set_enabled false)
           (SettingsOps.trigger type (SettingsModel.autoMessages s'))
         = option_map (SettingsOps.set_enabled false)
             (SettingsOps.trigger type (SettingsModel.autoMessages s))
      /\ (forall other, other <> type ->
            SettingsOps.trigger other (SettingsModel.autoMessages s')
            = SettingsOps.trigger other (SettingsModel.autoMessages s))
      /\ SettingsOps.set_autoMessages (SettingsModel.autoMessages s) s' = s
  | inr SettingsOps.TypeError => type = "announcement"
  | inr SettingsOps.InvalidType =>
      mem_string type SettingsOps.AUTO_MESSAGE_TYPES_values = false
  end.
Proof.
  unfold SettingsOps.toggleAutoMessage, SettingsOps.AUTO_MESSAGE_TYPES_values,
    mem_string.
  cbn [existsb].
  destruct s as [g name [[e1 m1 r1 u1 i1 l1 d1] [e2 m2 r2 u2 i2 l2 d2]
                           [e3 m3 r3 u3 i3 l3 d3]] gr cp act nt].
  destruct (String.eqb type "welcome") eqn:E1.
  { apply String.eqb_eq in E1. subst type. cbn.
    rewrite negb_involutive.
    repeat split; try reflexivity.
    intros other H. unfold SettingsOps.trigger.
    destruct (String.eqb other "welcome") eqn:O; [|reflexivity].
    apply String.eqb_eq in O. congruence. }
  destruct (String.eqb type "farewell") eqn:E2.
  { apply String.eqb_eq in E2. subst type. cbn.
    rewrite negb_involutive.
    repeat split; try reflexivity.
    intros other H. unfold SettingsOps.trigger.
    destruct (String.eqb other "welcome"); [reflexivity|].
    destruct (String.eqb other "farewell") eqn:O; [|reflexivity].
    apply String.eqb_eq in O. congruence. }
  destruct (String.eqb type "rules") eqn:E3.
  { apply String.eqb_eq in E3. subst type. cbn.
    rewrite negb_involutive.
    repeat split; try reflexivity.
    intros other H. unfold SettingsOps.trigger.
    destruct (String.eqb other "welcome"); [reflexivity|].
    destruct (String.eqb other "farewell"); [reflexivity|].
    destruct (String.eqb other "rules") eqn:O; [|reflexivity].
    apply String.eqb_eq in O. congruence. }
  destruct (String.eqb type "announcement") eqn:E4; cbn.
  - now apply String.eqb_eq in E4.
  - reflexivity.
Qed.

(** The settings made for a group: the welcome is switched on and off
    again; "announcement" has nothing to switch. *)
Lemma toggleAutoMessage_outcomes_witness :
  SettingsOps.toggleAutoMessage "announcement" Samples.welcomeOff
  = inr SettingsOps.TypeError
  /\ exists s',
       SettingsOps.toggleAutoMessage "welcome" Samples.welcomeOff = inl s'
       /\ SettingsOps.toggleAutoMessage "welcome" s'
          = inl Samples.welcomeOff.
Proof.
  split; [reflexivity|].
  pose proof (@toggleAutoMessage_outcomes "welcome" Samples.welcomeOff) as H.
  destruct (SettingsOps.toggleAutoMessage "welcome" Samples.welcomeOff)
    as [s'|f] eqn:E.
  - exists s'. split; [reflexivity|]. apply H.
  - vm_compute in E. discriminate E.
Defined.

(** A group is greeted exactly when [toggleAutoMessage("welcome")] last
    left the trigger on: after a toggle of active settings the group is
    listed by [getGroupsWithAutoMessage("welcome")] if and only if it was
    not listed with the settings before. *)
Theorem toggle_welcome_flips_listing
  (s s' : SettingsModel.GroupSettings) :
  SettingsModel.isActive s = true ->
  SettingsOps.toggleAutoMessage "welcome" s = inl s' ->
  SettingsOps.getGroupsWithAutoMessage "welcome" [s']
  = (if SettingsModel.enabled
          (SettingsModel.welcome (SettingsModel.autoMessages s))
     then [] else [s'])
  /\ SettingsOps.getGroupsWithAutoMessage "welcome" [s]
     = (if SettingsModel.enabled
             (SettingsModel.welcome (SettingsModel.autoMessages s))
        then [s] else [])
  /\ SettingsOps.getGroupsWithAutoMessage "farewell" [s']
     = map (fun _ => s') (SettingsOps.getGroupsWithAutoMessage "farewell" [s]).
Proof.
  intros A. cbn. intros [= <-].
  unfold SettingsOps.getGroupsWithAutoMessage. cbn. rewrite A.
  destruct (SettingsModel.enabled
              (SettingsModel.welcome (SettingsModel.autoMessages s)));
    destruct (SettingsModel.enabled
                (SettingsModel.farewell (SettingsModel.autoMessages s)));
    repeat split; reflexivity.
Qed.

(** The settings created for a group have the welcome off; one toggle
    lists the group. *)
Lemma toggle_welcome_flips_listing_witness :
  exists s',
    SettingsOps.toggleAutoMessage "welcome" Samples.welcomeOff = inl s'
    /\ SettingsOps.getGroupsWithAutoMessage "welcome" [s'] = [s']
    /\ SettingsOps.getGroupsWithAutoMessage "welcome" [Samples.welcomeOff]
       = [].
Proof.
  eexists. split; [reflexivity|].
  destruct (@toggle_welcome_flips_listing Samples.welcomeOff _
              eq_refl eq_refl) as (H1 & H2 & _).
  split; [exact H1 | exact H2].
Defined.

(** ** The labels of the acknowledgement levels *)

(** The table the dispatcher indexes with [ack + 1] and the table of
    [formatAck] give the same label on the six levels from -1 to 4.
    Outside of them the formatter answers "unknown" and the dispatcher's
    broadcast carries no label. *)
Theorem ack_label_tables_agree (ack : Z) :
  Handlers.ackLabel ack
  = (if (-1 <=? ack) && (ack <=? 4)
     then JStr (Formatters.ackLabelOf ack) else JUndefined)
  /\ ((-1 <=? ack) && (ack <=? 4) = false ->
      Formatters.ackLabelOf ack = "unknown")
  /\ ((-1 <=? ack) && (ack <=? 4) = true ->
      Formatters.ackLabelOf ack <> "unknown").
Proof.
  destruct (Z.ltb_spec ack (-1)) as [L|L].
  { assert (E1 : (-1 <=? ack) = false) by (apply Z.leb_gt; lia).
    rewrite E1. cbn [andb]. split; [|split; [|discriminate]].
    - unfold Handlers.ackLabel.
      assert (E : (ack + 1 <? 0) = true) by (apply Z.ltb_lt; lia).
      now rewrite E.
    - intros _. unfold Formatters.ackLabelOf, ACK_ERROR, ACK_PENDING,
        ACK_SENT, ACK_RECEIVED, ACK_READ, ACK_PLAYED.
      repeat match goal with
             | |- context [?a =? ?b] =>
                 destruct (Z.eqb_spec a b); [lia|]
             end.
      reflexivity. }
  destruct (Z.ltb_spec 4 ack) as [G|G].
  { assert (E1 : (ack <=? 4) = false) by (apply Z.leb_gt; lia).
    rewrite E1, andb_false_r. split; [|split; [|discriminate]].
    - unfold Handlers.ackLabel.
      assert (E : (ack + 1 <? 0) = false) by (apply Z.ltb_ge; lia).
      rewrite E.
      assert (N : nth_error Handlers.ackLabels (Z.to_nat (ack + 1)) = None).
      { apply nth_error_None. simpl. lia. }
      now rewrite N.
    - intros _. unfold Formatters.ackLabelOf, ACK_ERROR, ACK_PENDING,
        ACK_SENT, ACK_RECEIVED, ACK_READ, ACK_PLAYED.
      repeat match goal with
             | |- context [?a =? ?b] =>
                 destruct (Z.eqb_spec a b); [lia|]
             end.
      reflexivity. }
  assert (C : ack = -1 \/ ack = 0 \/ ack = 1 \/ ack = 2 \/ ack = 3 \/ ack = 4)
    by lia.
  destruct C as [-> | [-> | [-> | [-> | [-> | ->]]]]];
    (split; [reflexivity | split; [discriminate | intros _; discriminate]]).
Qed.

(** Level 7, which the library does not define. *)
Lemma ack_label_tables_agree_witness :
  Handlers.ackLabel 7 = JUndefined
  /\ Formatters.ackLabelOf 7 = "unknown".
Proof.
  destruct (@ack_label_tables_agree 7) as (H1 & H2 & _).
  split; [exact H1 | apply H2; reflexivity].
Defined.

(** ** The connection state *)

Module ConnectionFacts.
Import Whatsapp.

(** What every step keeps. *)
Lemma reachable_inv (s : State) :
  reachable s ->
  (client s = false -> clientStatus s = DISCONNECTED /\ currentQR s = None)
  /\ (clientStatus s = QR_READY -> exists qr, currentQR s = Some qr)
  /\ (clientStatus s = READY -> client s = true).
Proof.
  intros R. induction R as [|i s R IH En].
  - simpl. repeat split; try discriminate.
  - destruct IH as (I1 & I2 & I3).
    destruct s as [c st qr]. simpl in *.
    destruct i; destruct c; destruct st; simpl in *;
      try discriminate En;
      try destruct destroyed; try destruct loggedOut; simpl in *;
      intuition (try discriminate; eauto).
Qed.

End ConnectionFacts.

(** In every state the module can reach: while the status is QR_READY a
    pairing payload is held, and [isClientReady] holds exactly when the
    status is READY, since that status is only ever set on a client that
    exists. *)
Theorem connection_state_invariants (s : Whatsapp.State) :
  Whatsapp.reachable s ->
  (Whatsapp.getClientStatus s = QR_READY ->
   exists qr, Whatsapp.getCurrentQR s = Some qr)
  /\ (Whatsapp.isClientReady s = true <-> Whatsapp.getClientStatus s = READY).
Proof.
  unfold Whatsapp.getClientStatus, Whatsapp.getCurrentQR,
    Whatsapp.isClientReady.
  intros R. destruct (ConnectionFacts.reachable_inv R) as (_ & I2 & I3).
  split; [exact I2|]. split.
  - intros H. apply andb_prop in H. destruct H as [_ H].
    now destruct (Whatsapp.clientStatus s).
  - intros H. rewrite (I3 H), H. reflexivity.
Qed.

(** The module after [initializeClient()] and a [qr] event. *)
Lemma connection_state_invariants_witness :
  let s := Whatsapp.run [Whatsapp.CallInitializeClient; Whatsapp.OnQr "2@abc"]
                        Whatsapp.initial in
  Whatsapp.getClientStatus s = QR_READY
  /\ (exists qr, Whatsapp.getCurrentQR s = Some qr)
  /\ Whatsapp.isClientReady s = false.
Proof.
  intros s.
  assert (R : Whatsapp.reachable s).
  { apply (Whatsapp.reachable_step (Whatsapp.OnQr "2@abc")
             (s := fst (Whatsapp.step Whatsapp.CallInitializeClient
                                      Whatsapp.initial))); [|reflexivity].
    apply (Whatsapp.reachable_step Whatsapp.CallInitializeClient
             (s := Whatsapp.initial)); [|reflexivity].
    apply Whatsapp.reachable_initial. }
  destruct (@connection_state_invariants s R) as [Q _].
  split; [reflexivity|]. split; [apply Q; reflexivity | reflexivity].
Defined.

(** Whenever an input changes the status, the last thing emitted is the
    [status] event with the new status, except for [destroyClient] and
    [logoutClient]: they set DISCONNECTED and emit nothing. *)
Theorem status_change_is_announced (i : Whatsapp.Input) (s : Whatsapp.State) :
  Whatsapp.clientStatus (fst (Whatsapp.step i s)) <> Whatsapp.clientStatus s ->
  (exists before,
      snd (Whatsapp.step i s)
      = (before ++ [Whatsapp.EmitStatus
                      (Whatsapp.clientStatus (fst (Whatsapp.step i s)))])%list)
  \/ ((i = Whatsapp.CallDestroyClient true
       \/ i = Whatsapp.CallLogoutClient true)
      /\ snd (Whatsapp.step i s) = []
      /\ Whatsapp.clientStatus (fst (Whatsapp.step i s)) = DISCONNECTED).
Proof.
  destruct i; simpl; intros H;
    try (left; exists []; reflexivity);
    try (left; eexists [_]; reflexivity);
    try congruence.
  - destruct (Whatsapp.client s
              && ClientStatus_eqb (Whatsapp.clientStatus s) READY);
      simpl in *; [congruence|]. left. exists []. reflexivity.
  - destruct (Whatsapp.client s); simpl in *; [|congruence].
    destruct destroyed; simpl in *; [|congruence].
    right. auto.
  - destruct (Whatsapp.client s); simpl in *; [|congruence].
    destruct loggedOut; simpl in *; [|congruence].
    right. auto.
Qed.

(** A ready session logs out: the status changes and nothing is
    emitted. *)
Lemma status_change_is_announced_witness :
  let s := Whatsapp.mkState true READY None in
  snd (Whatsapp.step (Whatsapp.CallLogoutClient true) s) = []
  /\ Whatsapp.clientStatus
       (fst (Whatsapp.step (Whatsapp.CallLogoutClient true) s))
     = DISCONNECTED.
Proof.
  intros s.
  destruct (@status_change_is_announced (Whatsapp.CallLogoutClient true) s
              ltac:(simpl; congruence))
    as [(before & E) | (_ & R)].
  - destruct before; discriminate E.
  - exact R.
Defined.

(** ** Paging with a cursor *)

Module CursorFacts.
Import MessageModel Observe.

Lemma filter_and (A : Type) (p q : A -> bool) (l : list A) :
  filter (fun x => p x && q x) l = filter q (filter p l).
Proof.
  induction l as [|x l IH]; simpl; [reflexivity|].
  destruct (p x); simpl; [destruct (q x)|]; now rewrite IH.
Qed.

Lemma sorted_filter (A : Type) (R : A -> A -> Prop) (q : A -> bool)
  (l : list A) :
  StronglySorted R l -> StronglySorted R (filter q l).
Proof.
  induction 1 as [|x l S IH F]; simpl; [constructor|].
  destruct (q x); [|exact IH]. constructor; [exact IH|].
  apply Forall_forall. intros y Hy. apply filter_In in Hy.
  rewrite Forall_forall in F. apply F. tauto.
Qed.

(** A page of records stored in increasing order of time: the last [n]
    of those the cursor admits. *)
Lemma page_of_sorted c n b a (cursor : Doc -> bool) coll :
  (0 < n)%nat ->
  (forall d, match b, a with
             | Some b, _ => timestamp d <? b
             | None, Some a => timestamp d >? a
             | None, None => true
             end = cursor d) ->
  StronglySorted older (visible c coll) ->
  getChatMessages c (mkOptions (Some n) b a None) coll
  = skipn (List.length (filter cursor (visible c coll)) - n)
          (filter cursor (visible c coll)).
Proof.
  intros Hn Hc S. unfold getChatMessages. cbn [optLimit withDefault].
  assert (E : filter (query c (mkOptions (Some n) b a None)) coll
              = filter cursor (visible c coll)).
  { unfold visible. rewrite <- filter_and. apply filter_ext.
    intros d. unfold query. cbn [includeDeleted withDefault before after].
    now rewrite Hc. }
  rewrite E.
  rewrite SortFacts.sortDesc_increasing by now apply sorted_filter.
  rewrite PageFacts.rev_limit by exact Hn.
  now rewrite rev_involutive.
Qed.

End CursorFacts.

(** On a conversation stored in increasing order of time, with a limit
    [n >= 1] and a cursor [t] other than 0 (which the code takes for no
    cursor): a [before] cursor gives the [n] records just before it, and
    wins over an [after] cursor given with it; an [after] cursor gives
    the [n] newest records after it, not the [n] that follow it, so the
    records between the cursor and the page are passed over when more
    than [n] are newer. *)
Theorem cursor_pages
  (coll : list MessageModel.Doc) (c : string) (n : nat) (t : Z) :
  (0 < n)%nat ->
  t <> 0 ->
  StronglySorted Observe.older (Observe.visible c coll) ->
  let olderThan :=
    filter (fun d => MessageModel.timestamp d <? t) (Observe.visible c coll) in
  let newerThan :=
    filter (fun d => MessageModel.timestamp d >? t) (Observe.visible c coll) in
  (forall a,
      MessageModel.getChatMessages
        c (MessageModel.mkOptions (Some n) (Some t) a None) coll
      = skipn (List.length olderThan - n) olderThan)
  /\ MessageModel.getChatMessages
       c (MessageModel.mkOptions (Some n) None (Some t) None) coll
     = skipn (List.length newerThan - n) newerThan.
Proof.
  intros Hn _ S olderThan newerThan. split.
  - intros a. apply CursorFacts.page_of_sorted; auto.
  - apply CursorFacts.page_of_sorted; auto.
Qed.

(** Three messages at seconds 100 < 200 < 300 and a limit of 1: after
    second 100 the page is the third message, and the second is passed
    over; before second 300 it is the second. *)
Lemma cursor_pages_witness :
  MessageModel.getChatMessages
    Samples.G (MessageModel.mkOptions (Some 1%nat) None (Some 100000) None)
    Samples.threeStored
  = [MessageModel.docOf Samples.msg3 0]
  /\ MessageModel.getChatMessages
       Samples.G
       (MessageModel.mkOptions (Some 1%nat) (Some 300000) (Some 100000) None)
       Samples.threeStored
     = [MessageModel.docOf Samples.msg2 0].
Proof.
  assert (S : StronglySorted Observe.older
                (Observe.visible Samples.G Samples.threeStored)).
  { repeat constructor. }
  split.
  - destruct (@cursor_pages Samples.threeStored Samples.G 1 100000
                ltac:(lia) ltac:(lia) S) as [_ A].
    rewrite A. reflexivity.
  - destruct (@cursor_pages Samples.threeStored Samples.G 1 300000
                ltac:(lia) ltac:(lia) S) as [B _].
    rewrite B. reflexivity.
Defined.

(** ** Settings made on demand *)

(** The settings [getOrCreate] makes for a group that has none keep the
    handlers quiet: a second call returns them and adds nothing, no
    listing by [getGroupsWithAutoMessage] changes, and a join or a leave
    in the group sends nothing. *)
Theorem fresh_settings_send_nothing
  (g name : string) (coll coll' : list SettingsModel.GroupSettings)
  (s : SettingsModel.GroupSettings)
  (client : WA.Client) (now : Z) (n : WA.GroupNotification)
  (w : Handlers.World) :
  findOne (SettingsModel.byGroupId g) coll = None ->
  SettingsModel.getOrCreate g name coll = Ok (coll', s) ->
  WA.chatId n = g ->
  Handlers.groupSettings w = coll' ->
  SettingsModel.getOrCreate g name coll' = Ok (coll', s)
  /\ (forall type,
        SettingsOps.getGroupsWithAutoMessage type coll'
        = SettingsOps.getGroupsWithAutoMessage type coll)
  /\ Observe.sends
       (Handlers.effects
          (Handlers.dispatch client now (Handlers.on_group_join n) w))
     = Observe.sends (Handlers.effects w)
  /\ Observe.sends
       (Handlers.effects
          (Handlers.dispatch client now (Handlers.on_group_leave n) w))
     = Observe.sends (Handlers.effects w).
Proof.
  intros F. unfold SettingsModel.getOrCreate. rewrite F.
  destruct (required "groupId" g); [|discriminate].
  destruct (required "groupName" name); [|discriminate].
  intros [= <- <-] Hn Hw.
  set (s := SettingsModel.mkGroupSettings g name
              (SettingsModel.mkAutoMessages
                 SettingsModel.defaultWelcome SettingsModel.defaultFarewell
                 SettingsModel.defaultRules) "" "!" true "") in *.
  assert (Fa : findOne (SettingsModel.activeGroup g) coll = None).
  { clear -F. induction coll as [|x l IH]; [reflexivity|].
    simpl in *. unfold SettingsModel.activeGroup.
    unfold SettingsModel.byGroupId in F at 1.
    destruct (String.eqb (SettingsModel.groupId x) g); [discriminate|].
    simpl. now apply IH. }
  assert (Fs : findOne (SettingsModel.activeGroup (WA.chatId n))
                       (Handlers.groupSettings w) = Some s).
  { rewrite Hw, Hn. rewrite (findOne_app_none _ _ s Fa).
    unfold SettingsModel.activeGroup. simpl. now rewrite String.eqb_refl. }
  split; [|split; [|split]].
  - rewrite (findOne_app_none _ _ s F).
    unfold SettingsModel.byGroupId. simpl. now rewrite String.eqb_refl.
  - intros type. unfold SettingsOps.getGroupsWithAutoMessage.
    rewrite filter_app. cbn [filter].
    assert (T : match SettingsOps.trigger type (SettingsModel.autoMessages s)
                with
                | Some c => SettingsModel.enabled c
                | None => false
                end = false).
    { unfold SettingsOps.trigger.
      destruct (String.eqb type "welcome"); [reflexivity|].
      destruct (String.eqb type "farewell"); [reflexivity|].
      destruct (String.eqb type "rules"); reflexivity. }
    rewrite T. cbn [andb]. apply app_nil_r.
  - rewrite MembershipFacts.join_effects, Fs.
    unfold Observe.sends. rewrite !filter_app. simpl.
    destruct (Handlers.broadcastFn w);
      destruct (findOne (WatchlistModel.activeChat (WA.chatId n))
                        (Handlers.watchlist w));
      simpl; now rewrite ?app_nil_r.
  - rewrite MembershipFacts.leave_effects, Fs.
    unfold Observe.sends. rewrite !filter_app. simpl.
    destruct (Handlers.broadcastFn w);
      destruct (findOne (WatchlistModel.activeChat (WA.chatId n))
                        (Handlers.watchlist w));
      simpl; now rewrite ?app_nil_r.
Qed.

(** Settings are made for the group, then alice joins. *)
Lemma fresh_settings_send_nothing_witness :
  SettingsModel.getOrCreate Samples.G "Team" [] = Ok ([Samples.welcomeOff],
                                                      Samples.welcomeOff)
  /\ Observe.sends
       (Handlers.effects
          (Handlers.dispatch Samples.session 600
             (Handlers.on_group_join Samples.aliceJoins)
             (Samples.withSettings Samples.welcomeOff))) = [].
Proof.
  split; [reflexivity|].
  destruct (@fresh_settings_send_nothing Samples.G "Team" []
              [Samples.welcomeOff] Samples.welcomeOff Samples.session 600
              Samples.aliceJoins (Samples.withSettings Samples.welcomeOff)
              eq_refl eq_refl eq_refl eq_refl) as (_ & _ & J & _).
  exact J.
Defined.

(** ** Pins *)

(** [togglePin] of the service flips the pin of the active entry of the
    conversation and nothing else, so that a second call gives the
    collection back. *)
Theorem togglePin_twice_restores
  (chatId : string) (coll coll' : list WatchlistModel.Entry)
  (e : WatchlistModel.Entry) :
  WatchlistQueries.togglePin chatId coll = inl (coll', e) ->
  exists e0,
    WatchlistService.getWatchlistItem chatId coll = inl e0
    /\ WatchlistModel.pinned e = negb (WatchlistModel.pinned e0)
    /\ WatchlistModel.togglePin e = e0
    /\ WatchlistQueries.togglePin chatId coll' = inl (coll, e0).
Proof.
  unfold WatchlistQueries.togglePin, WatchlistService.getWatchlistItem.
  set (c := WatchlistService.normalizeId chatId).
  destruct (findOne (WatchlistModel.activeChat c) coll) as [e0|] eqn:F;
    [|discriminate].
  intros [= <- <-]. exists e0.
  assert (T : forall d, WatchlistModel.togglePin (WatchlistModel.togglePin d)
                        = d).
  { intros []. unfold WatchlistModel.togglePin. simpl.
    now rewrite negb_involutive. }
  split; [reflexivity|]. split; [now destruct e0|]. split; [apply T|].
  rewrite findOne_updateFirst by (intros []; reflexivity).
  rewrite F. simpl.
  rewrite RecordFacts.updateFirst_twice by (intros []; reflexivity).
  rewrite (RegistryFacts.updateFirst_fixed _ _ _ F (T e0)).
  now rewrite T.
Qed.

(** The watched group is pinned and unpinned. *)
Lemma togglePin_twice_restores_witness :
  exists e0,
    WatchlistService.getWatchlistItem Samples.G Samples.someWatchlist
    = inl e0
    /\ WatchlistModel.pinned e0 = false
    /\ WatchlistQueries.togglePin Samples.G
         (updateFirst (WatchlistModel.activeChat Samples.G)
                      WatchlistModel.togglePin Samples.someWatchlist)
       = inl (Samples.someWatchlist, e0).
Proof.
  destruct (@togglePin_twice_restores Samples.G Samples.someWatchlist
              _ _ eq_refl) as (e0 & G & _ & _ & T).
  exists e0. split; [exact G|]. split; [|exact T].
  vm_compute in G. injection G as <-. reflexivity.
Defined.
